(** * Read/write split router: statement routing

    A shallow embedding of
    [server/modules/routing/readwritesplit/rwsplit_route_stmt.cc],
    of the fetch-and-add operations of [server/core/atomic.cc], and of the
    source-address and pattern-mapping functions of
    [server/modules/filter/namedserverfilter/namedserverfilter.cc].

    Conventions of the embedding.
    - A [SRWBackend] (a shared pointer to a backend handle) is an optional
      index into the session's [backends] list: the list is the store of
      handle objects, [None] is the null pointer, and pointer equality is
      index equality.  Mutating a handle is an update of the store at that
      index, so every alias ([current_master], [target_node], a local
      [target]) observes it.
    - Counters whose width the source shows ([uint64_t] positions and
      statistics, the byte count of a data load that is printed as an
      unsigned long, the [int] count of successes and the [int] locals of
      the keepalive) are integers with their wrap-around written out;
      [expected_responses] and the lag values, declared in headers that
      are not among the sources, are plain integers.
    - Collaborators whose code is not among the sources (the backend class,
      the classifier, the comparison functions, the C library) enter in one
      of three ways: what they compute from a request buffer is carried as
      an attribute of the buffer; what they do to an object is a variable
      of the section [Router], so that the results hold for any behaviour
      they have; and where the router's own result is theirs, they are
      defined from the specification, under a comment that says so. *)

From Stdlib Require Import ZArith Lia Bool Ascii String.
From stdpp Require Import base list strings.

Local Open Scope Z_scope.

(** ** Enumerations and bit fields *)

Inductive backend_type_t := BE_UNDEFINED | BE_MASTER | BE_SLAVE.

Inductive load_data_state_t :=
  LOAD_DATA_INACTIVE | LOAD_DATA_START | LOAD_DATA_ACTIVE | LOAD_DATA_END.

Inductive failure_mode := RW_FAIL_INSTANTLY | RW_FAIL_ON_WRITE | RW_ERROR_ON_WRITE.

Inductive mxs_target_t := TYPE_UNDEFINED | TYPE_MASTER | TYPE_ALL.

Inductive reply_state_t :=
  REPLY_STATE_START | REPLY_STATE_DONE | REPLY_STATE_RSET_COLDEF | REPLY_STATE_RSET_ROWS.

Inductive response_type := EXPECT_RESPONSE | NO_RESPONSE.

Inductive HINT_TYPE :=
  | HINT_ROUTE_TO_MASTER
  | HINT_ROUTE_TO_SLAVE
  | HINT_ROUTE_TO_NAMED_SERVER
  | HINT_ROUTE_TO_UPTODATE_SERVER
  | HINT_ROUTE_TO_ALL
  | HINT_PARAMETER.

(** Modelled from the spec: the route target is a bit field combining a
    coarse role (ALL / PRIMARY / SLAVE) with the modifiers NAMED_SERVER and
    RLAG_MAX.  The enumeration [route_target_t] is declared in a header
    that is not among the sources; the bits are pairwise distinct. *)
Definition TARGET_UNDEFINED : Z := 0.
Definition TARGET_MASTER : Z := 1.
Definition TARGET_SLAVE : Z := 2.
Definition TARGET_NAMED_SERVER : Z := 4.
Definition TARGET_ALL : Z := 8.
Definition TARGET_RLAG_MAX : Z := 16.

Definition TARGET_IS_MASTER (t : Z) : bool := negb (Z.land t TARGET_MASTER =? 0).
Definition TARGET_IS_SLAVE (t : Z) : bool := negb (Z.land t TARGET_SLAVE =? 0).
Definition TARGET_IS_NAMED_SERVER (t : Z) : bool := negb (Z.land t TARGET_NAMED_SERVER =? 0).
Definition TARGET_IS_ALL (t : Z) : bool := negb (Z.land t TARGET_ALL =? 0).
Definition TARGET_IS_RLAG_MAX (t : Z) : bool := negb (Z.land t TARGET_RLAG_MAX =? 0).

(** Modelled from the spec: the classifier's query-type flags (a bit field
    declared by the query classifier, which is not among the sources). *)
Definition QUERY_TYPE_UNKNOWN : Z := 0.
Definition QUERY_TYPE_READ : Z := 2.
Definition QUERY_TYPE_WRITE : Z := 4.
Definition QUERY_TYPE_MASTER_READ : Z := 8.
Definition QUERY_TYPE_SESSION_WRITE : Z := 16.
Definition QUERY_TYPE_USERVAR_WRITE : Z := 32.
Definition QUERY_TYPE_USERVAR_READ : Z := 64.
Definition QUERY_TYPE_SYSVAR_READ : Z := 128.
Definition QUERY_TYPE_GSYSVAR_READ : Z := 512.
Definition QUERY_TYPE_GSYSVAR_WRITE : Z := 1024.
Definition QUERY_TYPE_ENABLE_AUTOCOMMIT : Z := 4096.
Definition QUERY_TYPE_DISABLE_AUTOCOMMIT : Z := 8192.
Definition QUERY_TYPE_PREPARE_NAMED_STMT : Z := 65536.
Definition QUERY_TYPE_PREPARE_STMT : Z := 131072.
Definition QUERY_TYPE_CREATE_TMP_TABLE : Z := 524288.
Definition QUERY_TYPE_SHOW_TABLES : Z := 4194304.

(** [qc_query_is_type] of the classifier's interface: every bit of [type]
    is set in [typemask]. *)
Definition qc_query_is_type (typemask type : Z) : bool :=
  Z.land typemask type =? type.

(** Modelled from the spec: the replication lag is a number of seconds or
    the sentinel "unknown"; a second sentinel stands for "no bound".  Both
    are macros of a header that is not among the sources. *)
Definition MAX_RLAG_NOT_AVAILABLE : Z := -1.
Definition MAX_RLAG_UNDEFINED : Z := -2.

(** Modelled from the spec: the commands of the client protocol that the
    router tells apart (quit, stmt-prepare, stmt-send-long-data,
    stmt-close), with their codes in the wire protocol. *)
Definition MYSQL_COM_QUIT : Z := 1.
Definition MYSQL_COM_STMT_PREPARE : Z := 22.
Definition MYSQL_COM_STMT_SEND_LONG_DATA : Z := 24.
Definition MYSQL_COM_STMT_CLOSE : Z := 25.

(** ** C strings *)

(** [tolower] in the C locale, on the code of a character. *)
Definition tolower (c : ascii) : Z :=
  let n := Z.of_nat (nat_of_ascii c) in
  if (65 <=? n) && (n <=? 90) then n + 32 else n.

(** [strncasecmp s1 s2 n]: compares at most [n] characters, ignoring case,
    and stops at the end of either string; the sign of the result orders
    the strings and 0 means that they agree. *)
Fixpoint strncasecmp (s1 s2 : string) (n : nat) {struct n} : Z :=
  match n with
  | O => 0
  | S n' =>
      match s1, s2 with
      | EmptyString, EmptyString => 0
      | EmptyString, String c2 _ => 0 - tolower c2
      | String c1 _, EmptyString => tolower c1
      | String c1 r1, String c2 r2 =>
          if tolower c1 =? tolower c2 then strncasecmp r1 r2 n'
          else tolower c1 - tolower c2
      end
  end.

Definition strlen (s : string) : nat := String.length s.

(** [strcasecmp]: as [strncasecmp] without the bound. *)
Definition strcasecmp (s1 s2 : string) : Z :=
  strncasecmp s1 s2 (S (Nat.max (strlen s1) (strlen s2))).

(** ** Data *)

Record HINT := {
  hint_type : HINT_TYPE;
  hint_data : string;      (* server name, or the key of a parameter *)
  hint_value : string      (* the value of a parameter *)
}.

(** A request buffer.  The hint chain ([hint], linked by [next] in the
    source) is a list.  The other fields carry what the classifier adapter
    reports for the buffer: [determine_packet_type] (command byte and the
    non-empty flag), [determine_query_type], [check_for_multi_stmt],
    [is_packet_a_query], [qc_get_operation] = [QUERY_OP_LOAD],
    [is_read_tmp_table], [gwbuf_length] and [MYSQL_GET_COMMAND]. *)
Record GWBUF := {
  hint : list HINT;
  non_empty_packet : bool;
  packet_type : Z;
  query_type : Z;
  multi_stmt : bool;
  packet_is_query : bool;
  op_is_load : bool;
  reads_tmp_table : bool;
  gwbuf_length : Z;
  mysql_command : Z;
  collect_result : bool    (* GWBUF_TYPE_COLLECT_RESULT *)
}.

Record SERVER := {
  unique_name : string;
  rlag : Z;
  depth : Z;
  srv_master : bool;       (* SERVER_IS_MASTER of the status word *)
  srv_slave : bool;        (* SERVER_IS_SLAVE *)
  srv_relay : bool         (* SERVER_IS_RELAY_SERVER *)
}.

(** Modelled from the spec: the role flags of a server.  The macros that
    read them off the status word are in a header that is not among the
    sources; the record holds their results. *)
Definition SERVER_IS_MASTER (s : SERVER) : bool := srv_master s.
Definition SERVER_IS_SLAVE (s : SERVER) : bool := srv_slave s.
Definition SERVER_IS_RELAY_SERVER (s : SERVER) : bool := srv_relay s.

Record SessionCommand := {
  sc_buffer : GWBUF;
  get_position : Z
}.

Record RWBackend := {
  in_use : bool;
  is_active : bool;
  is_waiting_result : bool;
  server : SERVER;
  session_commands : list SessionCommand;
  last_read : Z;
  reply_state : reply_state_t
}.

(** A shared pointer to a handle of the session. *)
Definition SRWBackend := option nat.

Definition ptr_eqb (a b : SRWBackend) : bool :=
  match a, b with
  | None, None => true
  | Some i, Some j => Nat.eqb i j
  | _, _ => false
  end.

Definition is_set (a : SRWBackend) : bool :=
  match a with Some _ => true | None => false end.

Record MXS_SESSION := {
  trx_is_active : bool;
  trx_is_read_only : bool;
  trx_is_ending : bool;
  current_command : Z;                 (* mxs_mysql_current_command *)
  stmt : option (GWBUF * SERVER)       (* the statement kept for a retry *)
}.

(** What the router itself writes to the client. *)
Inductive client_packet := READ_ONLY_ERROR.

Record DCB := {
  session : MXS_SESSION;
  dcb_data : bool;                     (* the user data pointer is not null *)
  written : list client_packet         (* packets written to the client *)
}.

Record Config := {
  slave_selection_criteria : nat;
  use_sql_variables_in : mxs_target_t;
  master_failure_mode : failure_mode;
  max_sescmd_history : Z;
  disable_sescmd_history : bool;
  retry_failed_reads : bool;
  master_accept_reads : bool;
  strict_multi_stmt : bool;
  connection_keepalive : Z
}.

Record ROUTER_INSTANCE := {
  rwsplit_config : Config;
  n_queries : Z;                        (* uint64_t statistics *)
  n_master : Z;
  n_slave : Z
}.

Record ROUTER_CLIENT_SES := {
  backends : list RWBackend;
  current_master : SRWBackend;
  target_node : SRWBackend;
  rses_config : Config;
  sescmd_count : Z;                     (* uint64_t *)
  sent_sescmd : Z;                      (* uint64_t *)
  expected_responses : Z;
  sescmd_list : list SessionCommand;
  sescmd_responses : list (Z * Z);      (* ResponseMap: position -> reply *)
  load_data_state : load_data_state_t;
  rses_load_data_sent : Z;
  have_tmp_tables : bool;
  client_dcb : DCB
}.

Definition session_trx_is_active (s : MXS_SESSION) : bool := trx_is_active s.
Definition session_trx_is_read_only (s : MXS_SESSION) : bool := trx_is_read_only s.
Definition session_trx_is_ending (s : MXS_SESSION) : bool := trx_is_ending s.

Definition mxs_target_eqb (a b : mxs_target_t) : bool :=
  match a, b with
  | TYPE_UNDEFINED, TYPE_UNDEFINED | TYPE_MASTER, TYPE_MASTER | TYPE_ALL, TYPE_ALL => true
  | _, _ => false
  end.

Definition load_data_state_eqb (a b : load_data_state_t) : bool :=
  match a, b with
  | LOAD_DATA_INACTIVE, LOAD_DATA_INACTIVE | LOAD_DATA_START, LOAD_DATA_START
  | LOAD_DATA_ACTIVE, LOAD_DATA_ACTIVE | LOAD_DATA_END, LOAD_DATA_END => true
  | _, _ => false
  end.

(** ** The route-target resolver *)

(** The loop over the hint chain at the end of [get_route_target]. *)
Fixpoint process_hints (target : Z) (hint : list HINT) : Z :=
  match hint with
  | [] => target
  | h :: next =>
      match hint_type h with
      | HINT_ROUTE_TO_MASTER => TARGET_MASTER (* override, and break *)
      | HINT_ROUTE_TO_NAMED_SERVER =>
          process_hints (Z.lor target TARGET_NAMED_SERVER) next
      | HINT_ROUTE_TO_UPTODATE_SERVER => process_hints target next
      | HINT_ROUTE_TO_ALL => process_hints target next
      | HINT_PARAMETER =>
          if strncasecmp (hint_data h) "max_slave_replication_lag"
               (strlen "max_slave_replication_lag") =? 0
          then process_hints (Z.lor target TARGET_RLAG_MAX) next
          else process_hints target next
      | HINT_ROUTE_TO_SLAVE => process_hints TARGET_SLAVE next
      end
  end.

(** The target chosen by [get_route_target] before the hints are read. *)
Definition route_target_of_query (rses : ROUTER_CLIENT_SES) (qtype : Z) : Z :=
  let trx_active := session_trx_is_active (session (client_dcb rses)) in
  let load_active :=
    negb (load_data_state_eqb (load_data_state rses) LOAD_DATA_INACTIVE) in
  let use_sql_variables_in := use_sql_variables_in (rses_config rses) in
  let target := TARGET_UNDEFINED in
  if is_set (target_node rses) && ptr_eqb (target_node rses) (current_master rses)
  then TARGET_MASTER
  else if negb load_active &&
          (qc_query_is_type qtype QUERY_TYPE_SESSION_WRITE ||
           (mxs_target_eqb use_sql_variables_in TYPE_ALL &&
            qc_query_is_type qtype QUERY_TYPE_USERVAR_WRITE) ||
           qc_query_is_type qtype QUERY_TYPE_GSYSVAR_WRITE ||
           qc_query_is_type qtype QUERY_TYPE_ENABLE_AUTOCOMMIT ||
           qc_query_is_type qtype QUERY_TYPE_DISABLE_AUTOCOMMIT)
  then
    let target :=
      if qc_query_is_type qtype QUERY_TYPE_READ &&
         negb (qc_query_is_type qtype QUERY_TYPE_PREPARE_STMT ||
               qc_query_is_type qtype QUERY_TYPE_PREPARE_NAMED_STMT)
      then TARGET_MASTER else target in
    Z.lor target TARGET_ALL
  else if negb trx_active && negb load_active &&
          negb (qc_query_is_type qtype QUERY_TYPE_MASTER_READ) &&
          negb (qc_query_is_type qtype QUERY_TYPE_WRITE) &&
          negb (qc_query_is_type qtype QUERY_TYPE_PREPARE_STMT) &&
          negb (qc_query_is_type qtype QUERY_TYPE_PREPARE_NAMED_STMT) &&
          (qc_query_is_type qtype QUERY_TYPE_READ ||
           qc_query_is_type qtype QUERY_TYPE_SHOW_TABLES ||
           qc_query_is_type qtype QUERY_TYPE_USERVAR_READ ||
           qc_query_is_type qtype QUERY_TYPE_SYSVAR_READ ||
           qc_query_is_type qtype QUERY_TYPE_GSYSVAR_READ)
  then
    let target :=
      if qc_query_is_type qtype QUERY_TYPE_USERVAR_READ
      then (if mxs_target_eqb use_sql_variables_in TYPE_ALL
            then TARGET_SLAVE else target)
      else if qc_query_is_type qtype QUERY_TYPE_READ ||
              qc_query_is_type qtype QUERY_TYPE_SHOW_TABLES ||
              qc_query_is_type qtype QUERY_TYPE_SYSVAR_READ ||
              qc_query_is_type qtype QUERY_TYPE_GSYSVAR_READ
      then TARGET_SLAVE else target in
    (* If nothing matches then choose the master *)
    if Z.land target (Z.lor (Z.lor TARGET_ALL TARGET_SLAVE) TARGET_MASTER) =? 0
    then TARGET_MASTER else target
  else if session_trx_is_read_only (session (client_dcb rses))
  then TARGET_SLAVE (* READ ONLY transaction, active or ending *)
  else TARGET_MASTER.

Definition get_route_target (rses : ROUTER_CLIENT_SES) (qtype : Z)
    (hint : list HINT) : Z :=
  process_hints (route_target_of_query rses qtype) hint.

(** ** Field updates *)

Definition set_backends (r : ROUTER_CLIENT_SES) (v : list RWBackend) : ROUTER_CLIENT_SES :=
  Build_ROUTER_CLIENT_SES v (current_master r) (target_node r) (rses_config r)
    (sescmd_count r) (sent_sescmd r) (expected_responses r) (sescmd_list r)
    (sescmd_responses r) (load_data_state r) (rses_load_data_sent r)
    (have_tmp_tables r) (client_dcb r).

Definition set_target_node (r : ROUTER_CLIENT_SES) (v : SRWBackend) : ROUTER_CLIENT_SES :=
  Build_ROUTER_CLIENT_SES (backends r) (current_master r) v (rses_config r)
    (sescmd_count r) (sent_sescmd r) (expected_responses r) (sescmd_list r)
    (sescmd_responses r) (load_data_state r) (rses_load_data_sent r)
    (have_tmp_tables r) (client_dcb r).

Definition set_expected_responses (r : ROUTER_CLIENT_SES) (v : Z) : ROUTER_CLIENT_SES :=
  Build_ROUTER_CLIENT_SES (backends r) (current_master r) (target_node r) (rses_config r)
    (sescmd_count r) (sent_sescmd r) v (sescmd_list r)
    (sescmd_responses r) (load_data_state r) (rses_load_data_sent r)
    (have_tmp_tables r) (client_dcb r).

Definition set_load_data_state (r : ROUTER_CLIENT_SES) (v : load_data_state_t) : ROUTER_CLIENT_SES :=
  Build_ROUTER_CLIENT_SES (backends r) (current_master r) (target_node r) (rses_config r)
    (sescmd_count r) (sent_sescmd r) (expected_responses r) (sescmd_list r)
    (sescmd_responses r) v (rses_load_data_sent r)
    (have_tmp_tables r) (client_dcb r).

Definition set_rses_load_data_sent (r : ROUTER_CLIENT_SES) (v : Z) : ROUTER_CLIENT_SES :=
  Build_ROUTER_CLIENT_SES (backends r) (current_master r) (target_node r) (rses_config r)
    (sescmd_count r) (sent_sescmd r) (expected_responses r) (sescmd_list r)
    (sescmd_responses r) (load_data_state r) v
    (have_tmp_tables r) (client_dcb r).

Definition set_have_tmp_tables (r : ROUTER_CLIENT_SES) (v : bool) : ROUTER_CLIENT_SES :=
  Build_ROUTER_CLIENT_SES (backends r) (current_master r) (target_node r) (rses_config r)
    (sescmd_count r) (sent_sescmd r) (expected_responses r) (sescmd_list r)
    (sescmd_responses r) (load_data_state r) (rses_load_data_sent r)
    v (client_dcb r).

Definition set_client_dcb (r : ROUTER_CLIENT_SES) (v : DCB) : ROUTER_CLIENT_SES :=
  Build_ROUTER_CLIENT_SES (backends r) (current_master r) (target_node r) (rses_config r)
    (sescmd_count r) (sent_sescmd r) (expected_responses r) (sescmd_list r)
    (sescmd_responses r) (load_data_state r) (rses_load_data_sent r)
    (have_tmp_tables r) v.

Definition set_history_off (c : Config) : Config :=
  Build_Config (slave_selection_criteria c) (use_sql_variables_in c)
    (master_failure_mode c) 0 true (retry_failed_reads c)
    (master_accept_reads c) (strict_multi_stmt c) (connection_keepalive c).

Definition set_max_sescmd_history (c : Config) (v : Z) : Config :=
  Build_Config (slave_selection_criteria c) (use_sql_variables_in c)
    (master_failure_mode c) v (disable_sescmd_history c) (retry_failed_reads c)
    (master_accept_reads c) (strict_multi_stmt c) (connection_keepalive c).

Definition set_rses_config (r : ROUTER_CLIENT_SES) (v : Config) : ROUTER_CLIENT_SES :=
  Build_ROUTER_CLIENT_SES (backends r) (current_master r) (target_node r) v
    (sescmd_count r) (sent_sescmd r) (expected_responses r) (sescmd_list r)
    (sescmd_responses r) (load_data_state r) (rses_load_data_sent r)
    (have_tmp_tables r) (client_dcb r).

Definition set_session_commands (b : RWBackend) (v : list SessionCommand) : RWBackend :=
  Build_RWBackend (in_use b) (is_active b) (is_waiting_result b) (server b) v
    (last_read b) (reply_state b).

Definition set_reply_state (b : RWBackend) (v : reply_state_t) : RWBackend :=
  Build_RWBackend (in_use b) (is_active b) (is_waiting_result b) (server b)
    (session_commands b) (last_read b) v.

Definition gwbuf_set_collect_result (q : GWBUF) : GWBUF :=
  Build_GWBUF (hint q) (non_empty_packet q) (packet_type q) (query_type q)
    (multi_stmt q) (packet_is_query q) (op_is_load q) (reads_tmp_table q)
    (gwbuf_length q) (mysql_command q) true.

(** Modelled from the spec: [send_readonly_error] is not among the sources.
    Under error-on-write a write that finds no primary "replies with a
    synthetic read-only error packet" and the session is kept open: the
    packet is written to the client DCB and the call reports that it was
    sent. *)
Definition send_readonly_error (dcb : DCB) : bool * DCB :=
  (true, Build_DCB (session dcb) (dcb_data dcb) (written dcb ++ [READ_ONLY_ERROR])).

(** ** Counters *)

Definition UINT64_MOD : Z := 2 ^ 64.

(** [atomic_add_uint64]: fetch-and-add on a 64-bit unsigned counter; the
    pair is the value returned (the old one) and the counter afterwards. *)
Definition atomic_add_uint64 (variable value : Z) : Z * Z :=
  (variable, (variable + value) mod UINT64_MOD).

(** Addition on [int], two's complement. *)
Definition int_add (a b : Z) : Z := (a + b + 2 ^ 31) mod 2 ^ 32 - 2 ^ 31.

(** The conversion of an integer to [int], two's complement. *)
Definition to_int (z : Z) : Z := (z + 2 ^ 31) mod 2 ^ 32 - 2 ^ 31.

(** ** The router *)

Section Router.

(** The table [criteria_cmpfun] of comparison functions, one per selection
    criterion; a positive result means that the first handle has the larger
    criterion value. *)
Variable criteria_cmpfun : nat -> RWBackend -> RWBackend -> Z.

(** Methods of the backend class: enqueueing a session command, the
    position of the command at the head of the queue
    ([next_session_command()->get_position()]), executing that command,
    writing a buffer, closing the connection. *)
Variable append_session_command : RWBackend -> SessionCommand -> RWBackend.
Variable next_session_command_position : RWBackend -> Z.
Variable execute_session_command : RWBackend -> bool * RWBackend.
Variable backend_write : RWBackend -> GWBUF -> response_type -> bool * RWBackend.
Variable backend_close : RWBackend -> RWBackend.

(** Protocol helpers. *)
Variable command_will_respond : Z -> bool.
Variable modutil_ignorable_ping : RWBackend -> RWBackend.
Variable rses_get_max_replication_lag : ROUTER_CLIENT_SES -> Z.

(** The broadcast path of [route_single_stmt]. *)
Variable handle_target_is_all :
  Z -> ROUTER_INSTANCE -> ROUTER_CLIENT_SES -> GWBUF -> Z -> Z ->
  bool * (ROUTER_INSTANCE * ROUTER_CLIENT_SES).

(** The C library: [strtol] in base 10 converted to [int], and [errno] as
    it reads after that call. *)
Variable strtol : string -> Z.
Variable errno_after_strtol : string -> Z.

(** The global heartbeat clock. *)
Variable hkheartbeat : Z.

(** A handle met while iterating over [rses->backends]: the pointer and
    the object it designates. *)
Definition bref : Type := nat * RWBackend.

Definition handles (rses : ROUTER_CLIENT_SES) : list bref :=
  imap (fun i b => (i, b)) (backends rses).

Definition bref_ptr (c : option bref) : SRWBackend :=
  match c with Some it => Some (fst it) | None => None end.

(** *** Backend selection *)

Definition check_candidate_bref (cand new_bref : option bref) (sc : nat)
    : option bref :=
  let p := criteria_cmpfun sc in
  match new_bref with
  | None => cand
  | Some n =>
      match cand with
      | None => new_bref
      | Some c => if 0 <? p (snd c) (snd n) then new_bref else cand
      end
  end.

(** The test on the replication lag that [get_target_backend] repeats:
    no bound, or a known lag within the bound. *)
Definition rlag_within (max_rlag : Z) (b : RWBackend) : bool :=
  (max_rlag =? MAX_RLAG_UNDEFINED) ||
  (negb (rlag (server b) =? MAX_RLAG_NOT_AVAILABLE) &&
   (rlag (server b) <=? max_rlag)).

(** One iteration of the loop of [get_root_master_bref]. *)
Definition root_master_step (candidate : option bref) (it : bref) : option bref :=
  let b := snd it in
  if in_use b then
    if SERVER_IS_MASTER (server b) then
      match candidate with
      | None => Some it
      | Some c =>
          if depth (server b) <? depth (server (snd c)) then Some it else candidate
      end
    else candidate
  else candidate.

Definition get_root_master_bref (rses : ROUTER_CLIENT_SES) : option bref :=
  fold_left root_master_step (handles rses) None.

(** One iteration of the loop of [get_target_backend] for [BE_SLAVE]; the
    state is [candidate_bref] and [succp]. *)
Definition slave_scan_step (rses : ROUTER_CLIENT_SES) (max_rlag : Z)
    (st : option bref * bool) (it : bref) : option bref * bool :=
  let b := snd it in
  let candidate_bref := fst st in
  if negb (in_use b) || negb (is_active b) ||
     (negb (SERVER_IS_MASTER (server b)) && negb (SERVER_IS_SLAVE (server b)))
  then st
  else
    match candidate_bref with
    | None =>
        if SERVER_IS_MASTER (server b) && ptr_eqb (Some (fst it)) (current_master rses)
        then (Some it, true)      (* found master *)
        else if rlag_within max_rlag b
        then (Some it, true)      (* found slave *)
        else st
    | Some c =>
        if SERVER_IS_MASTER (server (snd c)) && SERVER_IS_SLAVE (server b) &&
           rlag_within max_rlag b &&
           negb (master_accept_reads (rses_config rses))
        then (Some it, true)      (* found slave *)
        else if SERVER_IS_SLAVE (server b) ||
                (master_accept_reads (rses_config rses) &&
                 SERVER_IS_MASTER (server b))
        then
          if rlag_within max_rlag b
          then (check_candidate_bref candidate_bref (Some it)
                  (slave_selection_criteria (rses_config rses)), snd st)
          else st
        else st
    end.

(** The test of the loop that looks a handle up by the name of a hint. *)
Definition named_server_match (name : string) (it : bref) : bool :=
  let b := snd it in
  in_use b && is_active b &&
  (strcasecmp name (unique_name (server b)) =? 0) &&
  (SERVER_IS_SLAVE (server b) || SERVER_IS_RELAY_SERVER (server b) ||
   SERVER_IS_MASTER (server b)).

(** [get_target_backend]: [target] is passed by reference, so the function
    takes its value on entry and returns it with the result. *)
Definition get_target_backend (rses : ROUTER_CLIENT_SES) (btype : backend_type_t)
    (name : option string) (max_rlag : Z) (target : SRWBackend)
    : bool * SRWBackend :=
  if is_set (target_node rses) &&
     session_trx_is_read_only (session (client_dcb rses))
  then (true, target_node rses)
  else
    let master_bref := get_root_master_bref rses in
    let found :=
      match name with
      | Some n => List.find (named_server_match n) (handles rses)
      | None => None
      end in
    match found with
    | Some it => (true, Some (fst it))
    | None =>
        (* No server found, use a normal slave for it *)
        let btype := match name with Some _ => BE_SLAVE | None => btype end in
        match btype with
        | BE_SLAVE =>
            let st := fold_left (slave_scan_step rses max_rlag) (handles rses)
                        (None, false) in
            (snd st, match fst st with Some c => Some (fst c) | None => target end)
        | BE_MASTER =>
            match master_bref with
            | Some m =>
                if is_active (snd m) then
                  if in_use (snd m) then
                    if SERVER_IS_MASTER (server (snd m))
                    then (true, Some (fst m))
                    else (false, target)
                  else (false, target)
                else (false, target)
            | None => (false, target)
            end
        | BE_UNDEFINED => (false, target)
        end
    end.

(** *** Session writes *)

(** The loop of [route_session_write] over the handles; the accumulators
    are [nsucc], [rses->expected_responses] and [lowest_pos]. *)
Fixpoint session_write_loop (sescmd : SessionCommand) (expecting_response : bool)
    (it : list RWBackend) (nsucc expected lowest_pos : Z)
    : list RWBackend * (Z * Z * Z) :=
  match it with
  | [] => ([], (nsucc, expected, lowest_pos))
  | b :: rest =>
      if in_use b then
        let b1 := append_session_command b sescmd in
        let current_pos := next_session_command_position b1 in
        let lowest_pos := if current_pos <? lowest_pos then current_pos else lowest_pos in
        let r := execute_session_command b1 in
        let nsucc' := if fst r then int_add nsucc 1 else nsucc in
        let expected' :=
          if fst r && expecting_response then expected + 1 else expected in
        let k := session_write_loop sescmd expecting_response rest
                   nsucc' expected' lowest_pos in
        (snd r :: fst k, snd k)
      else
        let k := session_write_loop sescmd expecting_response rest
                   nsucc expected lowest_pos in
        (b :: fst k, snd k)
  end.

(** [sescmd_responses.erase(begin(), lower_bound(lowest_pos))], done only
    when [lower_bound] is not [end()]. *)
Definition prune_responses (lowest_pos : Z) (m : list (Z * Z)) : list (Z * Z) :=
  if existsb (fun kv => lowest_pos <=? fst kv) m
  then List.filter (fun kv => lowest_pos <=? fst kv) m
  else m.

Definition route_session_write (rses : ROUTER_CLIENT_SES) (querybuf : GWBUF)
    (command : Z) : bool * ROUTER_CLIENT_SES :=
  let id := sescmd_count rses in
  let count := (sescmd_count rses + 1) mod UINT64_MOD in
  let sescmd := {| sc_buffer := querybuf; get_position := id |} in
  let expecting_response := command_will_respond command in
  let k := session_write_loop sescmd expecting_response (backends rses)
             0 (expected_responses rses) id in
  let nsucc := fst (fst (snd k)) in
  let expected := snd (fst (snd k)) in
  let lowest_pos := snd (snd k) in
  let cfg := rses_config rses in
  let bound_hit :=
    (0 <? max_sescmd_history cfg) && (max_sescmd_history cfg <=? count) in
  let cfg := if bound_hit then set_history_off cfg else cfg in
  let log := if bound_hit then [] else sescmd_list rses in
  let responses :=
    if disable_sescmd_history cfg
    then prune_responses lowest_pos (sescmd_responses rses)
    else sescmd_responses rses in
  let log := if disable_sescmd_history cfg then log else log ++ [sescmd] in
  let sent := if nsucc =? 0 then sent_sescmd rses else id in
  (negb (nsucc =? 0),
   Build_ROUTER_CLIENT_SES (fst k) (current_master rses) (target_node rses) cfg
     count sent expected log responses (load_data_state rses)
     (rses_load_data_sent rses) (have_tmp_tables rses) (client_dcb rses)).

(** *** Routing of a single statement *)

(** [keepalive] and [diff] are [int] locals: the product and the difference
    of the 64-bit ticks are narrowed to 32 bits. *)
Definition handle_connection_keepalive (inst : ROUTER_INSTANCE)
    (rses : ROUTER_CLIENT_SES) (target : SRWBackend) : ROUTER_CLIENT_SES :=
  (* Each heartbeat is 1/10th of a second *)
  let keepalive := to_int (connection_keepalive (rwsplit_config inst) * 10) in
  set_backends rses
    (imap (fun i b =>
             if in_use b && negb (ptr_eqb (Some i) target) &&
                negb (is_waiting_result b)
             then
               let diff := to_int (hkheartbeat - last_read b) in
               if keepalive <? diff then modutil_ignorable_ping b else b
             else b)
          (backends rses)).

(** Modelled from the spec: the tracking of temporary tables updates
    [have_tmp_tables] ([check_create_tmp_table] marks the session when the
    statement creates a temporary table); the set of table names that
    [check_drop_tmp_table] maintains is not represented. *)
Definition check_create_tmp_table (rses : ROUTER_CLIENT_SES) (querybuf : GWBUF)
    (qtype : Z) : ROUTER_CLIENT_SES :=
  if qc_query_is_type qtype QUERY_TYPE_CREATE_TMP_TABLE
  then set_have_tmp_tables rses true else rses.

(** [qtype] is passed by pointer: the function returns it with the
    session. *)
Definition handle_multi_temp_and_load (rses : ROUTER_CLIENT_SES) (querybuf : GWBUF)
    (ptype : Z) (qtype : Z) : ROUTER_CLIENT_SES * Z :=
  let s1 :=
    if (negb (is_set (target_node rses)) ||
        negb (ptr_eqb (target_node rses) (current_master rses))) &&
       multi_stmt querybuf
    then
      if is_set (current_master rses)
      then (set_target_node rses (current_master rses), qtype)
      else (rses, Z.lor qtype QUERY_TYPE_WRITE)
    else (rses, qtype) in
  let s2 :=
    if negb (dcb_data (client_dcb (fst s1))) then s1
    else
      let qtype :=
        if have_tmp_tables (fst s1) && packet_is_query querybuf &&
           reads_tmp_table querybuf
        then Z.lor (snd s1) QUERY_TYPE_MASTER_READ else snd s1 in
      (check_create_tmp_table (fst s1) querybuf qtype, qtype) in
  let rses := fst s2 in
  let rses :=
    match load_data_state rses with
    | LOAD_DATA_ACTIVE =>
        set_rses_load_data_sent rses
          ((rses_load_data_sent rses + gwbuf_length querybuf) mod UINT64_MOD)
    | _ =>
        if packet_is_query querybuf && op_is_load querybuf
        then set_rses_load_data_sent (set_load_data_state rses LOAD_DATA_START) 0
        else rses
    end in
  (rses, snd s2).

(** The loop of [handle_hinted_target] over the hint chain; the state is
    [named_server] and [rlag_max]. *)
Fixpoint hinted_target_scan (hint : list HINT) (named_server : option string)
    (rlag_max : Z) : option string * Z :=
  match hint with
  | [] => (named_server, rlag_max)
  | h :: next =>
      match hint_type h with
      | HINT_ROUTE_TO_NAMED_SERVER =>
          hinted_target_scan next (Some (hint_data h)) rlag_max
      | HINT_PARAMETER =>
          if strncasecmp (hint_data h) "max_slave_replication_lag"
               (strlen "max_slave_replication_lag") =? 0
          then
            let val := strtol (hint_value h) in
            if negb (val =? 0) || (errno_after_strtol (hint_value h) =? 0)
            then hinted_target_scan next named_server val
            else hinted_target_scan next named_server rlag_max
          else hinted_target_scan next named_server rlag_max
      | _ => hinted_target_scan next named_server rlag_max
      end
  end.

Definition handle_hinted_target (rses : ROUTER_CLIENT_SES) (querybuf : GWBUF)
    (route_target : Z) (target : SRWBackend) : bool * SRWBackend :=
  let s := hinted_target_scan (hint querybuf) None MAX_RLAG_UNDEFINED in
  let named_server := fst s in
  let rlag_max :=
    if snd s =? MAX_RLAG_UNDEFINED (* no rlag max hint, use config *)
    then rses_get_max_replication_lag rses else snd s in
  (* target may be master or slave *)
  let btype :=
    if negb (Z.land route_target TARGET_SLAVE =? 0) then BE_SLAVE else BE_MASTER in
  get_target_backend rses btype named_server rlag_max target.

Definition add_n_slave (inst : ROUTER_INSTANCE) : ROUTER_INSTANCE :=
  Build_ROUTER_INSTANCE (rwsplit_config inst) (n_queries inst) (n_master inst)
    (snd (atomic_add_uint64 (n_slave inst) 1)).

Definition add_n_master (inst : ROUTER_INSTANCE) : ROUTER_INSTANCE :=
  Build_ROUTER_INSTANCE (rwsplit_config inst) (n_queries inst)
    (snd (atomic_add_uint64 (n_master inst) 1)) (n_slave inst).

Definition add_n_queries (inst : ROUTER_INSTANCE) : ROUTER_INSTANCE :=
  Build_ROUTER_INSTANCE (rwsplit_config inst)
    (snd (atomic_add_uint64 (n_queries inst) 1)) (n_master inst) (n_slave inst).

Definition handle_slave_is_target (inst : ROUTER_INSTANCE) (rses : ROUTER_CLIENT_SES)
    (target : SRWBackend) : bool * SRWBackend * ROUTER_INSTANCE :=
  let rlag_max := rses_get_max_replication_lag rses in
  let r := get_target_backend rses BE_SLAVE None rlag_max target in
  if fst r then (true, snd r, add_n_slave inst) else (false, snd r, inst).

Definition failure_mode_eqb (a b : failure_mode) : bool :=
  match a, b with
  | RW_FAIL_INSTANTLY, RW_FAIL_INSTANTLY | RW_FAIL_ON_WRITE, RW_FAIL_ON_WRITE
  | RW_ERROR_ON_WRITE, RW_ERROR_ON_WRITE => true
  | _, _ => false
  end.

(** [rses->current_master->close()], guarded by
    [rses->current_master && rses->current_master->in_use()]. *)
Definition close_current_master (rses : ROUTER_CLIENT_SES) : ROUTER_CLIENT_SES :=
  match current_master rses with
  | Some m =>
      match backends rses !! m with
      | Some b =>
          if in_use b
          then set_backends rses (<[m := backend_close b]> (backends rses))
          else rses
      | None => rses
      end
  | None => rses
  end.

Definition handle_master_is_target (inst : ROUTER_INSTANCE) (rses : ROUTER_CLIENT_SES)
    (target : SRWBackend)
    : bool * SRWBackend * ROUTER_INSTANCE * ROUTER_CLIENT_SES :=
  let r := get_target_backend rses BE_MASTER None MAX_RLAG_UNDEFINED target in
  let succp := fst r in
  let target := snd r in
  if succp && ptr_eqb target (current_master rses)
  then (succp, target, add_n_master inst, rses)
  else
    (* The original master is not available, we can't route the write *)
    if failure_mode_eqb (master_failure_mode (rses_config rses)) RW_ERROR_ON_WRITE
    then
      let e := send_readonly_error (client_dcb rses) in
      (fst e, target, inst, close_current_master (set_client_dcb rses (snd e)))
    else (false, target, inst, rses).

Definition query_creates_reply (cmd : Z) : bool :=
  negb (cmd =? MYSQL_COM_QUIT) &&
  negb (cmd =? MYSQL_COM_STMT_SEND_LONG_DATA) &&
  negb (cmd =? MYSQL_COM_STMT_CLOSE).

(** Modelled from the spec: the statement is kept in the session-scoped
    retry slot ([session_store_stmt]); its result is only logged. *)
Definition session_store_stmt (s : MXS_SESSION) (querybuf : GWBUF) (srv : SERVER)
    : MXS_SESSION :=
  Build_MXS_SESSION (trx_is_active s) (trx_is_read_only s) (trx_is_ending s)
    (current_command s) (Some (querybuf, srv)).

(** [handle_got_target].  [target] is not null here; a pointer that
    designates no handle of the session is answered as a failed write. *)
Definition handle_got_target (inst : ROUTER_INSTANCE) (rses : ROUTER_CLIENT_SES)
    (querybuf : GWBUF) (target : nat) (store : bool)
    : bool * ROUTER_INSTANCE * ROUTER_CLIENT_SES :=
  let read_only := session_trx_is_read_only (session (client_dcb rses)) in
  let rses :=
    if negb (is_set (target_node rses)) && read_only
    then set_target_node rses (Some target) else rses in
  (* We only want the complete response to the preparation *)
  let querybuf :=
    if mysql_command querybuf =? MYSQL_COM_STMT_PREPARE
    then gwbuf_set_collect_result querybuf else querybuf in
  let cmd := current_command (session (client_dcb rses)) in
  let response :=
    if negb (load_data_state_eqb (load_data_state rses) LOAD_DATA_ACTIVE) &&
       query_creates_reply cmd
    then EXPECT_RESPONSE else NO_RESPONSE in
  match backends rses !! target with
  | None => (false, inst, rses)
  | Some b =>
      let w := backend_write b querybuf response in
      let rses := set_backends rses (<[target := snd w]> (backends rses)) in
      if fst w then
        let rses :=
          if store
          then set_client_dcb rses
                 (Build_DCB (session_store_stmt (session (client_dcb rses))
                               querybuf (server (snd w)))
                            (dcb_data (client_dcb rses))
                            (written (client_dcb rses)))
          else rses in
        let inst := add_n_queries inst in
        let rses :=
          match response with
          | EXPECT_RESPONSE =>
              (* The server will reply to this command *)
              let rses :=
                set_backends rses
                  (<[target := set_reply_state (snd w) REPLY_STATE_START]>
                     (backends rses)) in
              let rses := set_expected_responses rses (expected_responses rses + 1) in
              match load_data_state rses with
              | LOAD_DATA_START => set_load_data_state rses LOAD_DATA_ACTIVE
              | LOAD_DATA_END => set_load_data_state rses LOAD_DATA_INACTIVE
              | _ => rses
              end
          | NO_RESPONSE => rses
          end in
        (* If a READ ONLY transaction is ending set forced_node to NULL *)
        let rses :=
          if is_set (target_node rses) && read_only &&
             session_trx_is_ending (session (client_dcb rses))
          then set_target_node rses None else rses in
        (true, inst, rses)
      else (false, inst, rses)
  end.

(** The first part of [route_single_stmt]: the route target of the
    statement and the session as that computation leaves it. *)
Definition resolve_route_target (rses : ROUTER_CLIENT_SES) (querybuf : GWBUF)
    : Z * Z * ROUTER_CLIENT_SES :=
  let ptype := packet_type querybuf in
  let qtype := query_type querybuf in
  if non_empty_packet querybuf then
    let s := handle_multi_temp_and_load rses querybuf ptype qtype in
    (get_route_target (fst s) (snd s) (hint querybuf), snd s, fst s)
  else
    (* Empty packet signals end of LOAD DATA LOCAL INFILE, send it to master *)
    (TARGET_MASTER, qtype, set_load_data_state rses LOAD_DATA_END).

(** The second part: selection of the backend for a target that is not
    ALL; the result is [succp], [target], [store_stmt] and the state. *)
Definition select_target (inst : ROUTER_INSTANCE) (rses : ROUTER_CLIENT_SES)
    (querybuf : GWBUF) (route_target : Z)
    : bool * SRWBackend * bool * ROUTER_INSTANCE * ROUTER_CLIENT_SES :=
  let target : SRWBackend := None in
  if TARGET_IS_NAMED_SERVER route_target || TARGET_IS_RLAG_MAX route_target
  then
    let r := handle_hinted_target rses querybuf route_target target in
    (fst r, snd r, false, inst, rses)
  else if TARGET_IS_SLAVE route_target
  then
    let r := handle_slave_is_target inst rses target in
    (fst (fst r), snd (fst r), retry_failed_reads (rses_config rses), snd r, rses)
  else if TARGET_IS_MASTER route_target
  then
    let r := handle_master_is_target inst rses target in
    let rses := snd r in
    let rses :=
      if negb (strict_multi_stmt (rses_config rses)) &&
         ptr_eqb (target_node rses) (current_master rses)
      then (* Reset the forced node as we're in relaxed multi-statement mode *)
        set_target_node rses None
      else rses in
    (fst (fst (fst r)), snd (fst (fst r)), false, snd (fst r), rses)
  else (false, target, false, inst, rses).

(** The third part: from the route target to the end of
    [route_single_stmt]. *)
Definition dispatch_stmt (inst : ROUTER_INSTANCE) (rses : ROUTER_CLIENT_SES)
    (querybuf : GWBUF) (route_target qtype : Z)
    : bool * (ROUTER_INSTANCE * ROUTER_CLIENT_SES) :=
  let r :=
    if TARGET_IS_ALL route_target
    then
      let a := handle_target_is_all route_target inst rses querybuf
                 (packet_type querybuf) qtype in
      (fst a, None, fst (snd a), snd (snd a))
    else
      let s := select_target inst rses querybuf route_target in
      let succp := fst (fst (fst (fst s))) in
      let target := snd (fst (fst (fst s))) in
      let store_stmt := snd (fst (fst s)) in
      match target with
      | Some t =>
          if succp (* Have DCB of the target backend *)
          then
            let g := handle_got_target (snd (fst s)) (snd s) querybuf t store_stmt in
            (succp, target, snd (fst g), snd g)
          else (succp, target, snd (fst s), snd s)
      | None => (succp, target, snd (fst s), snd s)
      end in
  let succp := fst (fst (fst r)) in
  let target := snd (fst (fst r)) in
  let inst := snd (fst r) in
  let rses := snd r in
  let rses :=
    if succp && negb (connection_keepalive (rwsplit_config inst) =? 0) &&
       (TARGET_IS_SLAVE route_target || TARGET_IS_MASTER route_target)
    then handle_connection_keepalive inst rses target else rses in
  (succp, (inst, rses)).

Definition route_single_stmt (inst : ROUTER_INSTANCE) (rses : ROUTER_CLIENT_SES)
    (querybuf : GWBUF) : bool * (ROUTER_INSTANCE * ROUTER_CLIENT_SES) :=
  let rt := resolve_route_target rses querybuf in
  dispatch_stmt inst (snd rt) querybuf (fst (fst rt)) (snd (fst rt)).

(** *** Atomic operations

    [server/core/atomic.cc]: the fetch-and-add operations on [int] and on
    [int64_t], beside [atomic_add_uint64] above.  Each returns the value
    that the variable held and leaves the sum in it, in the arithmetic of
    the type of the variable. *)

Definition atomic_add (variable value : Z) : Z * Z :=
  (variable, int_add variable value).

Definition atomic_add_int64 (variable value : Z) : Z * Z :=
  (variable, (variable + value + 2 ^ 63) mod 2 ^ 64 - 2 ^ 63).

(** *** The named-server filter

    [server/modules/filter/namedserverfilter/namedserverfilter.cc].  A C
    string is the [string] of its bytes before the terminator; an address
    ([sin_addr.s_addr]) is an unsigned 32-bit integer. *)

(** [pcre2_match] on a compiled pattern and the text of a statement: the
    number of the highest matched group, or a negative error code, of which
    [PCRE2_ERROR_NOMATCH] says that the text does not match. *)
Variable pcre2_match : nat -> string -> Z.
Variable PCRE2_ERROR_NOMATCH : Z.

(** [getaddrinfo] on a host: the address of the first result when the call
    returns 0, nothing when it fails. *)
Variable getaddrinfo : string -> option Z.

(** The length of the text of an IPv4 address, from the system headers. *)
Variable INET_ADDRSTRLEN : nat.

(** A pattern with its targets; [m_regex] is the handle of the compiled
    pattern. *)
Record RegexToServers := {
  m_match : string;
  m_regex : nat;
  m_targets : list string;
  m_htype : HINT_TYPE;
  m_error_printed : bool
}.

Record SourceHost := {
  m_address : string;
  m_ipv4 : Z;
  m_netmask : Z
}.

Definition set_error_printed (r : RegexToServers) : RegexToServers :=
  Build_RegexToServers (m_match r) (m_regex r) (m_targets r) (m_htype r) true.

(** The loop of [find_servers] from index [i]: the index of the mapping
    returned, and the index of the mapping at which matching failed with an
    error. *)
Fixpoint find_servers_scan (sql : string) (l : list RegexToServers) (i : nat)
    : option nat * option nat :=
  match l with
  | [] => (None, None)
  | r :: rest =>
      let result := pcre2_match (m_regex r) sql in
      if 0 <=? result
      then (Some i, None)               (* Have a match *)
      else if negb (result =? PCRE2_ERROR_NOMATCH)
      then (None, Some i)               (* Error during matching *)
      else find_servers_scan sql rest (S i)
  end.

(** [find_servers]: the result points into [m_mapping], hence an index;
    the mapping is returned with its [m_error_printed] flags. *)
Definition find_servers (m_mapping : list RegexToServers) (sql : string)
    : option nat * list RegexToServers :=
  let s := find_servers_scan sql m_mapping 0 in
  (fst s,
   match snd s with
   | Some i => alter set_error_printed i m_mapping
   | None => m_mapping
   end).

(** [isdigit] in the C locale. *)
Definition isdigit (c : ascii) : bool :=
  let n := Z.of_nat (nat_of_ascii c) in (48 <=? n) && (n <=? 57).

(** [*host]: the first byte of a C string, the terminator when the string
    is empty. *)
Definition first_byte (host : string) : ascii :=
  match host with
  | String c _ => c
  | EmptyString => Ascii.zero
  end.

(** The byte before the terminator, when the string is not empty. *)
Fixpoint last_byte (host : string) : option ascii :=
  match host with
  | EmptyString => None
  | String c EmptyString => Some c
  | String _ rest => last_byte rest
  end.

(** The loop of [validate_ip_address] over the bytes: [n_dots] at the end,
    or nothing when a byte is not allowed. *)
Fixpoint count_dots (host : string) (n_dots : Z) : option Z :=
  match host with
  | EmptyString => Some n_dots
  | String c rest =>
      if negb (isdigit c) && negb (Ascii.eqb c ".") && negb (Ascii.eqb c "%")
      then None
      else count_dots rest (if Ascii.eqb c "." then n_dots + 1 else n_dots)
  end.

Definition validate_ip_address (host : string) : bool :=
  (* Match any is not allowed, start with dot not allowed, host len can't
     be greater than INET_ADDRSTRLEN *)
  if Ascii.eqb (first_byte host) "%" || Ascii.eqb (first_byte host) "." ||
     (INET_ADDRSTRLEN <? strlen host)%nat
  then false
  else
    match count_dots host 0 with
    | None => false
    | Some n_dots =>
        (* Check IPv4 max number of dots and last char *)
        (n_dots =? 3) &&
        negb (match last_byte host with
              | Some c => Ascii.eqb c "."
              | None => false
              end)
    end.

(** [strchr (s, c) != NULL]. *)
Fixpoint strchr (s : string) (c : ascii) : bool :=
  match s with
  | EmptyString => false
  | String d rest => Ascii.eqb d c || strchr rest c
  end.

(** The loop of [set_source_address] over [input_host]: the text written
    to [format_host] and the netmask at the end. *)
Fixpoint format_host_scan (p : string) (bytes netmask : Z) : string * Z :=
  match p with
  | EmptyString => (EmptyString, netmask)
  | String c rest =>
      if bytes <=? 3
      then
        let bytes := if Ascii.eqb c "." then bytes + 1 else bytes in
        if Ascii.eqb c "%"
        then
          let r := format_host_scan rest bytes (netmask - 8) in
          (String (if bytes =? 3 then "1"%char else "0"%char) (fst r), snd r)
        else
          let r := format_host_scan rest bytes netmask in
          (String c (fst r), snd r)
      else (EmptyString, netmask)
  end.

(** [set_source_address] on a host that is not null; nothing is the null
    pointer that the function returns on error. *)
Definition set_source_address (input_host : string) : option SourceHost :=
  if negb (validate_ip_address input_host)
  then None
  else
    let address := input_host in
    let ipv4 := 0 in
    let netmask := 32 in
    (* If no wildcards, leave netmask to 32 and return *)
    if negb (strchr input_host "%")
    then Some (Build_SourceHost address ipv4 netmask)
    else
      let s := format_host_scan input_host 0 netmask in
      let netmask := snd s in
      match getaddrinfo input_host with
      | Some addr =>
          (* if netmask < 32 there are % wildcards *)
          let ipv4 := if netmask <? 32 then Z.land addr 0x00FFFFFF else addr in
          Some (Build_SourceHost address ipv4 netmask)
      | None => None
      end.

(** [check_source_host]: [remote] is the text of the client's address and
    [ip] the address of its socket. *)
Definition check_source_host (m_source : SourceHost) (remote : string) (ip : Z) : bool :=
  let ret := false in
  let check_ipv4 := ip in
  let s :=
    if m_netmask m_source =? 32
    then (String.eqb (m_address m_source) remote, check_ipv4)
    else if m_netmask m_source =? 24
    then (ret, Z.land check_ipv4 0x00FFFFFF)     (* Class C check *)
    else if m_netmask m_source =? 16
    then (ret, Z.land check_ipv4 0x0000FFFF)     (* Class B check *)
    else if m_netmask m_source =? 8
    then (ret, Z.land check_ipv4 0x000000FF)     (* Class A check *)
    else (ret, check_ipv4) in
  if m_netmask m_source <? 32
  then snd s =? m_ipv4 m_source
  else fst s.

Definition MATCH_STR : string := "match".
Definition TARGET_STR : string := "target".

(** [sizeof] of an array that holds a string literal: its bytes and the
    terminator. *)
Definition sizeof_literal (s : string) : nat := S (strlen s).

(** The decimal digits of a number, most significant first. *)
Fixpoint decimal_digits (fuel n : nat) (acc : string) : string :=
  match fuel with
  | O => acc
  | S fuel' =>
      let acc := String (ascii_of_nat (48 + n mod 10)) acc in
      if (n / 10 =? 0)%nat then acc else decimal_digits fuel' (n / 10) acc
  end.

(** The conversion [%02d] of a number that is not negative: its decimal
    digits, with a leading zero when there is only one. *)
Definition format_02d (n : nat) : string :=
  let d := decimal_digits (S n) n EmptyString in
  if (String.length d <? 2)%nat then String "0" d else d.

(** [snprintf (str, size, "%s%02d", s, n)]: the text left in [str], which
    holds at most [size - 1] bytes of the formatted text. *)
Definition snprintf_s02d (size : nat) (s : string) (n : nat) : string :=
  substring 0 (size - 1) (s ++ format_02d n).

(** The loop of [generate_param_names] with [n] iterations to go; the
    state is the two arrays of names. *)
Fixpoint generate_param_names_loop (n counter : nat)
    (arrays : list string * list string) : list string * list string :=
  match n with
  | O => arrays
  | S n' =>
      let namelen_match := (sizeof_literal MATCH_STR + 2)%nat in
      let namelen_server := (sizeof_literal TARGET_STR + 2)%nat in
      let name_match := snprintf_s02d namelen_match MATCH_STR counter in
      let name_server := snprintf_s02d namelen_server TARGET_STR counter in
      (* Have both names, add them to the global vectors *)
      generate_param_names_loop n' (S counter)
        (fst arrays ++ [name_match], snd arrays ++ [name_server])
  end.

(** [generate_param_names] for a number of pairs that is not negative, on
    the arrays [param_names_match_indexed] and
    [param_names_target_indexed]; the assertions of the debug build are
    left out. *)
Definition generate_param_names (pairs : nat) (arrays : list string * list string)
    : list string * list string :=
  generate_param_names_loop pairs 1 arrays.

(** ** Vocabulary of the properties *)

(** The characters of a string folded to lower case. *)
Fixpoint lowercase (s : string) : list Z :=
  match s with
  | EmptyString => []
  | String c r => tolower c :: lowercase r
  end.

(** [key] begins with [name], letters compared without their case. *)
Definition begins_with_ignoring_case (key name : string) : Prop :=
  exists pre rest : string,
    key = (pre ++ rest)%string /\ lowercase pre = lowercase name.

(** The statement types that [get_route_target] sends to all backends. *)
Definition changes_session_state (rses : ROUTER_CLIENT_SES) (qtype : Z) : bool :=
  qc_query_is_type qtype QUERY_TYPE_SESSION_WRITE ||
  (mxs_target_eqb (use_sql_variables_in (rses_config rses)) TYPE_ALL &&
   qc_query_is_type qtype QUERY_TYPE_USERVAR_WRITE) ||
  qc_query_is_type qtype QUERY_TYPE_GSYSVAR_WRITE ||
  qc_query_is_type qtype QUERY_TYPE_ENABLE_AUTOCOMMIT ||
  qc_query_is_type qtype QUERY_TYPE_DISABLE_AUTOCOMMIT.

(** ** Sample sessions *)

Definition sample_server (name : string) (master slave : bool) (lag : Z) : SERVER :=
  {| unique_name := name; rlag := lag; depth := 0;
     srv_master := master; srv_slave := slave; srv_relay := false |}.

Definition sample_backend (used : bool) (srv : SERVER) : RWBackend :=
  {| in_use := used; is_active := true; is_waiting_result := false;
     server := srv; session_commands := []; last_read := 0;
     reply_state := REPLY_STATE_DONE |}.

Definition sample_config (mode : failure_mode) (accept_reads strict : bool)
    (history : Z) : Config :=
  {| slave_selection_criteria := 0%nat; use_sql_variables_in := TYPE_ALL;
     master_failure_mode := mode; max_sescmd_history := history;
     disable_sescmd_history := false; retry_failed_reads := false;
     master_accept_reads := accept_reads; strict_multi_stmt := strict;
     connection_keepalive := 0 |}.

Definition sample_dcb (active read_only ending : bool) : DCB :=
  {| session := {| trx_is_active := active; trx_is_read_only := read_only;
                   trx_is_ending := ending; current_command := 3;
                   stmt := None |};
     dcb_data := true; written := [] |}.

Definition sample_rses (bs : list RWBackend) (master node : SRWBackend)
    (cfg : Config) (dcb : DCB) (load : load_data_state_t) : ROUTER_CLIENT_SES :=
  {| backends := bs; current_master := master; target_node := node;
     rses_config := cfg; sescmd_count := 0; sent_sescmd := 0;
     expected_responses := 0; sescmd_list := []; sescmd_responses := [];
     load_data_state := load; rses_load_data_sent := 0;
     have_tmp_tables := false; client_dcb := dcb |}.

Definition sample_inst : ROUTER_INSTANCE :=
  {| rwsplit_config := sample_config RW_FAIL_INSTANTLY false true 0;
     n_queries := 0; n_master := 0; n_slave := 0 |}.

Definition primary_P : RWBackend := sample_backend true (sample_server "P" true false 0).
Definition replica_R1 : RWBackend := sample_backend true (sample_server "R1" false true 0).
Definition replica_R2 : RWBackend := sample_backend true (sample_server "R2" false true 0).

(** A session on a primary and two replicas, outside any transaction. *)
Definition idle_rses : ROUTER_CLIENT_SES :=
  sample_rses [primary_P; replica_R1; replica_R2] (Some 0%nat) None
    (sample_config RW_FAIL_INSTANTLY false true 0)
    (sample_dcb false false false) LOAD_DATA_INACTIVE.

(** [SET] mixed with a [SELECT]: a session write that also reads. *)
Definition qtype_set_and_select : Z := Z.lor QUERY_TYPE_SESSION_WRITE QUERY_TYPE_READ.

Definition sample_hint (t : HINT_TYPE) (key value : string) : HINT :=
  {| hint_type := t; hint_data := key; hint_value := value |}.

(** A parameter hint whose key only begins with the name of the lag
    parameter. *)
Definition hint_lag_ms : HINT :=
  sample_hint HINT_PARAMETER "max_slave_replication_lag_ms" "5".

(** The words of the selection rule for replicas. *)

(** A handle that the scan considers: in use, active, and flagged primary
    or replica. *)
Definition usable (b : RWBackend) : bool :=
  in_use b && is_active b &&
  (SERVER_IS_MASTER (server b) || SERVER_IS_SLAVE (server b)).

(** The handle is the session's current primary. *)
Definition is_current_primary (rses : ROUTER_CLIENT_SES) (it : nat * RWBackend) : bool :=
  SERVER_IS_MASTER (server (snd it)) && ptr_eqb (Some (fst it)) (current_master rses).

(** The lag of the handle is within [max_lag]: there is no bound, or the
    lag is known and does not exceed it. *)
Definition within_max_lag (max_lag : Z) (b : RWBackend) : bool :=
  (max_lag =? MAX_RLAG_UNDEFINED) ||
  (negb (rlag (server b) =? MAX_RLAG_NOT_AVAILABLE) && (rlag (server b) <=? max_lag)).

(** A replica within [max_lag]. *)
Definition qualifying_replica (max_lag : Z) (b : RWBackend) : bool :=
  SERVER_IS_SLAVE (server b) && within_max_lag max_lag b.

(** A server promoted to primary after the session was opened: flagged
    primary, but not the primary that the session holds. *)
Definition promoted_P2 : RWBackend := sample_backend true (sample_server "P2" true false 0).

Definition promoted_rses : ROUTER_CLIENT_SES :=
  sample_rses [promoted_P2] None None
    (sample_config RW_FAIL_ON_WRITE false true 0)
    (sample_dcb false false false) LOAD_DATA_INACTIVE.

(** A read-only transaction pinned to a replica that is no longer in use. *)
Definition closed_R2 : RWBackend := sample_backend false (sample_server "R2" false true 0).

Definition pinned_rses : ROUTER_CLIENT_SES :=
  sample_rses [primary_P; replica_R1; closed_R2] (Some 0%nat) (Some 2%nat)
    (sample_config RW_FAIL_INSTANTLY false true 0)
    (sample_dcb true true false) LOAD_DATA_INACTIVE.

(** A comparison function in the manner of the table's: the difference of
    the criterion values, here the replication lag. *)
Definition cmp_rlag (sc : nat) (a b : RWBackend) : Z :=
  rlag (server a) - rlag (server b).

(** What [route_session_write] does with one handle that is in use: the
    entry is put on the queue and the head of the queue is executed. *)
Definition sescmd_executed (sescmd : SessionCommand) (b : RWBackend) : bool * RWBackend :=
  execute_session_command (append_session_command b sescmd).

(** The handle is in use and the execution on it succeeded. *)
Definition succeeded_on (sescmd : SessionCommand) (b : RWBackend) : bool :=
  in_use b && fst (sescmd_executed sescmd b).

(** The number of handles on which the execution succeeded. *)
Definition count_succeeded (sescmd : SessionCommand) (l : list RWBackend) : Z :=
  Z.of_nat (length (List.filter (succeeded_on sescmd) l)).

(** Collaborators for the sample sessions: an execution that succeeds on
    the replicas and fails on the primary, and the like. *)
Definition enqueue (b : RWBackend) (sescmd : SessionCommand) : RWBackend :=
  set_session_commands b (session_commands b ++ [sescmd]).

Definition head_position (b : RWBackend) : Z :=
  match head (session_commands b) with
  | Some c => get_position c
  | None => 0
  end.

Definition exec_on_replicas (b : RWBackend) : bool * RWBackend :=
  (SERVER_IS_SLAVE (server b), b).

Definition exec_never (b : RWBackend) : bool * RWBackend := (false, b).

Definition responds_always (command : Z) : bool := true.

Definition close_handle (b : RWBackend) : RWBackend :=
  Build_RWBackend false (is_active b) (is_waiting_result b) (server b)
    (session_commands b) (last_read b) (reply_state b).

Definition write_accepted (b : RWBackend) (q : GWBUF) (r : response_type)
    : bool * RWBackend :=
  (true,
   Build_RWBackend (in_use b) (is_active b)
     (match r with EXPECT_RESPONSE => true | NO_RESPONSE => is_waiting_result b end)
     (server b) (session_commands b) (last_read b) (reply_state b)).

Definition sample_query (hints : list HINT) (qtype : Z) : GWBUF :=
  {| hint := hints; non_empty_packet := true; packet_type := 3;
     query_type := qtype; multi_stmt := false; packet_is_query := true;
     op_is_load := false; reads_tmp_table := false; gwbuf_length := 20;
     mysql_command := 3; collect_result := false |}.

(** The empty packet that ends LOAD DATA LOCAL INFILE. *)
Definition empty_packet : GWBUF :=
  {| hint := []; non_empty_packet := false; packet_type := 0;
     query_type := QUERY_TYPE_UNKNOWN; multi_stmt := false;
     packet_is_query := false; op_is_load := false; reads_tmp_table := false;
     gwbuf_length := 4; mysql_command := 0; collect_result := false |}.

(** After a switchover: the primary that the session holds is closed and
    another server is flagged primary. *)
Definition closed_P : RWBackend := sample_backend false (sample_server "P" true false 0).

Definition switched_rses (mode : failure_mode) : ROUTER_CLIENT_SES :=
  sample_rses [closed_P; promoted_P2; replica_R1] (Some 0%nat) None
    (sample_config mode false true 0)
    (sample_dcb false false false) LOAD_DATA_INACTIVE.

(** The primary is gone and the session is left with a replica. *)
Definition orphan_rses (mode : failure_mode) : ROUTER_CLIENT_SES :=
  sample_rses [replica_R1] None None
    (sample_config mode false true 0)
    (sample_dcb false false false) LOAD_DATA_INACTIVE.

(** A session in the data phase of LOAD DATA LOCAL INFILE. *)
Definition loading_rses : ROUTER_CLIENT_SES :=
  sample_rses [primary_P; replica_R1] (Some 0%nat) None
    (sample_config RW_FAIL_INSTANTLY false true 0)
    (sample_dcb false false false) LOAD_DATA_ACTIVE.

(** A read-only transaction pinned to [replica_R1]. *)
Definition read_only_rses : ROUTER_CLIENT_SES :=
  sample_rses [primary_P; replica_R1; replica_R2] (Some 0%nat) (Some 1%nat)
    (sample_config RW_FAIL_INSTANTLY false true 0)
    (sample_dcb true true false) LOAD_DATA_INACTIVE.

Definition no_broadcast (rt : Z) (inst : ROUTER_INSTANCE) (rses : ROUTER_CLIENT_SES)
    (q : GWBUF) (ptype qtype : Z) : bool * (ROUTER_INSTANCE * ROUTER_CLIENT_SES) :=
  (false, (inst, rses)).

Definition configured_lag (rses : ROUTER_CLIENT_SES) : Z := MAX_RLAG_UNDEFINED.

Definition no_ping (b : RWBackend) : RWBackend := b.

Definition strtol_zero (s : string) : Z := 0.

(** The route target is PRIMARY and nothing else. *)
Definition primary_only (route_target : Z) : bool :=
  TARGET_IS_MASTER route_target && negb (TARGET_IS_ALL route_target) &&
  negb (TARGET_IS_NAMED_SERVER route_target) &&
  negb (TARGET_IS_RLAG_MAX route_target) && negb (TARGET_IS_SLAVE route_target).

(** The store of handles after [close] on the current primary, when the
    session has one and it is in use. *)
Definition current_master_closed (rses : ROUTER_CLIENT_SES) : list RWBackend :=
  match current_master rses with
  | Some m =>
      match backends rses !! m with
      | Some b => if in_use b then <[m := backend_close b]> (backends rses)
                  else backends rses
      | None => backends rses
      end
  | None => backends rses
  end.

(** A session that has already routed three session commands, with a
    history bound of four; the primary is in use, one replica is in use and
    one is closed. *)
Definition later_rses : ROUTER_CLIENT_SES :=
  {| backends := [primary_P; replica_R1; closed_R2];
     current_master := Some 0%nat; target_node := None;
     rses_config := sample_config RW_FAIL_INSTANTLY false true 4;
     sescmd_count := 3; sent_sescmd := 2; expected_responses := 1;
     sescmd_list := []; sescmd_responses := [];
     load_data_state := LOAD_DATA_INACTIVE; rses_load_data_sent := 0;
     have_tmp_tables := false; client_dcb := sample_dcb false false false |}.

(** The server of the session's primary has lost its primary flag; its
    handle is still in use. *)
Definition demoted_P : RWBackend := sample_backend true (sample_server "P" false true 0).

Definition demoted_rses : ROUTER_CLIENT_SES :=
  sample_rses [demoted_P; replica_R1] (Some 0%nat) None
    (sample_config RW_ERROR_ON_WRITE false true 0)
    (sample_dcb false false false) LOAD_DATA_INACTIVE.

Definition hint_to_master : HINT := sample_hint HINT_ROUTE_TO_MASTER "" "".

Definition hint_lag_upper : HINT :=
  sample_hint HINT_PARAMETER "MAX_SLAVE_REPLICATION_LAG" "5".

(** ** Vocabulary of the further properties *)

(** A handle that [get_root_master_bref] considers: in use and flagged
    primary. *)
Definition in_use_primary (it : nat * RWBackend) : bool :=
  in_use (snd it) && SERVER_IS_MASTER (server (snd it)).

(** A handle that the scan for a replica accepts when it has no candidate:
    the session's current primary, or any handle within the lag bound. *)
Definition acceptable (rses : ROUTER_CLIENT_SES) (max_lag : Z) (it : nat * RWBackend) : bool :=
  is_current_primary rses it || within_max_lag max_lag (snd it).

(** A string that can be a C string: it holds no NUL character. *)
Definition c_string (s : string) : Prop := Forall (fun z => z <> 0) (lowercase s).

(** The handle can serve a hint that names [name]: it is in use and active,
    its server has that name up to the case of letters, and the server is
    flagged replica, relay or primary. *)
Definition answers_to (name : string) (it : nat * RWBackend) : Prop :=
  in_use (snd it) = true /\ is_active (snd it) = true /\
  lowercase name = lowercase (unique_name (server (snd it))) /\
  SERVER_IS_SLAVE (server (snd it)) || SERVER_IS_RELAY_SERVER (server (snd it)) ||
    SERVER_IS_MASTER (server (snd it)) = true.

(** The route target names a role: PRIMARY, SLAVE or ALL. *)
Definition has_role (t : Z) : bool :=
  TARGET_IS_MASTER t || TARGET_IS_SLAVE t || TARGET_IS_ALL t.

(** A well-formed route target: within the five bits and with a role. *)
Definition route_target_ok (t : Z) : bool :=
  (0 <? t) && (t <? 32) && has_role t.

(** The statement is a plain read: of a reading type, and neither a write,
    a read that must see the primary, nor a prepared-statement variant. *)
Definition plain_read (qtype : Z) : bool :=
  negb (qc_query_is_type qtype QUERY_TYPE_MASTER_READ) &&
  negb (qc_query_is_type qtype QUERY_TYPE_WRITE) &&
  negb (qc_query_is_type qtype QUERY_TYPE_PREPARE_STMT) &&
  negb (qc_query_is_type qtype QUERY_TYPE_PREPARE_NAMED_STMT) &&
  (qc_query_is_type qtype QUERY_TYPE_READ ||
   qc_query_is_type qtype QUERY_TYPE_SHOW_TABLES ||
   qc_query_is_type qtype QUERY_TYPE_USERVAR_READ ||
   qc_query_is_type qtype QUERY_TYPE_SYSVAR_READ ||
   qc_query_is_type qtype QUERY_TYPE_GSYSVAR_READ).

(** Case analysis on the outermost test of the resolver, one classifier
    flag at a time and in the order of evaluation. *)
Ltac split_condition :=
  match goal with
  | |- context [if ?c then _ else _] =>
      match c with
      | context [qc_query_is_type ?q ?X] => destruct (qc_query_is_type q X) eqn:?
      | context [mxs_target_eqb ?a ?b] => destruct (mxs_target_eqb a b) eqn:?
      | context [session_trx_is_active ?s] => destruct (session_trx_is_active s) eqn:?
      | context [session_trx_is_read_only ?s] =>
          destruct (session_trx_is_read_only s) eqn:?
      end
  end; cbn [negb andb orb].

Definition is_named_hint (h : HINT) : bool :=
  match hint_type h with HINT_ROUTE_TO_NAMED_SERVER => true | _ => false end.

(** Whether the backend is told to expect a response to the statement that
    [handle_got_target] forwards: not during the data phase of a load, and
    not for the commands that the server leaves unanswered. *)
Definition expects_response (rses : ROUTER_CLIENT_SES) : bool :=
  negb (load_data_state_eqb (load_data_state rses) LOAD_DATA_ACTIVE) &&
  query_creates_reply (current_command (session (client_dcb rses))).

(** The step of the load-data state that follows a forwarded statement to
    which a response is expected. *)
Definition load_state_after_forward (s : load_data_state_t) : load_data_state_t :=
  match s with
  | LOAD_DATA_START => LOAD_DATA_ACTIVE
  | LOAD_DATA_END => LOAD_DATA_INACTIVE
  | _ => s
  end.

(** The statement was handed to [handle_got_target] and the write to the
    selected backend succeeded. *)
Definition forwarded_ok (inst : ROUTER_INSTANCE) (rses : ROUTER_CLIENT_SES)
    (querybuf : GWBUF) (route_target : Z) : bool :=
  let s := select_target inst rses querybuf route_target in
  match snd (fst (fst (fst s))) with
  | Some t =>
      fst (fst (fst (fst s))) &&
      fst (fst (handle_got_target (snd (fst s)) (snd s) querybuf t (snd (fst (fst s)))))
  | None => false
  end.

(** The route target carries a modifier that [route_single_stmt] serves
    with [handle_hinted_target]. *)
Definition hinted (route_target : Z) : bool :=
  TARGET_IS_NAMED_SERVER route_target || TARGET_IS_RLAG_MAX route_target.

(** The handle that [select_target] selected is the session's current
    primary. *)
Definition selected_current_master (inst : ROUTER_INSTANCE) (rses : ROUTER_CLIENT_SES)
    (querybuf : GWBUF) (route_target : Z) : bool :=
  let t := snd (fst (fst (fst (select_target inst rses querybuf route_target)))) in
  is_set t && ptr_eqb t (current_master rses).

(** A sequence of session writes, each a buffer with its command byte. *)
Definition session_writes (rses : ROUTER_CLIENT_SES) (cmds : list (GWBUF * Z))
    : ROUTER_CLIENT_SES :=
  fold_left (fun r c => snd (route_session_write r (fst c) (snd c))) cmds rses.

(** The number of occurrences of a byte in a C string. *)
Fixpoint count_byte (c : ascii) (s : string) : Z :=
  match s with
  | EmptyString => 0
  | String d rest => (if Ascii.eqb d c then 1 else 0) + count_byte c rest
  end.

(** The bytes of a C string all satisfy [P]. *)
Fixpoint all_bytes (P : ascii -> bool) (s : string) : bool :=
  match s with
  | EmptyString => true
  | String d rest => P d && all_bytes P rest
  end.

(** A byte that may occur in the text of a source address: a digit, a dot
    or the wildcard. *)
Definition address_byte (c : ascii) : bool :=
  isdigit c || Ascii.eqb c "." || Ascii.eqb c "%".

(** The number of wildcards of a source address. *)
Definition wildcards (host : string) : Z := count_byte "%" host.

(** The outcomes of [pcre2_match] on a mapping. *)
Definition matches (sql : string) (r : RegexToServers) : Prop :=
  0 <= pcre2_match (m_regex r) sql.

Definition no_match (sql : string) (r : RegexToServers) : Prop :=
  pcre2_match (m_regex r) sql < 0 /\
  pcre2_match (m_regex r) sql = PCRE2_ERROR_NOMATCH.

Definition match_error (sql : string) (r : RegexToServers) : Prop :=
  pcre2_match (m_regex r) sql < 0 /\
  pcre2_match (m_regex r) sql <> PCRE2_ERROR_NOMATCH.

(** Further sample data: a write that the backend refuses, a LOAD DATA
    LOCAL INFILE statement, a hint that names the second replica, and a
    source address with two wildcards together with a resolver that
    answers 192.168.0.0. *)
Definition write_refused (b : RWBackend) (q : GWBUF) (r : response_type)
    : bool * RWBackend := (false, b).

Definition load_query : GWBUF :=
  {| hint := []; non_empty_packet := true; packet_type := 3;
     query_type := QUERY_TYPE_WRITE; multi_stmt := false; packet_is_query := true;
     op_is_load := true; reads_tmp_table := false; gwbuf_length := 40;
     mysql_command := 3; collect_result := false |}.

Definition hint_to_R2 : HINT := sample_hint HINT_ROUTE_TO_NAMED_SERVER "r2" "".

Definition resolve_sample (host : string) : option Z := Some 0x0000A8C0.

Definition wildcard_source : SourceHost :=
  {| m_address := "192.168.%.%"; m_ipv4 := 0x0000A8C0; m_netmask := 16 |}.

(** A packet that holds more than one statement. *)
Definition multi_query : GWBUF :=
  {| hint := []; non_empty_packet := true; packet_type := 3;
     query_type := QUERY_TYPE_READ; multi_stmt := true; packet_is_query := true;
     op_is_load := false; reads_tmp_table := false; gwbuf_length := 60;
     mysql_command := 3; collect_result := false |}.

(** A session past its history bound that still holds two stored
    responses, at positions 1 and 3. *)
Definition pruning_rses : ROUTER_CLIENT_SES :=
  {| backends := [primary_P; replica_R1];
     current_master := Some 0%nat; target_node := None;
     rses_config := sample_config RW_FAIL_INSTANTLY false true 4;
     sescmd_count := 3; sent_sescmd := 2; expected_responses := 0;
     sescmd_list := []; sescmd_responses := [(1, 0); (3, 0)];
     load_data_state := LOAD_DATA_INACTIVE; rses_load_data_sent := 0;
     have_tmp_tables := false; client_dcb := sample_dcb false false false |}.

(** Three mappings and a matcher: the first pattern does not match, the
    second fails with an error, the third matches. *)
Definition sample_mapping : list RegexToServers :=
  [ {| m_match := "^insert"; m_regex := 0%nat; m_targets := ["P"];
       m_htype := HINT_ROUTE_TO_NAMED_SERVER; m_error_printed := false |};
    {| m_match := "(a+)+$"; m_regex := 1%nat; m_targets := ["R1"];
       m_htype := HINT_ROUTE_TO_NAMED_SERVER; m_error_printed := false |};
    {| m_match := "^select"; m_regex := 2%nat; m_targets := ["->slave"];
       m_htype := HINT_ROUTE_TO_SLAVE; m_error_printed := false |} ].

Definition sample_matcher (regex : nat) (sql : string) : Z :=
  match regex with
  | O => -1
  | S O => -47
  | _ => 1
  end.

(** The load-data state and the byte count as [route_single_stmt] leaves
    them before it selects a backend: the work of
    [handle_multi_temp_and_load] on a packet that is not empty, the state
    END on an empty one. *)
Definition load_state_prepared (rses : ROUTER_CLIENT_SES) (querybuf : GWBUF)
    : load_data_state_t :=
  if non_empty_packet querybuf
  then
    match load_data_state rses with
    | LOAD_DATA_ACTIVE => LOAD_DATA_ACTIVE
    | st => if packet_is_query querybuf && op_is_load querybuf
            then LOAD_DATA_START else st
    end
  else LOAD_DATA_END.

Definition load_sent_prepared (rses : ROUTER_CLIENT_SES) (querybuf : GWBUF) : Z :=
  if non_empty_packet querybuf
  then
    match load_data_state rses with
    | LOAD_DATA_ACTIVE => (rses_load_data_sent rses + gwbuf_length querybuf) mod 2 ^ 64
    | _ => if packet_is_query querybuf && op_is_load querybuf
           then 0 else rses_load_data_sent rses
    end
  else rses_load_data_sent rses.

(** A data load whose byte count is ten short of 2^64. *)
Definition long_loading_rses : ROUTER_CLIENT_SES :=
  set_rses_load_data_sent loading_rses (2 ^ 64 - 10).

(** ** Properties of the route-target resolver *)

Lemma tolower_nonneg (c : ascii) : 0 <= tolower c.
Proof. unfold tolower. destruct (_ && _); lia. Qed.

Lemma strncasecmp_prefix (name : string) :
  Forall (fun z => z <> 0) (lowercase name) ->
  forall key : string,
    strncasecmp key name (strlen name) = 0 <-> begins_with_ignoring_case key name.
Proof.
  induction name as [|c name IH]; intros Hnz key; simpl.
  - split; [intros _|reflexivity]. exists EmptyString, key. split; reflexivity.
  - inversion Hnz as [|z zs Hc Hrest]; subst.
    destruct key as [|k key].
    + split.
      * intros H. exfalso. lia.
      * intros (pre & rest & Heq & Hlow).
        destruct pre as [|p pre]; simpl in Hlow; [discriminate|].
        simpl in Heq. discriminate.
    + destruct (Z.eqb_spec (tolower k) (tolower c)) as [Heq|Hne].
      * rewrite (IH Hrest key). split.
        -- intros (pre & rest & Hk & Hlow). exists (String k pre), rest.
           simpl. rewrite Hk, Hlow, Heq. split; reflexivity.
        -- intros (pre & rest & Hk & Hlow).
           destruct pre as [|p pre]; simpl in Hlow; [discriminate|].
           simpl in Hk. injection Hk as -> ->. injection Hlow as _ Hlow.
           exists pre, rest. split; [reflexivity|exact Hlow].
      * split.
        -- intros H. exfalso. lia.
        -- intros (pre & rest & Hk & Hlow).
           destruct pre as [|p pre]; simpl in Hlow; [discriminate|].
           simpl in Hk. injection Hk as -> ->. injection Hlow as Hp _.
           contradiction.
Qed.

Lemma rlag_key_prefix (key : string) :
  strncasecmp key "max_slave_replication_lag" (strlen "max_slave_replication_lag") = 0
  <-> begins_with_ignoring_case key "max_slave_replication_lag".
Proof.
  apply strncasecmp_prefix. vm_compute.
  repeat (constructor; [discriminate|]). constructor.
Qed.

(** C2 (amended).  A statement that changes session state and also reads,
    and is not a prepared-statement variant, with no load in progress:
    before hint processing [get_route_target] answers PRIMARY together with
    the ALL bit; only when [target_node] is the current primary does it
    answer PRIMARY alone. *)
Theorem C2_state_change_with_read (rses : ROUTER_CLIENT_SES) (qtype : Z) :
  load_data_state rses = LOAD_DATA_INACTIVE ->
  changes_session_state rses qtype = true ->
  qc_query_is_type qtype QUERY_TYPE_READ = true ->
  qc_query_is_type qtype QUERY_TYPE_PREPARE_STMT = false ->
  qc_query_is_type qtype QUERY_TYPE_PREPARE_NAMED_STMT = false ->
  get_route_target rses qtype [] =
    (if is_set (target_node rses) && ptr_eqb (target_node rses) (current_master rses)
     then TARGET_MASTER
     else Z.lor TARGET_MASTER TARGET_ALL) /\
  TARGET_IS_MASTER (get_route_target rses qtype []) = true /\
  TARGET_IS_ALL (get_route_target rses qtype []) =
    negb (is_set (target_node rses) && ptr_eqb (target_node rses) (current_master rses)).
Proof.
  intros Hload Hchg Hread Hprep Hnamed.
  assert (Heq : get_route_target rses qtype [] =
    (if is_set (target_node rses) && ptr_eqb (target_node rses) (current_master rses)
     then TARGET_MASTER else Z.lor TARGET_MASTER TARGET_ALL)).
  { unfold get_route_target, route_target_of_query. simpl process_hints.
    destruct (is_set (target_node rses) && ptr_eqb (target_node rses) (current_master rses));
      [reflexivity|].
    rewrite Hload. simpl (negb (negb _)).
    unfold changes_session_state in Hchg. rewrite Hchg.
    rewrite Hread, Hprep, Hnamed. reflexivity. }
  rewrite Heq.
  destruct (is_set (target_node rses) && ptr_eqb (target_node rses) (current_master rses));
    repeat split; reflexivity.
Qed.

(** C3 (amended).  [get_route_target] reads the hint chain in list order,
    starting from the target of the query: route-to-primary replaces the
    target with PRIMARY and ends the reading; route-to-named-server ORs in
    NAMED_SERVER; route-to-replica replaces the target with SLAVE; a
    parameter hint whose key begins with [max_slave_replication_lag],
    letters compared without their case, ORs in RLAG_MAX; any parameter
    hint whose key does not begin so leaves the target unchanged, as do
    route-to-uptodate-server and route-to-all. *)
Theorem C3_hints_in_order (rses : ROUTER_CLIENT_SES) (qtype target : Z)
    (h : HINT) (next : list HINT) :
  get_route_target rses qtype (h :: next) =
    process_hints (route_target_of_query rses qtype) (h :: next) /\
  process_hints target [] = target /\
  (hint_type h = HINT_ROUTE_TO_MASTER ->
     process_hints target (h :: next) = TARGET_MASTER) /\
  (hint_type h = HINT_ROUTE_TO_NAMED_SERVER ->
     process_hints target (h :: next) =
     process_hints (Z.lor target TARGET_NAMED_SERVER) next) /\
  (hint_type h = HINT_ROUTE_TO_SLAVE ->
     process_hints target (h :: next) = process_hints TARGET_SLAVE next) /\
  (hint_type h = HINT_PARAMETER ->
     begins_with_ignoring_case (hint_data h) "max_slave_replication_lag" ->
     process_hints target (h :: next) =
     process_hints (Z.lor target TARGET_RLAG_MAX) next) /\
  (hint_type h = HINT_PARAMETER ->
     ~ begins_with_ignoring_case (hint_data h) "max_slave_replication_lag" ->
     process_hints target (h :: next) = process_hints target next) /\
  (hint_type h = HINT_ROUTE_TO_UPTODATE_SERVER \/ hint_type h = HINT_ROUTE_TO_ALL ->
     process_hints target (h :: next) = process_hints target next).
Proof.
  split; [reflexivity|]. split; [reflexivity|].
  repeat split; intros Ht; cbn [process_hints]; try (rewrite Ht; reflexivity).
  - intros Hkey. rewrite Ht. apply rlag_key_prefix in Hkey. rewrite Hkey. reflexivity.
  - intros Hkey. rewrite Ht.
    destruct (Z.eqb_spec
      (strncasecmp (hint_data h) "max_slave_replication_lag"
         (strlen "max_slave_replication_lag")) 0) as [E|E]; [|reflexivity].
    apply rlag_key_prefix in E. contradiction.
  - destruct Ht as [Ht|Ht]; rewrite Ht; reflexivity.
Qed.

(** ** Properties of the backend selector *)

Lemma handles_lookup (rses : ROUTER_CLIENT_SES) (i : nat) :
  handles rses !! i = (fun b => (i, b)) <$> backends rses !! i.
Proof. unfold handles. apply list_lookup_imap. Qed.

Lemma check_candidate_some (c n : bref) (sc : nat) :
  check_candidate_bref (Some c) (Some n) sc =
  Some (if 0 <? criteria_cmpfun sc (snd c) (snd n) then n else c).
Proof. unfold check_candidate_bref. destruct (0 <? _); reflexivity. Qed.

Lemma slave_scan_step_succp rses max_rlag st it :
  snd st = is_set (bref_ptr (fst st)) ->
  snd (slave_scan_step rses max_rlag st it) =
  is_set (bref_ptr (fst (slave_scan_step rses max_rlag st it))).
Proof.
  intros Hst. unfold slave_scan_step.
  destruct (_ || _); [exact Hst|].
  destruct st as [[c|] s]; cbn [fst snd] in *.
  - destruct (_ && _); [reflexivity|].
    destruct (_ || _); [|exact Hst].
    destruct (rlag_within max_rlag (snd it)); [|exact Hst].
    rewrite check_candidate_some. cbn [fst snd]. exact Hst.
  - destruct (_ && _); [reflexivity|].
    destruct (rlag_within max_rlag (snd it)); [reflexivity|exact Hst].
Qed.

Lemma slave_scan_succp rses max_rlag l : forall st,
  snd st = is_set (bref_ptr (fst st)) ->
  snd (fold_left (slave_scan_step rses max_rlag) l st) =
  is_set (bref_ptr (fst (fold_left (slave_scan_step rses max_rlag) l st))).
Proof.
  induction l as [|it l IH]; intros st Hst; cbn [fold_left]; [exact Hst|].
  apply IH, slave_scan_step_succp, Hst.
Qed.

Lemma slave_scan_step_candidate rses max_rlag st it :
  fst (slave_scan_step rses max_rlag st it) = fst st \/
  fst (slave_scan_step rses max_rlag st it) = Some it.
Proof.
  unfold slave_scan_step.
  destruct (_ || _); [left; reflexivity|].
  destruct st as [[c|] s]; cbn [fst snd].
  - destruct (_ && _); [right; reflexivity|].
    destruct (_ || _); [|left; reflexivity].
    destruct (rlag_within max_rlag (snd it)); [|left; reflexivity].
    rewrite check_candidate_some. cbn [fst].
    destruct (0 <? _); [right|left]; reflexivity.
  - destruct (_ && _); [right; reflexivity|].
    destruct (rlag_within max_rlag (snd it)); [right|left]; reflexivity.
Qed.

Lemma slave_scan_candidate rses max_rlag l : forall st c,
  fst (fold_left (slave_scan_step rses max_rlag) l st) = Some c ->
  fst st = Some c \/ In c l.
Proof.
  induction l as [|it l IH]; intros st c Hc; cbn [fold_left] in Hc.
  - left. exact Hc.
  - destruct (IH _ _ Hc) as [H|H]; [|right; right; exact H].
    destruct (slave_scan_step_candidate rses max_rlag st it) as [E|E];
      rewrite E in H.
    + left. exact H.
    + right. left. congruence.
Qed.

(** The candidate held when the scan reaches a handle was inserted before
    that handle. *)
Lemma slave_scan_candidate_earlier rses max_rlag l1 it l2 c :
  handles rses = l1 ++ it :: l2 ->
  fst (fold_left (slave_scan_step rses max_rlag) l1 (None, false)) = Some c ->
  (fst c < fst it)%nat.
Proof.
  intros Hsplit Hc.
  apply slave_scan_candidate in Hc as [Hc|Hc]; [discriminate|].
  apply list_elem_of_In, list_elem_of_lookup in Hc as [i Hi].
  pose proof (lookup_lt_Some _ _ _ Hi) as Hlt.
  assert (H1 : handles rses !! i = Some c).
  { rewrite Hsplit. rewrite lookup_app_l; assumption. }
  assert (H2 : handles rses !! length l1 = Some it).
  { rewrite Hsplit. apply list_lookup_middle. reflexivity. }
  rewrite handles_lookup in H1, H2.
  destruct (backends rses !! i); [|discriminate].
  destruct (backends rses !! length l1); [|discriminate].
  injection H1 as <-. injection H2 as <-. exact Hlt.
Qed.

(** ** Properties of the session-write path *)

Lemma int_add_1 (n : Z) : - 2 ^ 31 <= n -> n + 1 < 2 ^ 31 -> int_add n 1 = n + 1.
Proof.
  intros Hlo Hhi. unfold int_add. rewrite Z.mod_small; lia.
Qed.

Lemma count_succeeded_cons sescmd b l :
  count_succeeded sescmd (b :: l) =
  (if succeeded_on sescmd b then 1 else 0) + count_succeeded sescmd l.
Proof.
  unfold count_succeeded. cbn [List.filter].
  destruct (succeeded_on sescmd b); cbn [length]; lia.
Qed.

Lemma count_succeeded_bounds sescmd l :
  0 <= count_succeeded sescmd l <= Z.of_nat (length l).
Proof.
  induction l as [|b l IH].
  - unfold count_succeeded. cbn. lia.
  - rewrite count_succeeded_cons. cbn [length].
    destruct (succeeded_on sescmd b); lia.
Qed.

Lemma count_succeeded_pos sescmd l :
  0 < count_succeeded sescmd l <->
  exists b, In b l /\ in_use b = true /\ fst (sescmd_executed sescmd b) = true.
Proof.
  induction l as [|b l IH].
  - unfold count_succeeded. cbn. split; [lia|]. intros (b & [] & _).
  - rewrite count_succeeded_cons.
    pose proof (count_succeeded_bounds sescmd l) as Hb.
    destruct (succeeded_on sescmd b) eqn:Hs.
    + split; [intros _|lia]. exists b. apply andb_prop in Hs as [Hu He].
      split; [left; reflexivity|split; assumption].
    + rewrite Z.add_0_l, IH. split.
      * intros (x & Hin & Hx). exists x. split; [right; exact Hin|exact Hx].
      * intros (x & [->|Hin] & Hu & He).
        -- unfold succeeded_on in Hs. rewrite Hu, He in Hs. discriminate.
        -- exists x. split; [exact Hin|split; assumption].
Qed.

(** The loop of [route_session_write]: the handles afterwards and the
    three accumulators. *)
Lemma session_write_loop_spec sescmd e l : forall n x lp,
  let k := session_write_loop sescmd e l n x lp in
  fst k = List.map (fun b => if in_use b then snd (sescmd_executed sescmd b) else b) l /\
  snd (fst (snd k)) = x + (if e then count_succeeded sescmd l else 0) /\
  (- 2 ^ 31 <= n -> n + count_succeeded sescmd l < 2 ^ 31 ->
   fst (fst (snd k)) = n + count_succeeded sescmd l).
Proof.
  induction l as [|b l IH]; intros n x lp; cbn zeta.
  - cbn. unfold count_succeeded. cbn. repeat split; try lia. destruct e; lia.
  - cbn [session_write_loop List.map]. rewrite count_succeeded_cons.
    pose proof (count_succeeded_bounds sescmd l) as Hb.
    unfold succeeded_on. destruct (in_use b) eqn:Hu; cbn zeta.
    + fold (sescmd_executed sescmd b).
      match goal with
      | |- context [session_write_loop sescmd e l ?n' ?x' ?lp'] =>
          destruct (IH n' x' lp') as (H1 & H2 & H3)
      end.
      cbn [fst snd andb]. split; [rewrite H1; reflexivity|]. split.
      * rewrite H2. destruct (fst (sescmd_executed sescmd b)), e; cbn [andb]; lia.
      * intros Hlo Hhi. destruct (fst (sescmd_executed sescmd b)).
        -- rewrite H3; rewrite int_add_1; lia.
        -- rewrite H3; lia.
    + destruct (IH n x lp) as (H1 & H2 & H3).
      cbn [fst snd andb]. split; [rewrite H1; reflexivity|]. split.
      * rewrite H2. destruct e; lia.
      * intros Hlo Hhi. rewrite H3; lia.
Qed.

Lemma route_session_write_nsucc rses querybuf command :
  Z.of_nat (length (backends rses)) < 2 ^ 31 ->
  let sescmd := {| sc_buffer := querybuf; get_position := sescmd_count rses |} in
  fst (fst (snd (session_write_loop sescmd (command_will_respond command)
                   (backends rses) 0 (expected_responses rses) (sescmd_count rses)))) =
  count_succeeded sescmd (backends rses).
Proof.
  intros Hlen sescmd.
  pose proof (count_succeeded_bounds sescmd (backends rses)) as Hb.
  destruct (session_write_loop_spec sescmd (command_will_respond command)
              (backends rses) 0 (expected_responses rses) (sescmd_count rses))
    as (_ & _ & H3).
  rewrite H3; lia.
Qed.

(** C4.  [route_session_write] gives the entry the position that
    [sescmd_count] had before the call and increments the counter; the
    entry is enqueued and executed on every handle in use; 
    [expected_responses] grows by one for each handle on which the
    execution succeeded, and only when the command awaits a response;
    [sent_sescmd] becomes that position exactly when the execution
    succeeded on at least one handle. *)
Theorem C4_session_write_effects (rses : ROUTER_CLIENT_SES) (querybuf : GWBUF)
    (command : Z) :
  Z.of_nat (length (backends rses)) < 2 ^ 31 ->
  let p := sescmd_count rses in
  let sescmd := {| sc_buffer := querybuf; get_position := p |} in
  let nsucc := count_succeeded sescmd (backends rses) in
  let rses' := snd (route_session_write rses querybuf command) in
  get_position sescmd = p /\
  sescmd_count rses' = (p + 1) mod 2 ^ 64 /\
  backends rses' =
    List.map (fun b => if in_use b then snd (sescmd_executed sescmd b) else b)
      (backends rses) /\
  expected_responses rses' =
    expected_responses rses + (if command_will_respond command then nsucc else 0) /\
  sent_sescmd rses' = (if 0 <? nsucc then p else sent_sescmd rses).
Proof.
  intros Hlen p sescmd nsucc rses'.
  pose proof (route_session_write_nsucc rses querybuf command Hlen) as Hn.
  destruct (session_write_loop_spec sescmd (command_will_respond command)
              (backends rses) 0 (expected_responses rses) p) as (H1 & H2 & _).
  pose proof (count_succeeded_bounds sescmd (backends rses)) as Hb.
  subst rses'. unfold route_session_write. cbn [snd fst sescmd_count backends
    expected_responses sent_sescmd].
  fold p. fold sescmd. cbn zeta in Hn. fold p in Hn. fold sescmd in Hn.
  repeat split.
  - exact H1.
  - exact H2.
  - rewrite Hn. fold nsucc. fold nsucc in Hb.
    destruct (Z.eqb_spec nsucc 0) as [E|E], (Z.ltb_spec 0 nsucc); try reflexivity; lia.
Qed.

(** C10.  [route_session_write] returns true exactly when the execution
    succeeded on at least one handle in use, whatever happened on the
    others; with no handle in use it returns false. *)
Theorem C10_session_write_result (rses : ROUTER_CLIENT_SES) (querybuf : GWBUF)
    (command : Z) :
  Z.of_nat (length (backends rses)) < 2 ^ 31 ->
  let sescmd := {| sc_buffer := querybuf; get_position := sescmd_count rses |} in
  (fst (route_session_write rses querybuf command) = true <->
   exists b, In b (backends rses) /\ in_use b = true /\
             fst (sescmd_executed sescmd b) = true) /\
  ((forall b, In b (backends rses) -> in_use b = false) ->
   fst (route_session_write rses querybuf command) = false).
Proof.
  intros Hlen sescmd.
  pose proof (route_session_write_nsucc rses querybuf command Hlen) as Hn.
  pose proof (count_succeeded_bounds sescmd (backends rses)) as Hb.
  assert (Hiff : fst (route_session_write rses querybuf command) = true <->
                 0 < count_succeeded sescmd (backends rses)).
  { unfold route_session_write. cbn [fst]. cbn zeta in Hn. rewrite Hn.
    fold sescmd. destruct (Z.eqb_spec (count_succeeded sescmd (backends rses)) 0);
      cbn [negb]; split; intros; try lia; try reflexivity; discriminate. }
  split.
  - rewrite Hiff. apply count_succeeded_pos.
  - intros Hnone. apply not_true_is_false. intros Ht.
    apply Hiff, count_succeeded_pos in Ht as (b & Hin & Hu & _).
    rewrite (Hnone b Hin) in Hu. discriminate.
Qed.

(** C5.  When the counter after a session write has reached a positive
    [max_sescmd_history], the session switches [disable_sescmd_history] on
    and empties the log of session commands; nothing is sent to the client,
    and the value returned is the one returned without a bound. *)
Theorem C5_history_bound (rses : ROUTER_CLIENT_SES) (querybuf : GWBUF)
    (command : Z) :
  let r := route_session_write rses querybuf command in
  0 < max_sescmd_history (rses_config rses) ->
  max_sescmd_history (rses_config rses) <= sescmd_count (snd r) ->
  disable_sescmd_history (rses_config (snd r)) = true /\
  sescmd_list (snd r) = [] /\
  client_dcb (snd r) = client_dcb rses /\
  fst r =
    fst (route_session_write
           (set_rses_config rses (set_max_sescmd_history (rses_config rses) 0))
           querybuf command).
Proof.
  intros r Hpos Hge. subst r. unfold route_session_write in *.
  cbn [snd fst sescmd_count rses_config sescmd_list client_dcb] in *.
  apply Z.ltb_lt in Hpos. apply Z.leb_le in Hge. rewrite Hpos, Hge.
  cbn [andb set_history_off disable_sescmd_history].
  repeat split; reflexivity.
Qed.

(** ** Properties of the routing of a statement *)

Lemma ptr_eqb_eq (a b : SRWBackend) : ptr_eqb a b = true <-> a = b.
Proof.
  destruct a as [i|], b as [j|]; cbn; try (split; congruence).
  rewrite Nat.eqb_eq. split; congruence.
Qed.

Lemma root_master_fold (H : list bref) (l : list bref) : forall acc,
  (forall x, In x l -> In x H) ->
  (forall it, acc = Some it ->
     In it H /\ in_use (snd it) = true /\ SERVER_IS_MASTER (server (snd it)) = true) ->
  forall it, fold_left root_master_step l acc = Some it ->
     In it H /\ in_use (snd it) = true /\ SERVER_IS_MASTER (server (snd it)) = true.
Proof.
  induction l as [|x l IH]; intros acc Hsub Hacc it Hfold; cbn [fold_left] in Hfold.
  - apply Hacc, Hfold.
  - apply (IH (root_master_step acc x)); [| |exact Hfold].
    + intros y Hy. apply Hsub. right. exact Hy.
    + intros y Hy. unfold root_master_step in Hy.
      destruct (in_use (snd x)) eqn:Hu; [|apply Hacc, Hy].
      destruct (SERVER_IS_MASTER (server (snd x))) eqn:Hm; [|apply Hacc, Hy].
      assert (Hx : In x H /\ in_use (snd x) = true /\
                   SERVER_IS_MASTER (server (snd x)) = true).
      { split; [apply Hsub; left; reflexivity|split; assumption]. }
      destruct acc as [c|].
      * destruct (_ <? _); [injection Hy as <-; exact Hx|apply Hacc, Hy].
      * injection Hy as <-. exact Hx.
Qed.

Lemma handles_In (rses : ROUTER_CLIENT_SES) (it : bref) :
  In it (handles rses) -> backends rses !! fst it = Some (snd it).
Proof.
  intros Hin. apply list_elem_of_In, list_elem_of_lookup in Hin as [i Hi].
  rewrite handles_lookup in Hi.
  destruct (backends rses !! i) as [b|] eqn:Hb; [|discriminate].
  injection Hi as <-. exact Hb.
Qed.

(** A primary returned by the scan of [get_target_backend] for [BE_MASTER]
    is a handle of the session that is in use, active and flagged
    primary. *)
Lemma selected_master_valid rses target t :
  is_set (target_node rses) && session_trx_is_read_only (session (client_dcb rses)) = false ->
  get_target_backend rses BE_MASTER None MAX_RLAG_UNDEFINED target = (true, t) ->
  exists m b, t = Some m /\ backends rses !! m = Some b /\
              in_use b = true /\ is_active b = true /\
              SERVER_IS_MASTER (server b) = true.
Proof.
  intros Hpin. unfold get_target_backend. rewrite Hpin.
  destruct (get_root_master_bref rses) as [m|] eqn:Hroot; [|discriminate].
  destruct (root_master_fold (handles rses) (handles rses) None
              (fun x Hx => Hx) ltac:(discriminate) m Hroot) as (Hin & Hu & Hm).
  rewrite Hu, Hm.
  destruct (is_active (snd m)) eqn:Ha; [|discriminate].
  intros Heq. injection Heq as <-.
  exists (fst m), (snd m). repeat split; try assumption.
  apply handles_In, Hin.
Qed.

(** C9.  With a failure mode other than error-on-write: when the selector
    for the primary succeeds with a handle that is not [current_master],
    [handle_master_is_target] returns false and changes nothing; outside a
    pinned read-only transaction that handle is a session handle in use,
    active and flagged primary.  A write is accepted only on the handle
    held as [current_master]. *)
Theorem C9_write_needs_current_master (inst : ROUTER_INSTANCE)
    (rses : ROUTER_CLIENT_SES) (target : SRWBackend) :
  master_failure_mode (rses_config rses) <> RW_ERROR_ON_WRITE ->
  let sel := get_target_backend rses BE_MASTER None MAX_RLAG_UNDEFINED target in
  let r := handle_master_is_target inst rses target in
  (fst sel = true -> snd sel <> current_master rses ->
     r = (false, snd sel, inst, rses) /\
     (is_set (target_node rses) &&
      session_trx_is_read_only (session (client_dcb rses)) = false ->
      exists m b, snd sel = Some m /\ backends rses !! m = Some b /\
                  in_use b = true /\ is_active b = true /\
                  SERVER_IS_MASTER (server b) = true)) /\
  (fst (fst (fst r)) = true ->
     fst sel = true /\ snd (fst (fst r)) = current_master rses).
Proof.
  intros Hmode sel r.
  assert (Hm : failure_mode_eqb (master_failure_mode (rses_config rses))
                 RW_ERROR_ON_WRITE = false).
  { destruct (master_failure_mode (rses_config rses)); try reflexivity.
    contradiction Hmode. reflexivity. }
  subst r. unfold handle_master_is_target. fold sel. split.
  - intros Hs Hne.
    assert (Hp : ptr_eqb (snd sel) (current_master rses) = false).
    { apply not_true_is_false. intros Hp. apply ptr_eqb_eq in Hp. contradiction. }
    rewrite Hs, Hp, Hm. cbn [andb]. split; [reflexivity|].
    intros Hpin. apply (selected_master_valid rses target (snd sel) Hpin).
    fold sel. rewrite <- Hs. destruct sel; reflexivity.
  - destruct (fst sel && ptr_eqb (snd sel) (current_master rses)) eqn:Hok.
    + cbn [fst snd]. intros _. apply andb_prop in Hok as [Hs Hp].
      split; [exact Hs|apply ptr_eqb_eq, Hp].
    + rewrite Hm. cbn [fst snd]. discriminate.
Qed.

Lemma close_current_master_backends rses :
  backends (close_current_master rses) = current_master_closed rses.
Proof.
  unfold close_current_master, current_master_closed.
  destruct (current_master rses) as [m|]; [|reflexivity].
  destruct (backends rses !! m) as [b|]; [|reflexivity].
  destruct (in_use b); reflexivity.
Qed.

Lemma close_current_master_fields rses :
  target_node (close_current_master rses) = target_node rses /\
  current_master (close_current_master rses) = current_master rses /\
  client_dcb (close_current_master rses) = client_dcb rses /\
  rses_config (close_current_master rses) = rses_config rses /\
  load_data_state (close_current_master rses) = load_data_state rses.
Proof.
  unfold close_current_master.
  destruct (current_master rses) as [m|] eqn:Hm; [|repeat split; assumption].
  destruct (backends rses !! m) as [b|]; [|repeat split; assumption].
  destruct (in_use b); repeat split; assumption.
Qed.

Lemma handle_master_is_target_fields inst rses target :
  let r := handle_master_is_target inst rses target in
  target_node (snd r) = target_node rses /\
  current_master (snd r) = current_master rses /\
  rses_config (snd r) = rses_config rses /\
  load_data_state (snd r) = load_data_state rses.
Proof.
  cbn zeta. unfold handle_master_is_target.
  destruct (_ && _); [repeat split|].
  destruct (failure_mode_eqb _ _); [|repeat split].
  cbn [snd].
  destruct (close_current_master_fields
              (set_client_dcb rses (snd (send_readonly_error (client_dcb rses)))))
    as (H1 & H2 & _ & H4 & H5).
  rewrite H1, H2, H4, H5. repeat split.
Qed.

(** The value that [dispatch_stmt] returns for a target that is PRIMARY
    alone is the one of [handle_master_is_target]. *)
Lemma dispatch_primary_result inst rses querybuf route_target qtype :
  primary_only route_target = true ->
  fst (dispatch_stmt inst rses querybuf route_target qtype) =
  fst (fst (fst (handle_master_is_target inst rses None))).
Proof.
  unfold primary_only. intros Hp.
  apply andb_prop in Hp as [Hp Hs]. apply andb_prop in Hp as [Hp Hr].
  apply andb_prop in Hp as [Hp Hn]. apply andb_prop in Hp as [Hm Ha].
  apply negb_true_iff in Hs, Hr, Hn, Ha.
  unfold dispatch_stmt, select_target. rewrite Ha, Hn, Hr, Hs, Hm.
  cbn [orb fst snd].
  destruct (handle_master_is_target inst rses None) as [[[succp t] inst'] rses'].
  cbn [fst snd]. destruct t as [t|]; [|reflexivity].
  destruct succp; reflexivity.
Qed.

(** C7.  A statement whose resolved route target is PRIMARY alone, under
    error-on-write, when the selector does not return the session's current
    primary: the router writes the read-only error packet to the client,
    closes the current primary's handle if the session has one in use, and
    routing reports success, which keeps the session open. *)
Theorem C7_error_on_write (inst : ROUTER_INSTANCE) (rses0 : ROUTER_CLIENT_SES)
    (querybuf : GWBUF) :
  let rt := resolve_route_target rses0 querybuf in
  let route_target := fst (fst rt) in
  let rses := snd rt in
  primary_only route_target = true ->
  master_failure_mode (rses_config rses) = RW_ERROR_ON_WRITE ->
  let sel := get_target_backend rses BE_MASTER None MAX_RLAG_UNDEFINED None in
  fst sel && ptr_eqb (snd sel) (current_master rses) = false ->
  let r := handle_master_is_target inst rses None in
  written (client_dcb (snd r)) = written (client_dcb rses) ++ [READ_ONLY_ERROR] /\
  backends (snd r) = current_master_closed rses /\
  fst (fst (fst r)) = true /\
  fst (route_single_stmt inst rses0 querybuf) = true.
Proof.
  intros rt route_target rses Hp Hmode sel Hsel r.
  assert (Hr : r = (true, snd sel, inst,
                    close_current_master
                      (set_client_dcb rses (snd (send_readonly_error (client_dcb rses)))))).
  { subst r. unfold handle_master_is_target. fold sel. rewrite Hsel, Hmode.
    reflexivity. }
  assert (Hd : fst (route_single_stmt inst rses0 querybuf) = true).
  { unfold route_single_stmt. fold rt. fold route_target. fold rses.
    rewrite (dispatch_primary_result _ _ _ _ _ Hp). fold r. rewrite Hr. reflexivity. }
  rewrite Hr. cbn [fst snd]. repeat split.
  - destruct (close_current_master_fields
                (set_client_dcb rses (snd (send_readonly_error (client_dcb rses)))))
      as (_ & _ & Hc & _).
    rewrite Hc. reflexivity.
  - rewrite close_current_master_backends. reflexivity.
  - exact Hd.
Qed.

(** C8.  For an empty packet received while [load_data_state] is ACTIVE,
    [route_single_stmt] takes PRIMARY as the route target and moves
    [load_data_state] to END, whatever the query type and the hints of the
    packet, without any other change to the session, and goes on with that
    target. *)
Theorem C8_empty_packet_ends_load (inst : ROUTER_INSTANCE)
    (rses : ROUTER_CLIENT_SES) (querybuf : GWBUF) :
  non_empty_packet querybuf = false ->
  load_data_state rses = LOAD_DATA_ACTIVE ->
  resolve_route_target rses querybuf =
    (TARGET_MASTER, query_type querybuf, set_load_data_state rses LOAD_DATA_END) /\
  load_data_state (snd (resolve_route_target rses querybuf)) = LOAD_DATA_END /\
  route_single_stmt inst rses querybuf =
    dispatch_stmt inst (set_load_data_state rses LOAD_DATA_END) querybuf
      TARGET_MASTER (query_type querybuf) /\
  primary_only TARGET_MASTER = true.
Proof.
  intros Hempty _.
  assert (Hr : resolve_route_target rses querybuf =
    (TARGET_MASTER, query_type querybuf, set_load_data_state rses LOAD_DATA_END)).
  { unfold resolve_route_target. rewrite Hempty. reflexivity. }
  unfold route_single_stmt. rewrite Hr. repeat split.
Qed.

(** ** The node pinned by a read-only transaction *)

Lemma selector_pinned rses n btype name max_rlag target :
  session_trx_is_read_only (session (client_dcb rses)) = true ->
  target_node rses = Some n ->
  get_target_backend rses btype name max_rlag target = (true, Some n).
Proof.
  intros Hro Hn. unfold get_target_backend. rewrite Hn, Hro. reflexivity.
Qed.

(** [target_node] and the transaction flags after [handle_got_target]. *)
Lemma handle_got_target_node inst rses querybuf t store :
  let g := handle_got_target inst rses querybuf t store in
  let read_only := session_trx_is_read_only (session (client_dcb rses)) in
  let ending := session_trx_is_ending (session (client_dcb rses)) in
  let pinned :=
    if negb (is_set (target_node rses)) && read_only
    then Some t else target_node rses in
  session_trx_is_read_only (session (client_dcb (snd g))) = read_only /\
  session_trx_is_ending (session (client_dcb (snd g))) = ending /\
  current_master (snd g) = current_master rses /\
  target_node (snd g) =
    (if fst (fst g) && is_set pinned && read_only && ending then None else pinned).
Proof.
  cbn zeta. unfold handle_got_target.
  unfold session_trx_is_read_only, session_trx_is_ending.
  destruct (negb (is_set (target_node rses)) &&
            trx_is_read_only (session (client_dcb rses))) eqn:Hpin;
    cbn [set_target_node backends client_dcb load_data_state target_node];
    (destruct (backends rses !! t) as [b|]; [|repeat split]);
    destruct (backend_write b _ _) as [ok b']; cbn [fst snd];
    (destruct ok; [|repeat split]);
    destruct store, (_ && query_creates_reply _);
    cbn -[Z.add Z.eqb insert];
    destruct (load_data_state rses);
    cbn -[Z.add Z.eqb insert];
    destruct (is_set (target_node rses)) eqn:Hs,
      (trx_is_read_only (session (client_dcb rses))) eqn:Hro,
      (trx_is_ending (session (client_dcb rses))) eqn:He;
    try discriminate Hpin;
    cbn -[Z.add Z.eqb insert]; rewrite ?Hs, ?Hro, ?He; repeat split.
Qed.

Lemma keepalive_fields inst rses target :
  target_node (handle_connection_keepalive inst rses target) = target_node rses /\
  client_dcb (handle_connection_keepalive inst rses target) = client_dcb rses.
Proof. split; reflexivity. Qed.

(** What [select_target] leaves of the pin: the handle it selects is the
    pinned node, and [target_node] is still that node unless the relaxed
    multi-statement mode has just cleared it on a successful selection of
    the primary. *)
Lemma select_target_pin inst rses querybuf route_target n :
  session_trx_is_read_only (session (client_dcb rses)) = true ->
  target_node rses = Some n ->
  let s := select_target inst rses querybuf route_target in
  let succp := fst (fst (fst (fst s))) in
  let target := snd (fst (fst (fst s))) in
  (target_node (snd s) = Some n /\ (target = Some n \/ target = None /\ succp = false)) \/
  (target_node (snd s) = None /\ succp = true /\ target = Some n /\
   session_trx_is_read_only (session (client_dcb (snd s))) = true).
Proof.
  intros Hro Hn. cbn zeta. unfold select_target.
  destruct (TARGET_IS_NAMED_SERVER route_target || TARGET_IS_RLAG_MAX route_target).
  { unfold handle_hinted_target. rewrite (selector_pinned rses n _ _ _ _ Hro Hn).
    cbn [fst snd]. left. split; [exact Hn|left; reflexivity]. }
  destruct (TARGET_IS_SLAVE route_target).
  { unfold handle_slave_is_target. rewrite (selector_pinned rses n _ _ _ _ Hro Hn).
    cbn [fst snd]. left. split; [exact Hn|left; reflexivity]. }
  destruct (TARGET_IS_MASTER route_target).
  2:{ cbn [fst snd]. left. split; [exact Hn|right; split; reflexivity]. }
  unfold handle_master_is_target.
  rewrite (selector_pinned rses n _ _ _ _ Hro Hn). cbn [fst snd andb].
  destruct (ptr_eqb (Some n) (current_master rses)) eqn:Hcm.
  - cbn [fst snd]. rewrite Hn, Hcm.
    destruct (negb (strict_multi_stmt (rses_config rses))); cbn [andb fst snd].
    + right. repeat split. exact Hro.
    + left. split; [exact Hn|left; reflexivity].
  - destruct (failure_mode_eqb _ _); cbn [fst snd].
    + destruct (close_current_master_fields
                  (set_client_dcb rses (snd (send_readonly_error (client_dcb rses)))))
        as (H1 & H2 & _).
      rewrite H1, H2. cbn [set_client_dcb target_node current_master].
      rewrite Hn, Hcm, andb_false_r. rewrite H1. cbn [set_client_dcb target_node].
      left. split; [exact Hn|left; reflexivity].
    + rewrite Hn, Hcm, andb_false_r.
      left. split; [exact Hn|left; reflexivity].
Qed.

(** On the pinned node a statement whose target carries a hint modifier or
    the SLAVE bit is always selected for forwarding, and the selection
    leaves the session as it is. *)
Lemma select_target_read inst rses querybuf route_target n :
  session_trx_is_read_only (session (client_dcb rses)) = true ->
  target_node rses = Some n ->
  TARGET_IS_NAMED_SERVER route_target || TARGET_IS_RLAG_MAX route_target ||
    TARGET_IS_SLAVE route_target = true ->
  let s := select_target inst rses querybuf route_target in
  fst (fst (fst (fst s))) = true /\ snd (fst (fst (fst s))) = Some n /\ snd s = rses.
Proof.
  intros Hro Hn Hbits. cbn zeta. unfold select_target.
  destruct (TARGET_IS_NAMED_SERVER route_target || TARGET_IS_RLAG_MAX route_target).
  { unfold handle_hinted_target. rewrite (selector_pinned rses n _ _ _ _ Hro Hn).
    repeat split. }
  cbn [orb] in Hbits. rewrite Hbits.
  unfold handle_slave_is_target. rewrite (selector_pinned rses n _ _ _ _ Hro Hn).
  repeat split.
Qed.

(** [target_node] after [dispatch_stmt] on a pinned session, for a target
    that is not ALL: the pinned node, or none when the transaction is
    ending. *)
Lemma dispatch_stmt_pin inst rses querybuf route_target qtype n :
  session_trx_is_read_only (session (client_dcb rses)) = true ->
  target_node rses = Some n ->
  TARGET_IS_ALL route_target = false ->
  let out := snd (snd (dispatch_stmt inst rses querybuf route_target qtype)) in
  target_node out = Some n \/
  (target_node out = None /\
   session_trx_is_ending (session (client_dcb out)) = true).
Proof.
  intros Hro Hn Hall. cbn zeta. unfold dispatch_stmt. rewrite Hall.
  pose proof (select_target_pin inst rses querybuf route_target n Hro Hn) as Hs.
  cbn zeta in Hs.
  destruct (select_target inst rses querybuf route_target)
    as [[[[succp target] store] inst1] rses1].
  cbn [fst snd] in *.
  assert (Hgot : forall t, target = Some t -> succp = true ->
            let g := handle_got_target inst1 rses1 querybuf t store in
            target_node (snd g) = Some n \/
            (target_node (snd g) = None /\
             session_trx_is_ending (session (client_dcb (snd g))) = true)).
  { intros t Ht Hsucc.
    destruct (handle_got_target_node inst1 rses1 querybuf t store)
      as (_ & He & _ & Hnode).
    cbn zeta in *. rewrite Hnode, He.
    assert (Hpinned :
      (if negb (is_set (target_node rses1)) &&
          session_trx_is_read_only (session (client_dcb rses1))
       then Some t else target_node rses1) = Some n).
    { destruct Hs as [[H1 H2]|(H1 & _ & H3 & H4)].
      - rewrite H1. reflexivity.
      - rewrite H1, H4. cbn. congruence. }
    rewrite Hpinned. clear Hnode Hpinned.
    match goal with
    | |- context [if ?c then None else Some n] => destruct c eqn:Hc
    end; [|left; reflexivity].
    right. split; [reflexivity|].
    apply andb_prop in Hc as [_ Hc]. exact Hc. }
  assert (Hkeep : forall r,
            target_node r = Some n \/
            (target_node r = None /\ session_trx_is_ending (session (client_dcb r)) = true) ->
            forall (c : bool) (i : ROUTER_INSTANCE) (t : SRWBackend),
            let r' := if c then handle_connection_keepalive i r t else r in
            target_node r' = Some n \/
            (target_node r' = None /\
             session_trx_is_ending (session (client_dcb r')) = true)).
  { intros r Hr c i t. destruct c; exact Hr. }
  destruct target as [t|].
  - destruct succp.
    + apply Hkeep. apply (Hgot t eq_refl eq_refl).
    + apply Hkeep. destruct Hs as [[H1 _]|(_ & H2 & _)]; [left; exact H1|discriminate].
  - apply Hkeep. destruct Hs as [[H1 _]|(_ & _ & H3 & _)]; [left; exact H1|discriminate].
Qed.

Lemma handle_multi_temp_and_load_pin rses querybuf ptype qtype :
  let s := handle_multi_temp_and_load rses querybuf ptype qtype in
  client_dcb (fst s) = client_dcb rses /\
  current_master (fst s) = current_master rses /\
  target_node (fst s) =
    (if (negb (is_set (target_node rses)) ||
         negb (ptr_eqb (target_node rses) (current_master rses))) &&
        multi_stmt querybuf && is_set (current_master rses)
     then current_master rses else target_node rses).
Proof.
  cbn zeta. unfold handle_multi_temp_and_load, check_create_tmp_table.
  destruct ((negb (is_set (target_node rses)) ||
             negb (ptr_eqb (target_node rses) (current_master rses))) &&
            multi_stmt querybuf);
    destruct (is_set (current_master rses));
    cbn [fst snd set_target_node client_dcb andb];
    destruct (negb (dcb_data (client_dcb rses)));
    cbn [fst snd set_target_node client_dcb];
    repeat match goal with
           | |- context [if ?c then _ else _] => destruct c
           | |- context [match load_data_state ?r with _ => _ end] =>
               destruct (load_data_state r) eqn:?
           end; cbn in *; repeat split; congruence.
Qed.

(** A pinned session is still pinned when [route_single_stmt] has
    resolved the route target: to the same node, or to the current primary
    when the packet holds several statements. *)
Lemma resolve_route_target_pin rses querybuf n :
  session_trx_is_read_only (session (client_dcb rses)) = true ->
  target_node rses = Some n ->
  let rses1 := snd (resolve_route_target rses querybuf) in
  session_trx_is_read_only (session (client_dcb rses1)) = true /\
  (target_node rses1 = Some n \/
   (multi_stmt querybuf = true /\ is_set (current_master rses) = true /\
    target_node rses1 = current_master rses)).
Proof.
  intros Hro Hn. cbn zeta. unfold resolve_route_target.
  destruct (non_empty_packet querybuf); cbn [snd].
  - destruct (handle_multi_temp_and_load_pin rses querybuf
                (packet_type querybuf) (query_type querybuf)) as (Hd & _ & Ht).
    cbn zeta in *. rewrite Hd, Ht. split; [exact Hro|].
    destruct (_ || _); cbn [andb]; [|left; exact Hn].
    destruct (multi_stmt querybuf); cbn [andb]; [|left; exact Hn].
    destruct (is_set (current_master rses)); [|left; exact Hn].
    right. repeat split.
  - split; [exact Hro|left; exact Hn].
Qed.


(** ** Further properties of the backend selector *)

(** The state of the loop of [get_root_master_bref] after a prefix of the
    handles: no candidate while the prefix holds no primary in use, else
    the first handle of least depth among the primaries in use. *)
Lemma root_master_fold_min (l : list bref) : forall (pre : list bref) (acc : option bref),
  match acc with
  | None => forall it, In it pre -> in_use_primary it = false
  | Some m =>
      in_use_primary m = true /\
      exists l1 l2, pre = l1 ++ m :: l2 /\
        (forall it, In it l1 -> in_use_primary it = true ->
           depth (server (snd m)) < depth (server (snd it))) /\
        (forall it, In it l2 -> in_use_primary it = true ->
           depth (server (snd m)) <= depth (server (snd it)))
  end ->
  match fold_left root_master_step l acc with
  | None => forall it, In it (pre ++ l) -> in_use_primary it = false
  | Some m =>
      in_use_primary m = true /\
      exists l1 l2, pre ++ l = l1 ++ m :: l2 /\
        (forall it, In it l1 -> in_use_primary it = true ->
           depth (server (snd m)) < depth (server (snd it))) /\
        (forall it, In it l2 -> in_use_primary it = true ->
           depth (server (snd m)) <= depth (server (snd it)))
  end.
Proof.
  induction l as [|x l IH]; intros pre acc Hacc; cbn [fold_left].
  - rewrite app_nil_r. exact Hacc.
  - replace (pre ++ x :: l) with ((pre ++ [x]) ++ l)
      by (rewrite <- app_assoc; reflexivity).
    apply IH. unfold root_master_step.
    destruct (in_use (snd x)) eqn:Hu.
    + destruct (SERVER_IS_MASTER (server (snd x))) eqn:Hm.
      * assert (Hx : in_use_primary x = true)
          by (unfold in_use_primary; rewrite Hu, Hm; reflexivity).
        destruct acc as [c|].
        -- destruct Hacc as (Hc & l1 & l2 & Hpre & Hlt & Hle).
           destruct (Z.ltb_spec (depth (server (snd x))) (depth (server (snd c)))) as [Hd|Hd].
           ++ split; [exact Hx|]. exists pre, []. split; [reflexivity|]. split.
              ** intros it Hin Hit. rewrite Hpre in Hin.
                 apply in_app_or in Hin as [Hin|[<-|Hin]].
                 --- specialize (Hlt it Hin Hit). lia.
                 --- exact Hd.
                 --- specialize (Hle it Hin Hit). lia.
              ** intros it [].
           ++ split; [exact Hc|]. exists l1, (l2 ++ [x]). split.
              ** rewrite Hpre, <- app_assoc. reflexivity.
              ** split; [exact Hlt|]. intros it Hin Hit.
                 apply in_app_or in Hin as [Hin|[<-|[]]]; [apply Hle; assumption|exact Hd].
        -- split; [exact Hx|]. exists pre, []. split; [reflexivity|]. split.
           ++ intros it Hin Hit. rewrite (Hacc it Hin) in Hit. discriminate.
           ++ intros it [].
      * destruct acc as [c|].
        -- destruct Hacc as (Hc & l1 & l2 & Hpre & Hlt & Hle).
           split; [exact Hc|]. exists l1, (l2 ++ [x]). split.
           ++ rewrite Hpre, <- app_assoc. reflexivity.
           ++ split; [exact Hlt|]. intros it Hin Hit.
              apply in_app_or in Hin as [Hin|[<-|[]]]; [apply Hle; assumption|].
              unfold in_use_primary in Hit. rewrite Hu, Hm in Hit. discriminate.
        -- intros it Hin. apply in_app_or in Hin as [Hin|[<-|[]]]; [apply Hacc, Hin|].
           unfold in_use_primary. rewrite Hu, Hm. reflexivity.
    + destruct acc as [c|].
      * destruct Hacc as (Hc & l1 & l2 & Hpre & Hlt & Hle).
        split; [exact Hc|]. exists l1, (l2 ++ [x]). split.
        -- rewrite Hpre, <- app_assoc. reflexivity.
        -- split; [exact Hlt|]. intros it Hin Hit.
           apply in_app_or in Hin as [Hin|[<-|[]]]; [apply Hle; assumption|].
           unfold in_use_primary in Hit. rewrite Hu in Hit. discriminate.
      * intros it Hin. apply in_app_or in Hin as [Hin|[<-|[]]]; [apply Hacc, Hin|].
        unfold in_use_primary. rewrite Hu. reflexivity.
Qed.

(** X1.  [get_root_master_bref] returns no handle exactly when no handle
    in use is flagged primary; otherwise it returns the first handle, in
    insertion order, of least replication depth among the handles in use
    that are flagged primary. *)
Theorem root_master_is_first_shallowest (rses : ROUTER_CLIENT_SES) :
  match get_root_master_bref rses with
  | None => forall it, In it (handles rses) -> in_use_primary it = false
  | Some m =>
      in_use_primary m = true /\
      backends rses !! fst m = Some (snd m) /\
      exists l1 l2, handles rses = l1 ++ m :: l2 /\
        (forall it, In it l1 -> in_use_primary it = true ->
           depth (server (snd m)) < depth (server (snd it))) /\
        (forall it, In it l2 -> in_use_primary it = true ->
           depth (server (snd m)) <= depth (server (snd it)))
  end.
Proof.
  pose proof (root_master_fold_min (handles rses) [] None) as H.
  cbn [app] in H. fold (get_root_master_bref rses) in H.
  specialize (H (fun it Hin => match Hin with end)).
  destruct (get_root_master_bref rses) as [m|]; [|exact H].
  destruct H as (Hm & l1 & l2 & Hsplit & Hrest).
  split; [exact Hm|]. split.
  - apply handles_In. rewrite Hsplit. apply in_or_app. right. left. reflexivity.
  - exists l1, l2. split; [exact Hsplit|exact Hrest].
Qed.

(** X2.  Outside a pinned read-only transaction, [get_target_backend] for
    [BE_MASTER] without a name succeeds exactly when the root primary
    exists and is active, and then returns it; it never falls back to
    another primary, and on failure it leaves [target] as it was. *)
Theorem primary_selection_is_root_master (rses : ROUTER_CLIENT_SES) (max_rlag : Z)
    (target : SRWBackend) :
  is_set (target_node rses) && session_trx_is_read_only (session (client_dcb rses)) = false ->
  get_target_backend rses BE_MASTER None max_rlag target =
    match get_root_master_bref rses with
    | Some m => if is_active (snd m) then (true, Some (fst m)) else (false, target)
    | None => (false, target)
    end.
Proof.
  intros Hpin. unfold get_target_backend. rewrite Hpin.
  pose proof (root_master_fold_min (handles rses) [] None) as H.
  cbn [app] in H. fold (get_root_master_bref rses) in H.
  specialize (H (fun it Hin => match Hin with end)).
  destruct (get_root_master_bref rses) as [m|]; [|reflexivity].
  destruct H as (Hm & _). unfold in_use_primary in Hm.
  apply andb_prop in Hm as [Hu Hmaster]. rewrite Hu, Hmaster.
  destruct (is_active (snd m)); reflexivity.
Qed.

(** What one iteration of the scan for a replica can do to the candidate:
    keep it, or take the handle at hand, which is then usable and
    acceptable, and within the lag bound when it replaces a candidate. *)
Lemma slave_scan_step_cases rses max_rlag st x :
  fst (slave_scan_step rses max_rlag st x) = fst st \/
  (fst (slave_scan_step rses max_rlag st x) = Some x /\
   usable (snd x) = true /\ acceptable rses max_rlag x = true /\
   (fst st = None \/
    (within_max_lag max_rlag (snd x) = true /\
     (SERVER_IS_SLAVE (server (snd x)) = true \/
      master_accept_reads (rses_config rses) = true)))).
Proof.
  unfold slave_scan_step, usable, acceptable, is_current_primary.
  change within_max_lag with rlag_within.
  destruct st as [[c|] s]; cbn [fst snd];
    destruct (in_use (snd x)), (is_active (snd x)),
      (SERVER_IS_MASTER (server (snd x))), (SERVER_IS_SLAVE (server (snd x)));
    cbn [negb orb andb]; auto;
    try (destruct (SERVER_IS_MASTER (server (snd c))));
    destruct (rlag_within max_rlag (snd x));
    destruct (master_accept_reads (rses_config rses));
    destruct (ptr_eqb (Some (fst x)) (current_master rses));
    cbn [negb orb andb]; auto 10;
    rewrite ?check_candidate_some; cbn [fst];
    try (destruct (0 <? _)); auto 10.
Qed.

Lemma slave_scan_step_rejects rses max_rlag s x :
  fst (slave_scan_step rses max_rlag (None, s) x) = None ->
  usable (snd x) && acceptable rses max_rlag x = false.
Proof.
  unfold slave_scan_step, usable, acceptable, is_current_primary.
  change within_max_lag with rlag_within. cbn [fst snd].
  destruct (in_use (snd x)), (is_active (snd x)),
    (SERVER_IS_MASTER (server (snd x))), (SERVER_IS_SLAVE (server (snd x)));
    cbn [negb orb andb]; auto;
    destruct (ptr_eqb (Some (fst x)) (current_master rses));
    destruct (rlag_within max_rlag (snd x)); cbn; auto; discriminate.
Qed.

(** The state of the scan for a replica after a prefix of the handles. *)
Lemma slave_scan_fold_sound rses max_rlag (l : list bref) :
  forall (pre : list bref) (st : option bref * bool),
  match fst st with
  | None => forall it, In it pre -> usable (snd it) && acceptable rses max_rlag it = false
  | Some c => In c pre /\ usable (snd c) = true /\ acceptable rses max_rlag c = true
  end ->
  match fst (fold_left (slave_scan_step rses max_rlag) l st) with
  | None => forall it, In it (pre ++ l) ->
              usable (snd it) && acceptable rses max_rlag it = false
  | Some c => In c (pre ++ l) /\ usable (snd c) = true /\ acceptable rses max_rlag c = true
  end.
Proof.
  induction l as [|x l IH]; intros pre st Hst; cbn [fold_left].
  - rewrite app_nil_r. exact Hst.
  - replace (pre ++ x :: l) with ((pre ++ [x]) ++ l)
      by (rewrite <- app_assoc; reflexivity).
    apply IH.
    destruct (slave_scan_step_cases rses max_rlag st x) as [E|(E & Hu & Ha & _)].
    + rewrite E. destruct st as [[c|] s]; cbn [fst] in *.
      * destruct Hst as (Hin & Hrest). split; [|exact Hrest].
        apply in_or_app. left. exact Hin.
      * intros it Hin. apply in_app_or in Hin as [Hin|[<-|[]]]; [apply Hst, Hin|].
        apply (slave_scan_step_rejects rses max_rlag s). exact E.
    + rewrite E. split; [|split; assumption].
      apply in_or_app. right. left. reflexivity.
Qed.

(** X3.  Outside a pinned read-only transaction, the scan for a replica
    succeeds exactly when some handle of the session is usable (in use,
    active, flagged primary or replica) and acceptable (the current primary,
    or within the lag bound); the handle it returns is such a handle of the
    session, and on failure [target] is left as it was. *)
Theorem replica_selection_sound (rses : ROUTER_CLIENT_SES) (max_rlag : Z)
    (target : SRWBackend) :
  is_set (target_node rses) && session_trx_is_read_only (session (client_dcb rses)) = false ->
  let r := get_target_backend rses BE_SLAVE None max_rlag target in
  (fst r = true <->
   exists it, In it (handles rses) /\ usable (snd it) = true /\
              acceptable rses max_rlag it = true) /\
  (fst r = true ->
   exists it, In it (handles rses) /\ snd r = Some (fst it) /\
              backends rses !! fst it = Some (snd it) /\
              usable (snd it) = true /\ acceptable rses max_rlag it = true) /\
  (fst r = false -> snd r = target).
Proof.
  intros Hpin r.
  assert (Hr : r = (is_set (bref_ptr (fst (fold_left (slave_scan_step rses max_rlag)
                                              (handles rses) (None, false)))),
                    match fst (fold_left (slave_scan_step rses max_rlag)
                                 (handles rses) (None, false)) with
                    | Some c => Some (fst c) | None => target end)).
  { subst r. unfold get_target_backend. rewrite Hpin. cbn [List.find].
    f_equal. apply slave_scan_succp. reflexivity. }
  pose proof (slave_scan_fold_sound rses max_rlag (handles rses) [] (None, false)) as H.
  cbn [app fst] in H. specialize (H (fun it Hin => match Hin with end)).
  rewrite Hr.
  destruct (fst (fold_left (slave_scan_step rses max_rlag) (handles rses) (None, false)))
    as [c|]; cbn [fst snd bref_ptr is_set].
  - destruct H as (Hin & Hu & Ha). split; [|split].
    + split; [intros _; exists c; auto|reflexivity].
    + intros _. exists c. repeat split; try assumption. apply handles_In, Hin.
    + discriminate.
  - split; [|split].
    + split; [discriminate|]. intros (it & Hin & Hu & Ha).
      specialize (H it Hin). rewrite Hu, Ha in H. discriminate.
    + discriminate.
    + reflexivity.
Qed.

Lemma slave_scan_step_first rses max_rlag s x :
  usable (snd x) = true -> within_max_lag max_rlag (snd x) = true ->
  slave_scan_step rses max_rlag (None, s) x = (Some x, true).
Proof.
  unfold slave_scan_step, usable. change within_max_lag with rlag_within.
  intros Hu Hl. cbn [fst snd]. rewrite Hl.
  destruct (in_use (snd x)), (is_active (snd x)),
    (SERVER_IS_MASTER (server (snd x))), (SERVER_IS_SLAVE (server (snd x)));
    try discriminate; cbn [negb orb andb];
    destruct (ptr_eqb (Some (fst x)) (current_master rses)); reflexivity.
Qed.

Lemma slave_scan_step_replaces_primary rses max_rlag c s x :
  master_accept_reads (rses_config rses) = false ->
  SERVER_IS_MASTER (server (snd c)) = true ->
  usable (snd x) = true -> qualifying_replica max_rlag (snd x) = true ->
  slave_scan_step rses max_rlag (Some c, s) x = (Some x, true).
Proof.
  unfold slave_scan_step, usable, qualifying_replica.
  change within_max_lag with rlag_within.
  intros Hmar Hc Hu Hq. cbn [fst snd].
  apply andb_prop in Hq as [Hs Hl]. rewrite Hmar, Hc, Hs, Hl.
  destruct (in_use (snd x)), (is_active (snd x)); try discriminate.
  cbn [negb orb andb]. rewrite andb_false_r. reflexivity.
Qed.

(** A candidate that is not flagged primary was taken for its lag: it is
    a replica within the bound. *)
Lemma replica_candidate_qualifies rses max_rlag c :
  usable (snd c) = true -> acceptable rses max_rlag c = true ->
  SERVER_IS_MASTER (server (snd c)) = false ->
  qualifying_replica max_rlag (snd c) = true.
Proof.
  unfold usable, acceptable, is_current_primary, qualifying_replica.
  intros Hu Ha Hm. rewrite Hm in *. cbn [andb orb] in Ha. rewrite Ha.
  destruct (in_use (snd c)), (is_active (snd c)); try discriminate.
  cbn [andb orb] in Hu. rewrite Hu. reflexivity.
Qed.

Lemma slave_scan_fold_prefers rses max_rlag (l : list bref) :
  master_accept_reads (rses_config rses) = false ->
  forall (pre : list bref) (st : option bref * bool),
  (match fst st with
   | Some c => In c pre /\ usable (snd c) = true /\ acceptable rses max_rlag c = true
   | None => True
   end) ->
  ((exists it, In it pre /\ usable (snd it) = true /\
               qualifying_replica max_rlag (snd it) = true) ->
   exists c, fst st = Some c /\ qualifying_replica max_rlag (snd c) = true) ->
  (exists it, In it (pre ++ l) /\ usable (snd it) = true /\
              qualifying_replica max_rlag (snd it) = true) ->
  exists c, fst (fold_left (slave_scan_step rses max_rlag) l st) = Some c /\
            In c (pre ++ l) /\ qualifying_replica max_rlag (snd c) = true.
Proof.
  intros Hmar. induction l as [|x l IH]; intros pre st Hcand Hpref Hex; cbn [fold_left].
  - rewrite app_nil_r in *. destruct (Hpref Hex) as (c & Hc & Hq).
    exists c. rewrite Hc in Hcand. destruct Hcand as (Hin & _). auto.
  - replace (pre ++ x :: l) with ((pre ++ [x]) ++ l) in *
      by (rewrite <- app_assoc; reflexivity).
    apply IH; [| |exact Hex].
    + destruct (slave_scan_step_cases rses max_rlag st x) as [E|(E & Hu & Ha & _)];
        rewrite E.
      * destruct (fst st) as [c|]; [|exact I].
        destruct Hcand as (Hin & Hrest). split; [|exact Hrest].
        apply in_or_app. left. exact Hin.
      * split; [|split; assumption]. apply in_or_app. right. left. reflexivity.
    + intros (it & Hin & Hu & Hq).
      assert (Hkeep : forall c, fst st = Some c ->
                qualifying_replica max_rlag (snd c) = true ->
                exists c', fst (slave_scan_step rses max_rlag st x) = Some c' /\
                           qualifying_replica max_rlag (snd c') = true).
      { intros c Hc Hqc.
        destruct (slave_scan_step_cases rses max_rlag st x)
          as [E|(E & _ & _ & [Hn|(Hl & [Hs|Hm])])].
        - exists c. rewrite E. auto.
        - congruence.
        - exists x. split; [exact E|]. unfold qualifying_replica. rewrite Hs, Hl. reflexivity.
        - congruence. }
      apply in_app_or in Hin as [Hin|[<-|[]]].
      * destruct Hpref as (c & Hc & Hqc); [exists it; auto|]. eauto.
      * destruct st as [[c|] s]; cbn [fst] in *.
        -- destruct Hcand as (_ & Huc & Hac).
           destruct (SERVER_IS_MASTER (server (snd c))) eqn:Hm.
           ++ exists x. rewrite slave_scan_step_replaces_primary by assumption. auto.
           ++ apply (Hkeep c eq_refl).
              apply (replica_candidate_qualifies rses); assumption.
        -- exists x. rewrite slave_scan_step_first; [auto|exact Hu|].
           unfold qualifying_replica in Hq. apply andb_prop in Hq as [_ Hq]. exact Hq.
Qed.

(** X4.  With [master_accept_reads] off, whenever some usable handle is a
    replica within the lag bound, the scan for a replica returns a replica
    within the lag bound, not a handle that is only a primary. *)
Theorem replica_preferred_over_primary (rses : ROUTER_CLIENT_SES) (max_rlag : Z)
    (target : SRWBackend) :
  is_set (target_node rses) && session_trx_is_read_only (session (client_dcb rses)) = false ->
  master_accept_reads (rses_config rses) = false ->
  (exists it, In it (handles rses) /\ usable (snd it) = true /\
              qualifying_replica max_rlag (snd it) = true) ->
  exists c, In c (handles rses) /\
            get_target_backend rses BE_SLAVE None max_rlag target = (true, Some (fst c)) /\
            qualifying_replica max_rlag (snd c) = true.
Proof.
  intros Hpin Hmar Hex.
  destruct (slave_scan_fold_prefers rses max_rlag (handles rses) Hmar [] (None, false) I)
    as (c & Hc & Hin & Hq).
  - intros (it & [] & _).
  - exact Hex.
  - exists c. split; [exact Hin|]. split; [|exact Hq].
    unfold get_target_backend. rewrite Hpin. cbn [List.find].
    rewrite slave_scan_succp by reflexivity. rewrite Hc. reflexivity.
Qed.

Lemma strncasecmp_zero (n : nat) : forall a b : string,
  (strlen a < n)%nat -> (strlen b < n)%nat -> c_string a -> c_string b ->
  (strncasecmp a b n = 0 <-> lowercase a = lowercase b).
Proof.
  unfold c_string, strlen.
  induction n as [|n IH]; intros a b Ha Hb Hca Hcb; [lia|].
  destruct a as [|c1 a], b as [|c2 b]; cbn [strncasecmp lowercase String.length] in *.
  - split; reflexivity.
  - inversion Hcb; subst. split; [lia|discriminate].
  - inversion Hca; subst. split; [lia|discriminate].
  - inversion Hca; inversion Hcb; subst.
    destruct (Z.eqb_spec (tolower c1) (tolower c2)) as [E|E].
    + rewrite IH by (assumption || lia). split; [intros ->; rewrite E; reflexivity|].
      intros H. injection H as _ H. exact H.
    + split; [lia|]. intros H. injection H as H _. contradiction.
Qed.

Lemma strcasecmp_zero (a b : string) :
  c_string a -> c_string b ->
  (strcasecmp a b = 0 <-> lowercase a = lowercase b).
Proof.
  intros Ha Hb. unfold strcasecmp. apply strncasecmp_zero; try assumption; lia.
Qed.

Lemma named_server_match_answers nm it :
  c_string nm -> c_string (unique_name (server (snd it))) ->
  (named_server_match nm it = true <-> answers_to nm it).
Proof.
  intros Hn Hs. unfold named_server_match, answers_to.
  rewrite !andb_true_iff, Z.eqb_eq, (strcasecmp_zero _ _ Hn Hs).
  split; [intros [[[H1 H2] H3] H4]|intros (H1 & H2 & H3 & H4)]; repeat split; assumption.
Qed.

Lemma find_first {A : Type} (f : A -> bool) (l1 : list A) (x : A) (l2 : list A) :
  f x = true -> (forall y, In y l1 -> f y = false) ->
  List.find f (l1 ++ x :: l2) = Some x.
Proof.
  intros Hx. induction l1 as [|y l1 IH]; intros Hl1; cbn [app List.find].
  - rewrite Hx. reflexivity.
  - rewrite (Hl1 y) by (left; reflexivity). apply IH.
    intros z Hz. apply Hl1. right. exact Hz.
Qed.

(** X5.  Outside a pinned read-only transaction, a call of
    [get_target_backend] with a name returns the first handle, in insertion
    order, that is in use and active, whose server answers to the name up
    to the case of letters and is flagged replica, relay or primary.  When
    no handle does, the call behaves as a call for a replica without a
    name, whatever role was asked for. *)
Theorem named_server_selection (rses : ROUTER_CLIENT_SES) (btype : backend_type_t)
    (name : string) (max_rlag : Z) (target : SRWBackend) :
  is_set (target_node rses) && session_trx_is_read_only (session (client_dcb rses)) = false ->
  c_string name ->
  (forall it, In it (handles rses) -> c_string (unique_name (server (snd it)))) ->
  (forall l1 it l2,
     handles rses = l1 ++ it :: l2 -> answers_to name it ->
     (forall y, In y l1 -> ~ answers_to name y) ->
     get_target_backend rses btype (Some name) max_rlag target = (true, Some (fst it))) /\
  ((forall it, In it (handles rses) -> ~ answers_to name it) ->
   get_target_backend rses btype (Some name) max_rlag target =
   get_target_backend rses BE_SLAVE None max_rlag target).
Proof.
  intros Hpin Hn Hs. split.
  - intros l1 it l2 Hsplit Hit Hl1.
    unfold get_target_backend. rewrite Hpin, Hsplit.
    rewrite find_first; [reflexivity| |].
    + apply named_server_match_answers; [exact Hn| |exact Hit].
      apply Hs. rewrite Hsplit. apply in_or_app. right. left. reflexivity.
    + intros y Hy. apply not_true_is_false. intros Hm.
      apply (Hl1 y Hy). apply named_server_match_answers; [exact Hn| |exact Hm].
      apply Hs. rewrite Hsplit. apply in_or_app. left. exact Hy.
  - intros Hnone. unfold get_target_backend. rewrite Hpin.
    destruct (List.find (named_server_match name) (handles rses)) as [it|] eqn:Hf;
      [|reflexivity].
    apply find_some in Hf as [Hin Hm].
    exfalso. apply (Hnone it Hin).
    apply named_server_match_answers; [exact Hn|apply Hs, Hin|exact Hm].
Qed.

(** ** Further properties of the route-target resolver *)

Lemma route_target_of_query_values (rses : ROUTER_CLIENT_SES) (qtype : Z) :
  route_target_of_query rses qtype = TARGET_MASTER \/
  route_target_of_query rses qtype = TARGET_SLAVE \/
  route_target_of_query rses qtype = TARGET_ALL \/
  route_target_of_query rses qtype = Z.lor TARGET_MASTER TARGET_ALL.
Proof.
  unfold route_target_of_query.
  destruct (is_set (target_node rses) && ptr_eqb (target_node rses) (current_master rses));
    [auto|].
  destruct (load_data_state rses); cbn [load_data_state_eqb negb andb orb];
    repeat split_condition; cbn; auto.
Qed.

Lemma small_target_cases (P : Z -> bool) :
  forallb P (List.map Z.of_nat (seq 0 32)) = true ->
  forall t, 0 <= t < 32 -> P t = true.
Proof.
  intros H t Ht. rewrite forallb_forall in H. apply H.
  rewrite <- (Z2Nat.id t) by lia. apply in_map, in_seq. lia.
Qed.

Lemma route_target_ok_range t : route_target_ok t = true -> 0 <= t < 32.
Proof.
  unfold route_target_ok. rewrite !andb_true_iff, !Z.ltb_lt. lia.
Qed.

Lemma route_target_ok_lor t :
  route_target_ok t = true ->
  route_target_ok (Z.lor t TARGET_NAMED_SERVER) = true /\
  route_target_ok (Z.lor t TARGET_RLAG_MAX) = true.
Proof.
  intros Ht. pose proof (route_target_ok_range t Ht) as Hr. revert Ht.
  pose proof (small_target_cases
    (fun t => implb (route_target_ok t)
                (route_target_ok (Z.lor t TARGET_NAMED_SERVER) &&
                 route_target_ok (Z.lor t TARGET_RLAG_MAX))) eq_refl t Hr) as H.
  cbn beta in H. intros Ht. rewrite Ht in H. cbn [implb] in H.
  apply andb_prop in H. exact H.
Qed.

Lemma process_hints_ok (hints : list HINT) : forall t,
  route_target_ok t = true -> route_target_ok (process_hints t hints) = true.
Proof.
  induction hints as [|h hints IH]; intros t Ht; cbn [process_hints]; [exact Ht|].
  destruct (route_target_ok_lor t Ht) as [Hn Hr].
  destruct (hint_type h);
    try (apply IH; (assumption || reflexivity)); try reflexivity.
  match goal with |- context [if ?c then _ else _] => destruct c end;
    apply IH; assumption.
Qed.

(** X6.  Every route target that [get_route_target] returns names a role
    (PRIMARY, SLAVE or ALL) and stays within the five bits of the field,
    whatever the query type and the hints. *)
Theorem route_target_has_role (rses : ROUTER_CLIENT_SES) (qtype : Z)
    (hints : list HINT) :
  0 < get_route_target rses qtype hints < 32 /\
  has_role (get_route_target rses qtype hints) = true.
Proof.
  assert (H : route_target_ok (get_route_target rses qtype hints) = true).
  { unfold get_route_target. apply process_hints_ok.
    destruct (route_target_of_query_values rses qtype) as [E|[E|[E|E]]];
      rewrite E; reflexivity. }
  unfold route_target_ok in H. rewrite !andb_true_iff, !Z.ltb_lt in H.
  destruct H as [[H1 H2] H3]. auto.
Qed.

Lemma process_hints_master (hints : list HINT) : forall t,
  (exists h, In h hints /\ hint_type h = HINT_ROUTE_TO_MASTER) ->
  process_hints t hints = TARGET_MASTER.
Proof.
  induction hints as [|h hints IH]; intros t (x & Hin & Hx); [destruct Hin|].
  cbn [process_hints].
  destruct Hin as [<-|Hin]; [rewrite Hx; reflexivity|].
  assert (Hex : exists h, In h hints /\ hint_type h = HINT_ROUTE_TO_MASTER) by eauto.
  destruct (hint_type h); try (apply IH; exact Hex); try reflexivity.
  match goal with |- context [if ?c then _ else _] => destruct c end;
    apply IH; exact Hex.
Qed.

(** X7.  A route-to-primary hint anywhere in the chain makes the route
    target PRIMARY alone, whatever the statement and the other hints: also
    a statement that would go to all backends loses the ALL bit. *)
Theorem master_hint_overrides (rses : ROUTER_CLIENT_SES) (qtype : Z)
    (hints : list HINT) :
  (exists h, In h hints /\ hint_type h = HINT_ROUTE_TO_MASTER) ->
  get_route_target rses qtype hints = TARGET_MASTER /\
  TARGET_IS_ALL (get_route_target rses qtype hints) = false.
Proof.
  intros H. unfold get_route_target. rewrite process_hints_master by exact H.
  split; reflexivity.
Qed.

Lemma target_bit_lor (t k b : Z) :
  Z.land k b = 0 -> Z.land (Z.lor t k) b = Z.land t b.
Proof.
  intros H. rewrite Z.land_lor_distr_l, H, Z.lor_0_r. reflexivity.
Qed.

Lemma slave_bit_lor (t k : Z) :
  Z.land k TARGET_SLAVE = 0 -> TARGET_IS_SLAVE (Z.lor t k) = TARGET_IS_SLAVE t.
Proof. intros H. unfold TARGET_IS_SLAVE. rewrite target_bit_lor by exact H. reflexivity. Qed.

Lemma process_hints_slave (hints : list HINT) : forall t,
  TARGET_IS_SLAVE (process_hints t hints) = true ->
  TARGET_IS_SLAVE t = true \/
  exists h, In h hints /\ hint_type h = HINT_ROUTE_TO_SLAVE.
Proof.
  induction hints as [|h hints IH]; intros t Ht; cbn [process_hints] in Ht; [auto|].
  assert (Hlift : forall t',
            TARGET_IS_SLAVE t' = TARGET_IS_SLAVE t ->
            TARGET_IS_SLAVE (process_hints t' hints) = true ->
            TARGET_IS_SLAVE t = true \/
            exists h0, In h0 (h :: hints) /\ hint_type h0 = HINT_ROUTE_TO_SLAVE).
  { intros t' Heq Hp. destruct (IH t' Hp) as [H|(x & Hin & Hx)].
    - left. rewrite <- Heq. exact H.
    - right. exists x. split; [right; exact Hin|exact Hx]. }
  destruct (hint_type h) eqn:Hh.
  - discriminate.
  - right. exists h. split; [left; reflexivity|exact Hh].
  - apply (Hlift _ (slave_bit_lor t TARGET_NAMED_SERVER eq_refl) Ht).
  - apply (Hlift t eq_refl Ht).
  - apply (Hlift t eq_refl Ht).
  - match type of Ht with context [if ?c then _ else _] => destruct c end.
    + apply (Hlift _ (slave_bit_lor t TARGET_RLAG_MAX eq_refl) Ht).
    + apply (Hlift t eq_refl Ht).
Qed.

(** X8.  [get_route_target] sets the SLAVE bit only for a statement that
    carries a route-to-replica hint, or runs in a read-only transaction,
    or is a plain read outside any transaction and any data load: in
    particular never for a write outside these cases. *)
Theorem slave_target_only_for_reads (rses : ROUTER_CLIENT_SES) (qtype : Z)
    (hints : list HINT) :
  TARGET_IS_SLAVE (get_route_target rses qtype hints) = true ->
  (exists h, In h hints /\ hint_type h = HINT_ROUTE_TO_SLAVE) \/
  session_trx_is_read_only (session (client_dcb rses)) = true \/
  (session_trx_is_active (session (client_dcb rses)) = false /\
   load_data_state rses = LOAD_DATA_INACTIVE /\
   plain_read qtype = true).
Proof.
  intros H. unfold get_route_target in H.
  apply process_hints_slave in H as [H|H]; [|left; exact H].
  right. revert H. unfold route_target_of_query, plain_read.
  destruct (is_set (target_node rses) && ptr_eqb (target_node rses) (current_master rses));
    [discriminate|].
  destruct (session_trx_is_read_only (session (client_dcb rses))) eqn:Hro; [auto|].
  destruct (load_data_state rses); cbn [load_data_state_eqb negb andb orb];
    repeat split_condition; cbn; try discriminate; intros _; right;
    (split; [reflexivity || assumption|]); (split; [reflexivity|]);
    repeat match goal with
           | H : qc_query_is_type _ _ = _ |- _ => rewrite H
           end; reflexivity.
Qed.

Lemma process_hints_named (hints : list HINT) : forall t,
  TARGET_IS_NAMED_SERVER (process_hints t hints) = true ->
  TARGET_IS_NAMED_SERVER t = true \/ exists h, In h hints /\ is_named_hint h = true.
Proof.
  induction hints as [|h hints IH]; intros t Ht; cbn [process_hints] in Ht; [auto|].
  assert (Hlift : forall t',
            (TARGET_IS_NAMED_SERVER t' = true -> TARGET_IS_NAMED_SERVER t = true) ->
            TARGET_IS_NAMED_SERVER (process_hints t' hints) = true ->
            TARGET_IS_NAMED_SERVER t = true \/
            exists h0, In h0 (h :: hints) /\ is_named_hint h0 = true).
  { intros t' Himp Hp. destruct (IH t' Hp) as [H|(x & Hin & Hx)]; [auto|].
    right. exists x. split; [right; exact Hin|exact Hx]. }
  destruct (hint_type h) eqn:Hh.
  - discriminate.
  - apply (Hlift TARGET_SLAVE); [discriminate|exact Ht].
  - right. exists h. split; [left; reflexivity|]. unfold is_named_hint. rewrite Hh. reflexivity.
  - apply (Hlift t); auto.
  - apply (Hlift t); auto.
  - match type of Ht with context [if ?c then _ else _] => destruct c end.
    + apply (Hlift (Z.lor t TARGET_RLAG_MAX)); [|exact Ht].
      unfold TARGET_IS_NAMED_SERVER. rewrite target_bit_lor by reflexivity. auto.
    + apply (Hlift t); auto.
Qed.

Lemma hinted_target_scan_app (l1 l2 : list HINT) : forall named rlag,
  hinted_target_scan (l1 ++ l2) named rlag =
  hinted_target_scan l2 (fst (hinted_target_scan l1 named rlag))
    (snd (hinted_target_scan l1 named rlag)).
Proof.
  induction l1 as [|h l1 IH]; intros named rlag; cbn [app hinted_target_scan fst snd];
    [reflexivity|].
  destruct (hint_type h); try apply IH.
  repeat match goal with |- context [if ?c then _ else _] => destruct c end; apply IH.
Qed.

Lemma hinted_target_scan_unnamed (l : list HINT) : forall named rlag,
  (forall y, In y l -> is_named_hint y = false) ->
  fst (hinted_target_scan l named rlag) = named.
Proof.
  induction l as [|h l IH]; intros named rlag Hl; cbn [hinted_target_scan fst];
    [reflexivity|].
  assert (Hh : is_named_hint h = false) by (apply Hl; left; reflexivity).
  assert (Hl' : forall y, In y l -> is_named_hint y = false)
    by (intros y Hy; apply Hl; right; exact Hy).
  unfold is_named_hint in Hh.
  destruct (hint_type h); try discriminate; try (apply IH; exact Hl').
  repeat match goal with |- context [if ?c then _ else _] => destruct c end;
    apply IH; exact Hl'.
Qed.

Lemma last_such {A : Type} (P : A -> bool) (l : list A) :
  (forall y, In y l -> P y = false) \/
  exists l1 x l2, l = l1 ++ x :: l2 /\ P x = true /\ forall y, In y l2 -> P y = false.
Proof.
  induction l as [|a l IH].
  - left. intros y [].
  - destruct IH as [Hnone|(l1 & x & l2 & -> & Hx & Hl2)].
    + destruct (P a) eqn:Ha.
      * right. exists [], a, l. auto.
      * left. intros y [<-|Hy]; auto.
    + right. exists (a :: l1), x, l2. auto.
Qed.

(** X9.  Whenever [get_route_target] sets the NAMED_SERVER bit, the hint
    chain holds a route-to-named-server hint, and [handle_hinted_target]
    looks up the name of the last such hint of the chain. *)
Theorem named_target_has_name (rses : ROUTER_CLIENT_SES) (qtype : Z)
    (querybuf : GWBUF) (route_target : Z) (target : SRWBackend) :
  TARGET_IS_NAMED_SERVER (get_route_target rses qtype (hint querybuf)) = true ->
  exists l1 h l2,
    hint querybuf = l1 ++ h :: l2 /\
    hint_type h = HINT_ROUTE_TO_NAMED_SERVER /\
    (forall y, In y l2 -> hint_type y <> HINT_ROUTE_TO_NAMED_SERVER) /\
    fst (hinted_target_scan (hint querybuf) None MAX_RLAG_UNDEFINED) = Some (hint_data h) /\
    exists btype rlag_max,
      handle_hinted_target rses querybuf route_target target =
      get_target_backend rses btype (Some (hint_data h)) rlag_max target.
Proof.
  intros H. unfold get_route_target in H.
  apply process_hints_named in H as [H|(x & Hin & Hx)].
  { destruct (route_target_of_query_values rses qtype) as [E|[E|[E|E]]];
      rewrite E in H; discriminate. }
  destruct (last_such is_named_hint (hint querybuf)) as [Hnone|(l1 & h & l2 & Hsplit & Hh & Hl2)].
  { rewrite (Hnone x Hin) in Hx. discriminate. }
  assert (Hscan : fst (hinted_target_scan (hint querybuf) None MAX_RLAG_UNDEFINED) =
                  Some (hint_data h)).
  { rewrite Hsplit, hinted_target_scan_app. cbn [hinted_target_scan].
    unfold is_named_hint in Hh.
    destruct (hint_type h); try discriminate.
    apply hinted_target_scan_unnamed. exact Hl2. }
  exists l1, h, l2. split; [exact Hsplit|]. split.
  { unfold is_named_hint in Hh. destruct (hint_type h); try discriminate. reflexivity. }
  split.
  { intros y Hy Hty. specialize (Hl2 y Hy). unfold is_named_hint in Hl2.
    rewrite Hty in Hl2. discriminate. }
  split; [exact Hscan|].
  unfold handle_hinted_target. rewrite Hscan. eauto.
Qed.

(** ** Further properties of the routing of a statement *)

(** What [handle_got_target] does to the counters and to the load-data
    state, and what it leaves alone. *)
Lemma handle_got_target_effects inst rses querybuf t store :
  let g := handle_got_target inst rses querybuf t store in
  let step := fst (fst g) && expects_response rses in
  load_data_state (snd g) =
    (if step then load_state_after_forward (load_data_state rses)
     else load_data_state rses) /\
  expected_responses (snd g) = expected_responses rses + (if step then 1 else 0) /\
  rses_load_data_sent (snd g) = rses_load_data_sent rses /\
  sescmd_count (snd g) = sescmd_count rses /\
  sent_sescmd (snd g) = sent_sescmd rses /\
  sescmd_list (snd g) = sescmd_list rses /\
  n_queries (snd (fst g)) =
    (if fst (fst g) then (n_queries inst + 1) mod 2 ^ 64 else n_queries inst) /\
  length (backends (snd g)) = length (backends rses) /\
  (forall i, i <> t -> backends (snd g) !! i = backends rses !! i).
Proof.
  cbn zeta. unfold handle_got_target, expects_response.
  unfold session_trx_is_read_only, session_trx_is_ending.
  assert (Hdone : forall (r : ROUTER_CLIENT_SES) (l : list RWBackend) (P : Prop),
            backends r = l ->
            (length l = length (backends rses) /\
             forall i, i <> t -> l !! i = backends rses !! i) ->
            P -> P /\ length (backends r) = length (backends rses) /\
                 (forall i, i <> t -> backends r !! i = backends rses !! i)).
  { intros r l P -> Hl HP. split; [exact HP|exact Hl]. }
  assert (H1 : forall b', length (<[t:=b']> (backends rses)) = length (backends rses) /\
                 forall i, i <> t -> <[t:=b']> (backends rses) !! i = backends rses !! i).
  { intros b'. split; [apply length_insert|].
    intros i Hi. apply list_lookup_insert_ne. congruence. }
  assert (H2 : forall b' b'',
                 length (<[t:=b'']> (<[t:=b']> (backends rses))) = length (backends rses) /\
                 forall i, i <> t ->
                   <[t:=b'']> (<[t:=b']> (backends rses)) !! i = backends rses !! i).
  { intros b' b''. split; [rewrite !length_insert; reflexivity|].
    intros i Hi. rewrite !list_lookup_insert_ne by congruence. reflexivity. }
  assert (H0 : length (backends rses) = length (backends rses) /\
               forall i, i <> t -> backends rses !! i = backends rses !! i) by auto.
  destruct (negb (is_set (target_node rses)) &&
            trx_is_read_only (session (client_dcb rses)));
    cbn [set_target_node backends client_dcb load_data_state target_node
         expected_responses rses_load_data_sent sescmd_count sent_sescmd sescmd_list];
    (destruct (backends rses !! t) as [b|];
     [|cbn [fst snd andb]; rewrite Z.add_0_r; repeat split; apply H0]);
    destruct (backend_write b _ _) as [ok b']; cbn [fst snd];
    (destruct ok; [|cbn [fst snd andb]; rewrite Z.add_0_r; repeat split; apply H1]);
    destruct store, (_ && query_creates_reply _);
    cbn -[Z.add Z.eqb insert Z.pow Z.modulo];
    destruct (load_data_state rses) eqn:Hl;
    cbn -[Z.add Z.eqb insert Z.pow Z.modulo andb is_set];
    match goal with
    | |- context [if ?c then set_target_node _ None else _] => destruct c
    end;
    cbn -[Z.add Z.eqb insert Z.pow Z.modulo];
    rewrite ?Z.add_0_r, ?Hl; repeat split; first [apply H1 | apply H2].
Qed.

Lemma close_current_master_frame rses :
  load_data_state (close_current_master rses) = load_data_state rses /\
  expected_responses (close_current_master rses) = expected_responses rses /\
  rses_load_data_sent (close_current_master rses) = rses_load_data_sent rses /\
  client_dcb (close_current_master rses) = client_dcb rses /\
  sescmd_count (close_current_master rses) = sescmd_count rses /\
  sent_sescmd (close_current_master rses) = sent_sescmd rses /\
  sescmd_list (close_current_master rses) = sescmd_list rses.
Proof.
  unfold close_current_master.
  destruct (current_master rses) as [m|]; [|repeat split].
  destruct (backends rses !! m) as [b|]; [|repeat split].
  destruct (in_use b); repeat split.
Qed.

(** The selection of a backend leaves the load-data state, the counters of
    the session and the log of session commands as they are. *)
Lemma select_target_frame inst rses querybuf route_target :
  let s := select_target inst rses querybuf route_target in
  load_data_state (snd s) = load_data_state rses /\
  expected_responses (snd s) = expected_responses rses /\
  rses_load_data_sent (snd s) = rses_load_data_sent rses /\
  session (client_dcb (snd s)) = session (client_dcb rses) /\
  sescmd_count (snd s) = sescmd_count rses /\
  sent_sescmd (snd s) = sent_sescmd rses /\
  sescmd_list (snd s) = sescmd_list rses.
Proof.
  cbn zeta. unfold select_target.
  destruct (TARGET_IS_NAMED_SERVER route_target || TARGET_IS_RLAG_MAX route_target);
    [repeat split|].
  destruct (TARGET_IS_SLAVE route_target); [repeat split|].
  destruct (TARGET_IS_MASTER route_target); [|repeat split].
  unfold handle_master_is_target.
  destruct (_ && ptr_eqb _ _); cbn [fst snd].
  - destruct (negb _ && ptr_eqb _ _); repeat split.
  - destruct (failure_mode_eqb _ _); cbn [fst snd].
    + destruct (close_current_master_frame
                  (set_client_dcb rses (snd (send_readonly_error (client_dcb rses)))))
        as (H1 & H2 & H3 & H4 & H5 & H6 & H7).
      destruct (negb _ && ptr_eqb _ _);
        cbn [set_target_node load_data_state expected_responses rses_load_data_sent
             client_dcb sescmd_count sent_sescmd sescmd_list];
        rewrite H1, H2, H3, H4, H5, H6, H7; repeat split.
    + destruct (negb _ && ptr_eqb _ _); repeat split.
Qed.

Lemma dispatch_stmt_effects (inst : ROUTER_INSTANCE) (rses : ROUTER_CLIENT_SES)
    (querybuf : GWBUF) (route_target qtype : Z) :
  TARGET_IS_ALL route_target = false ->
  let out := snd (snd (dispatch_stmt inst rses querybuf route_target qtype)) in
  let step := forwarded_ok inst rses querybuf route_target && expects_response rses in
  load_data_state out =
    (if step then load_state_after_forward (load_data_state rses)
     else load_data_state rses) /\
  expected_responses out = expected_responses rses + (if step then 1 else 0) /\
  rses_load_data_sent out = rses_load_data_sent rses /\
  sescmd_count out = sescmd_count rses /\
  sent_sescmd out = sent_sescmd rses /\
  sescmd_list out = sescmd_list rses.
Proof.
  intros Hall. cbn zeta. unfold dispatch_stmt, forwarded_ok. rewrite Hall.
  destruct (select_target_frame inst rses querybuf route_target)
    as (F1 & F2 & F3 & F4 & F5 & F6 & F7).
  cbn zeta in *.
  destruct (select_target inst rses querybuf route_target)
    as [[[[succp target] store] inst1] rses1].
  cbn [fst snd] in *.
  assert (Hexp : expects_response rses1 = expects_response rses).
  { unfold expects_response. rewrite F1, F4. reflexivity. }
  assert (Hkeep : forall (c : bool) (i : ROUTER_INSTANCE) (r : ROUTER_CLIENT_SES)
                         (t : SRWBackend),
            let r' := if c then handle_connection_keepalive i r t else r in
            load_data_state r' = load_data_state r /\
            expected_responses r' = expected_responses r /\
            rses_load_data_sent r' = rses_load_data_sent r /\
            sescmd_count r' = sescmd_count r /\
            sent_sescmd r' = sent_sescmd r /\
            sescmd_list r' = sescmd_list r).
  { intros c i r t. destruct c; repeat split. }
  destruct target as [t|]; [destruct succp|]; cbn [fst snd andb].
  - destruct (handle_got_target_effects inst1 rses1 querybuf t store)
      as (G1 & G2 & G3 & G4 & G5 & G6 & _).
    cbn zeta in *. rewrite Hexp, F1, F2, F3, F5, F6, F7 in *.
    match goal with
    | |- context [if ?c then handle_connection_keepalive ?i ?r ?t0 else _] =>
        destruct (Hkeep c i r t0) as (K1 & K2 & K3 & K4 & K5 & K6)
    end.
    cbn zeta in *. rewrite K1, K2, K3, K4, K5, K6, G1, G2, G3, G4, G5, G6.
    repeat split.
  - rewrite Z.add_0_r, <- F1, <- F2, <- F3, <- F5, <- F6, <- F7. repeat split.
  - match goal with
    | |- context [if ?c then handle_connection_keepalive ?i ?r ?t0 else _] =>
        destruct (Hkeep c i r t0) as (K1 & K2 & K3 & K4 & K5 & K6)
    end.
    cbn zeta in *. rewrite K1, K2, K3, K4, K5, K6, Z.add_0_r, F1, F2, F3, F5, F6, F7.
    repeat split.
Qed.


(** ** The load-data state machine *)

Lemma process_hints_all (hints : list HINT) : forall t,
  TARGET_IS_ALL (process_hints t hints) = true -> TARGET_IS_ALL t = true.
Proof.
  induction hints as [|h hints IH]; intros t Ht; cbn [process_hints] in Ht; [exact Ht|].
  destruct (hint_type h).
  - discriminate.
  - apply IH in Ht. discriminate.
  - apply IH in Ht. unfold TARGET_IS_ALL in *.
    rewrite target_bit_lor in Ht by reflexivity. exact Ht.
  - apply IH, Ht.
  - apply IH, Ht.
  - match type of Ht with context [if ?c then _ else _] => destruct c end.
    + apply IH in Ht. unfold TARGET_IS_ALL in *.
      rewrite target_bit_lor in Ht by reflexivity. exact Ht.
    + apply IH, Ht.
Qed.

(** While a load is in progress no statement is sent to all backends. *)
Lemma no_broadcast_while_loading rses qtype hints :
  load_data_state rses <> LOAD_DATA_INACTIVE ->
  TARGET_IS_ALL (get_route_target rses qtype hints) = false.
Proof.
  intros Hload. apply not_true_is_false. intros H.
  unfold get_route_target in H. apply process_hints_all in H.
  revert H. unfold route_target_of_query.
  destruct (is_set (target_node rses) && ptr_eqb (target_node rses) (current_master rses));
    [discriminate|].
  destruct (load_data_state rses); [contradiction| | |];
    cbn [load_data_state_eqb negb andb];
    rewrite ?andb_false_r; cbn [andb];
    destruct (session_trx_is_read_only (session (client_dcb rses))); discriminate.
Qed.

Lemma handle_multi_temp_and_load_state rses querybuf ptype qtype :
  let s := handle_multi_temp_and_load rses querybuf ptype qtype in
  load_data_state (fst s) =
    match load_data_state rses with
    | LOAD_DATA_ACTIVE => LOAD_DATA_ACTIVE
    | st => if packet_is_query querybuf && op_is_load querybuf
            then LOAD_DATA_START else st
    end /\
  rses_load_data_sent (fst s) =
    match load_data_state rses with
    | LOAD_DATA_ACTIVE => (rses_load_data_sent rses + gwbuf_length querybuf) mod 2 ^ 64
    | _ => if packet_is_query querybuf && op_is_load querybuf
           then 0 else rses_load_data_sent rses
    end /\
  expected_responses (fst s) = expected_responses rses /\
  session (client_dcb (fst s)) = session (client_dcb rses).
Proof.
  cbn zeta. unfold handle_multi_temp_and_load.
  set (s1 := if (negb (is_set (target_node rses)) ||
                 negb (ptr_eqb (target_node rses) (current_master rses))) &&
                multi_stmt querybuf then _ else _).
  assert (H1 : load_data_state (fst s1) = load_data_state rses /\
               rses_load_data_sent (fst s1) = rses_load_data_sent rses /\
               expected_responses (fst s1) = expected_responses rses /\
               client_dcb (fst s1) = client_dcb rses).
  { subst s1.
    destruct ((negb (is_set (target_node rses)) ||
               negb (ptr_eqb (target_node rses) (current_master rses))) &&
              multi_stmt querybuf); [|repeat split].
    destruct (is_set (current_master rses)); repeat split. }
  clearbody s1.
  set (s2 := if negb (dcb_data (client_dcb (fst s1))) then _ else _).
  assert (H2 : load_data_state (fst s2) = load_data_state rses /\
               rses_load_data_sent (fst s2) = rses_load_data_sent rses /\
               expected_responses (fst s2) = expected_responses rses /\
               client_dcb (fst s2) = client_dcb rses).
  { subst s2. destruct (negb (dcb_data (client_dcb (fst s1)))); [exact H1|].
    cbn [fst]. unfold check_create_tmp_table.
    match goal with
    | |- context [if qc_query_is_type ?a ?b then _ else _] =>
        destruct (qc_query_is_type a b)
    end; [|exact H1].
    destruct H1 as (A & B & C & D). repeat split; assumption. }
  clearbody s2. destruct H2 as (A & B & C & D).
  rewrite <- A, <- B, <- C, <- D. generalize (fst s2). intros r.
  destruct (load_data_state r) eqn:E;
    destruct (packet_is_query querybuf && op_is_load querybuf);
    cbn [fst]; rewrite ?E; repeat split; exact E.
Qed.

(** X11.  During the data phase of LOAD DATA LOCAL INFILE (state ACTIVE)
    a packet that is not empty is never sent to all backends, leaves the
    state ACTIVE, expects no response, and adds its length to the byte
    count, which wraps at 2^64, whether or not a backend could be selected
    for it. *)
Theorem load_data_packet_keeps_active (inst : ROUTER_INSTANCE)
    (rses : ROUTER_CLIENT_SES) (querybuf : GWBUF) :
  non_empty_packet querybuf = true ->
  load_data_state rses = LOAD_DATA_ACTIVE ->
  let out := snd (snd (route_single_stmt inst rses querybuf)) in
  TARGET_IS_ALL (fst (fst (resolve_route_target rses querybuf))) = false /\
  load_data_state out = LOAD_DATA_ACTIVE /\
  expected_responses out = expected_responses rses /\
  rses_load_data_sent out =
    (rses_load_data_sent rses + gwbuf_length querybuf) mod 2 ^ 64.
Proof.
  intros Hne Hload. cbn zeta. unfold route_single_stmt, resolve_route_target.
  rewrite Hne. cbn [fst snd].
  destruct (handle_multi_temp_and_load_state rses querybuf
              (packet_type querybuf) (query_type querybuf)) as (L1 & L2 & L3 & L4).
  cbn zeta in *. rewrite Hload in L1, L2.
  set (s := handle_multi_temp_and_load rses querybuf (packet_type querybuf)
              (query_type querybuf)) in *.
  assert (Hall : TARGET_IS_ALL (get_route_target (fst s) (snd s) (hint querybuf)) = false).
  { apply no_broadcast_while_loading. rewrite L1. discriminate. }
  split; [exact Hall|].
  destruct (dispatch_stmt_effects inst (fst s) querybuf _ (snd s) Hall)
    as (D1 & D2 & D3 & _).
  cbn zeta in *.
  assert (Hexp : expects_response (fst s) = false).
  { unfold expects_response. rewrite L1. reflexivity. }
  rewrite Hexp, andb_false_r in D1, D2.
  rewrite D1, D2, D3, L1, L2, L3, Z.add_0_r. repeat split.
Qed.

(** X12.  A LOAD DATA LOCAL INFILE statement received in state INACTIVE
    is never sent to all backends and resets the byte count; the state
    becomes ACTIVE when the statement was written to the selected backend
    and the server answers the command, and is left at START otherwise. *)
Theorem load_data_start (inst : ROUTER_INSTANCE) (rses : ROUTER_CLIENT_SES)
    (querybuf : GWBUF) :
  non_empty_packet querybuf = true ->
  packet_is_query querybuf = true -> op_is_load querybuf = true ->
  load_data_state rses = LOAD_DATA_INACTIVE ->
  let rt := resolve_route_target rses querybuf in
  let out := snd (snd (route_single_stmt inst rses querybuf)) in
  let step := forwarded_ok inst (snd rt) querybuf (fst (fst rt)) &&
              query_creates_reply (current_command (session (client_dcb rses))) in
  TARGET_IS_ALL (fst (fst rt)) = false /\
  load_data_state (snd rt) = LOAD_DATA_START /\
  load_data_state out = (if step then LOAD_DATA_ACTIVE else LOAD_DATA_START) /\
  expected_responses out = expected_responses rses + (if step then 1 else 0) /\
  rses_load_data_sent out = 0.
Proof.
  intros Hne Hq Hop Hload. cbn zeta. unfold route_single_stmt, resolve_route_target.
  rewrite Hne. cbn [fst snd].
  destruct (handle_multi_temp_and_load_state rses querybuf
              (packet_type querybuf) (query_type querybuf)) as (L1 & L2 & L3 & L4).
  cbn zeta in *. rewrite Hload, Hq, Hop in L1, L2. cbn [andb] in L1, L2.
  set (s := handle_multi_temp_and_load rses querybuf (packet_type querybuf)
              (query_type querybuf)) in *.
  assert (Hall : TARGET_IS_ALL (get_route_target (fst s) (snd s) (hint querybuf)) = false).
  { apply no_broadcast_while_loading. rewrite L1. discriminate. }
  split; [exact Hall|]. split; [exact L1|].
  destruct (dispatch_stmt_effects inst (fst s) querybuf _ (snd s) Hall)
    as (D1 & D2 & D3 & _).
  cbn zeta in *.
  assert (Hexp : expects_response (fst s) =
                 query_creates_reply (current_command (session (client_dcb rses)))).
  { unfold expects_response. rewrite L1, L4. reflexivity. }
  rewrite Hexp, L1 in D1. rewrite Hexp, L3 in D2. rewrite L2 in D3.
  rewrite D1, D2, D3. repeat split.
Qed.

(** X13.  An empty packet moves the load-data state to END, and on to
    INACTIVE exactly when it was written to the backend selected as
    primary and the server answers the command; [expected_responses] grows
    by one in that case only.  When the packet cannot be forwarded the
    state stays END. *)
Theorem load_data_end (inst : ROUTER_INSTANCE) (rses : ROUTER_CLIENT_SES)
    (querybuf : GWBUF) :
  non_empty_packet querybuf = false ->
  let out := snd (snd (route_single_stmt inst rses querybuf)) in
  let step := forwarded_ok inst (set_load_data_state rses LOAD_DATA_END) querybuf
                TARGET_MASTER &&
              query_creates_reply (current_command (session (client_dcb rses))) in
  load_data_state out = (if step then LOAD_DATA_INACTIVE else LOAD_DATA_END) /\
  expected_responses out = expected_responses rses + (if step then 1 else 0) /\
  rses_load_data_sent out = rses_load_data_sent rses.
Proof.
  intros Hne. cbn zeta. unfold route_single_stmt, resolve_route_target.
  rewrite Hne. cbn [fst snd].
  destruct (dispatch_stmt_effects inst (set_load_data_state rses LOAD_DATA_END)
              querybuf TARGET_MASTER (query_type querybuf) eq_refl)
    as (D1 & D2 & D3 & _).
  cbn zeta in *. rewrite D1, D2, D3. repeat split.
Qed.

Lemma handle_multi_temp_and_load_sescmd rses querybuf ptype qtype :
  let s := handle_multi_temp_and_load rses querybuf ptype qtype in
  sescmd_count (fst s) = sescmd_count rses /\
  sent_sescmd (fst s) = sent_sescmd rses /\
  sescmd_list (fst s) = sescmd_list rses.
Proof.
  cbn zeta. unfold handle_multi_temp_and_load.
  set (s1 := if (negb (is_set (target_node rses)) ||
                 negb (ptr_eqb (target_node rses) (current_master rses))) &&
                multi_stmt querybuf then _ else _).
  assert (H1 : sescmd_count (fst s1) = sescmd_count rses /\
               sent_sescmd (fst s1) = sent_sescmd rses /\
               sescmd_list (fst s1) = sescmd_list rses).
  { subst s1.
    destruct ((negb (is_set (target_node rses)) ||
               negb (ptr_eqb (target_node rses) (current_master rses))) &&
              multi_stmt querybuf); [|repeat split].
    destruct (is_set (current_master rses)); repeat split. }
  clearbody s1.
  set (s2 := if negb (dcb_data (client_dcb (fst s1))) then _ else _).
  assert (H2 : sescmd_count (fst s2) = sescmd_count rses /\
               sent_sescmd (fst s2) = sent_sescmd rses /\
               sescmd_list (fst s2) = sescmd_list rses).
  { subst s2. destruct (negb (dcb_data (client_dcb (fst s1)))); [exact H1|].
    cbn [fst]. unfold check_create_tmp_table.
    match goal with
    | |- context [if qc_query_is_type ?a ?b then _ else _] =>
        destruct (qc_query_is_type a b)
    end; exact H1. }
  clearbody s2. destruct H2 as (A & B & C).
  rewrite <- A, <- B, <- C. generalize (fst s2). intros r. cbn [fst].
  destruct (load_data_state r);
    destruct (packet_is_query querybuf && op_is_load querybuf); repeat split.
Qed.

(** The session as [route_single_stmt] leaves it before it selects a
    backend. *)
Lemma resolve_route_target_prepared rses querybuf :
  let pre := snd (resolve_route_target rses querybuf) in
  load_data_state pre = load_state_prepared rses querybuf /\
  rses_load_data_sent pre = load_sent_prepared rses querybuf /\
  expected_responses pre = expected_responses rses /\
  session (client_dcb pre) = session (client_dcb rses) /\
  sescmd_count pre = sescmd_count rses /\
  sent_sescmd pre = sent_sescmd rses /\
  sescmd_list pre = sescmd_list rses.
Proof.
  cbn zeta. unfold resolve_route_target, load_state_prepared, load_sent_prepared.
  destruct (non_empty_packet querybuf); cbn [fst snd]; [|repeat split].
  destruct (handle_multi_temp_and_load_state rses querybuf
              (packet_type querybuf) (query_type querybuf)) as (L1 & L2 & L3 & L4).
  destruct (handle_multi_temp_and_load_sescmd rses querybuf
              (packet_type querybuf) (query_type querybuf)) as (S1 & S2 & S3).
  cbn zeta in L1, L2, L3, L4, S1, S2, S3.
  rewrite L1, L2, L3, L4, S1, S2, S3. repeat split.
Qed.

(** X10.  The bookkeeping of a statement that [route_single_stmt] does not
    send to all backends.  Before a backend is selected, a packet that is
    not empty adds its length to the byte count in state ACTIVE and, when
    it is a LOAD DATA statement in another state, sets the state to START
    and the byte count to zero; an empty packet sets the state to END.
    From there [expected_responses] grows by one, and the load-data state
    takes its step (START to ACTIVE, END to INACTIVE), exactly when the
    statement was written to the selected backend and a response is
    expected.  The byte count is not changed otherwise, and the counter,
    the last sent position and the log of session commands are never
    changed. *)
Theorem statement_forwarding_effects (inst : ROUTER_INSTANCE)
    (rses : ROUTER_CLIENT_SES) (querybuf : GWBUF) :
  let rt := resolve_route_target rses querybuf in
  TARGET_IS_ALL (fst (fst rt)) = false ->
  let out := snd (snd (route_single_stmt inst rses querybuf)) in
  let prepared := load_state_prepared rses querybuf in
  let step :=
    forwarded_ok inst (snd rt) querybuf (fst (fst rt)) &&
    negb (load_data_state_eqb prepared LOAD_DATA_ACTIVE) &&
    query_creates_reply (current_command (session (client_dcb rses))) in
  load_data_state out =
    (if step then load_state_after_forward prepared else prepared) /\
  expected_responses out = expected_responses rses + (if step then 1 else 0) /\
  rses_load_data_sent out = load_sent_prepared rses querybuf /\
  sescmd_count out = sescmd_count rses /\
  sent_sescmd out = sent_sescmd rses /\
  sescmd_list out = sescmd_list rses.
Proof.
  cbn zeta. intros Hall. unfold route_single_stmt.
  destruct (resolve_route_target_prepared rses querybuf)
    as (P1 & P2 & P3 & P4 & P5 & P6 & P7).
  cbn zeta in P1, P2, P3, P4, P5, P6, P7.
  destruct (dispatch_stmt_effects inst (snd (resolve_route_target rses querybuf))
              querybuf (fst (fst (resolve_route_target rses querybuf)))
              (snd (fst (resolve_route_target rses querybuf))) Hall)
    as (D1 & D2 & D3 & D4 & D5 & D6).
  cbn zeta in D1, D2, D3, D4, D5, D6.
  unfold expects_response in D1, D2. rewrite P1, P4 in D1. rewrite P1, P3, P4 in D2.
  rewrite andb_assoc in D1, D2.
  rewrite D1, D2, D3, D4, D5, D6, P2, P5, P6, P7. repeat split.
Qed.

(** ** Statistics *)

Lemma master_selection_target rses max_rlag target :
  let r := get_target_backend rses BE_MASTER None max_rlag target in
  (fst r = true -> is_set (snd r) = true) /\ (fst r = false -> snd r = target).
Proof.
  cbn zeta. unfold get_target_backend.
  destruct (is_set (target_node rses) &&
            session_trx_is_read_only (session (client_dcb rses))) eqn:Hpin.
  - apply andb_prop in Hpin as [Hs _]. split; [intros _; exact Hs|discriminate].
  - cbn [List.find]. destruct (get_root_master_bref rses) as [m|];
      [|split; [discriminate|reflexivity]].
    destruct (is_active (snd m)), (in_use (snd m)), (SERVER_IS_MASTER (server (snd m)));
      split; (discriminate || reflexivity).
Qed.

(** What the selection of a backend does to the counters of the
    instance. *)
Lemma select_target_stats inst rses querybuf route_target :
  let s := select_target inst rses querybuf route_target in
  let succp := fst (fst (fst (fst s))) in
  n_queries (snd (fst s)) = n_queries inst /\
  n_slave (snd (fst s)) =
    (if negb (hinted route_target) && TARGET_IS_SLAVE route_target && succp
     then (n_slave inst + 1) mod 2 ^ 64 else n_slave inst) /\
  n_master (snd (fst s)) =
    (if negb (hinted route_target) && negb (TARGET_IS_SLAVE route_target) &&
        TARGET_IS_MASTER route_target && succp &&
        selected_current_master inst rses querybuf route_target
     then (n_master inst + 1) mod 2 ^ 64 else n_master inst).
Proof.
  cbn zeta. unfold selected_current_master, select_target, hinted.
  destruct (TARGET_IS_NAMED_SERVER route_target || TARGET_IS_RLAG_MAX route_target);
    [repeat split|].
  destruct (TARGET_IS_SLAVE route_target); cbn [negb andb].
  { unfold handle_slave_is_target.
    destruct (fst (get_target_backend rses BE_SLAVE None
                     (rses_get_max_replication_lag rses) None)); repeat split. }
  destruct (TARGET_IS_MASTER route_target); [|repeat split].
  unfold handle_master_is_target.
  destruct (master_selection_target rses MAX_RLAG_UNDEFINED None) as [Hs Hf].
  cbn zeta in Hs, Hf.
  destruct (get_target_backend rses BE_MASTER None MAX_RLAG_UNDEFINED None) as [ok t].
  cbn [fst snd] in *.
  destruct (ok && ptr_eqb t (current_master rses)) eqn:E; cbn [fst snd].
  - apply andb_prop in E as [-> E]. rewrite (Hs eq_refl), E. repeat split.
  - destruct (failure_mode_eqb _ _); cbn [fst snd andb]; [|repeat split].
    destruct ok; cbn [andb] in E.
    + rewrite E, andb_false_r. repeat split.
    + rewrite (Hf eq_refl). repeat split.
Qed.

Lemma handle_got_target_stats inst rses querybuf t store :
  let g := handle_got_target inst rses querybuf t store in
  n_slave (snd (fst g)) = n_slave inst /\ n_master (snd (fst g)) = n_master inst.
Proof.
  cbn zeta. unfold handle_got_target.
  match goal with
  | |- context [match ?r !! t with _ => _ end] => destruct (r !! t) as [b|]
  end; [|split; reflexivity].
  match goal with
  | |- context [if fst ?w then _ else _] => destruct (fst w)
  end; split; reflexivity.
Qed.

Lemma dispatch_stmt_result inst rses querybuf route_target qtype :
  TARGET_IS_ALL route_target = false ->
  fst (dispatch_stmt inst rses querybuf route_target qtype) =
  fst (fst (fst (fst (select_target inst rses querybuf route_target)))).
Proof.
  intros Hall. unfold dispatch_stmt. rewrite Hall. cbn [fst snd].
  destruct (select_target inst rses querybuf route_target) as [[[[succp [t|]] store] i] r];
    cbn [fst snd]; [|reflexivity].
  destruct succp; reflexivity.
Qed.

Lemma dispatch_stmt_stats inst rses querybuf route_target qtype :
  TARGET_IS_ALL route_target = false ->
  let d := dispatch_stmt inst rses querybuf route_target qtype in
  n_queries (fst (snd d)) =
    (if forwarded_ok inst rses querybuf route_target
     then (n_queries inst + 1) mod 2 ^ 64 else n_queries inst) /\
  n_slave (fst (snd d)) =
    (if negb (hinted route_target) && TARGET_IS_SLAVE route_target && fst d
     then (n_slave inst + 1) mod 2 ^ 64 else n_slave inst) /\
  n_master (fst (snd d)) =
    (if negb (hinted route_target) && negb (TARGET_IS_SLAVE route_target) &&
        TARGET_IS_MASTER route_target && fst d &&
        selected_current_master inst rses querybuf route_target
     then (n_master inst + 1) mod 2 ^ 64 else n_master inst).
Proof.
  intros Hall. cbn zeta. rewrite (dispatch_stmt_result _ _ _ _ _ Hall).
  destruct (select_target_stats inst rses querybuf route_target) as (S1 & S2 & S3).
  cbn zeta in S1, S2, S3. rewrite <- S2, <- S3, <- S1. clear S1 S2 S3.
  unfold dispatch_stmt, forwarded_ok. rewrite Hall. cbn [fst snd].
  destruct (select_target inst rses querybuf route_target) as [[[[succp [t|]] store] i] r];
    cbn [fst snd]; [|repeat split].
  destruct succp; cbn [fst snd andb]; [|repeat split].
  destruct (handle_got_target_effects i r querybuf t store)
    as (_ & _ & _ & _ & _ & _ & Hq & _).
  destruct (handle_got_target_stats i r querybuf t store) as (Hs & Hm).
  cbn zeta in Hq, Hs, Hm. rewrite Hq, Hs, Hm. repeat split.
Qed.

(** X14.  The statistics of a statement that is not sent to all backends:
    [n_queries] counts the statement exactly when it was written to the
    selected backend; [n_slave] counts it exactly when it was routed as a
    read without a hint and a backend was selected; [n_master] counts it
    exactly when it was routed as a write without a hint and the session's
    current primary was selected.  A statement routed by a hint counts in
    neither role counter.  Each counter wraps at 2^64. *)
Theorem routing_statistics (inst : ROUTER_INSTANCE) (rses : ROUTER_CLIENT_SES)
    (querybuf : GWBUF) (route_target qtype : Z) :
  TARGET_IS_ALL route_target = false ->
  let d := dispatch_stmt inst rses querybuf route_target qtype in
  n_queries (fst (snd d)) =
    (if forwarded_ok inst rses querybuf route_target
     then (n_queries inst + 1) mod 2 ^ 64 else n_queries inst) /\
  n_slave (fst (snd d)) =
    (if negb (hinted route_target) && TARGET_IS_SLAVE route_target && fst d
     then (n_slave inst + 1) mod 2 ^ 64 else n_slave inst) /\
  n_master (fst (snd d)) =
    (if negb (hinted route_target) && negb (TARGET_IS_SLAVE route_target) &&
        TARGET_IS_MASTER route_target && fst d &&
        selected_current_master inst rses querybuf route_target
     then (n_master inst + 1) mod 2 ^ 64 else n_master inst).
Proof. exact (dispatch_stmt_stats inst rses querybuf route_target qtype). Qed.

(** X15.  A failed write to the selected backend is not reported: when a
    backend was selected for a statement that is not sent to all backends
    and the write to it failed, routing still returns true, while no query
    is counted, no response is expected and the load-data state stays as it
    was. *)
Theorem write_failure_not_reported (inst : ROUTER_INSTANCE) (rses : ROUTER_CLIENT_SES)
    (querybuf : GWBUF) (route_target qtype : Z) :
  TARGET_IS_ALL route_target = false ->
  fst (fst (fst (fst (select_target inst rses querybuf route_target)))) = true ->
  forwarded_ok inst rses querybuf route_target = false ->
  let d := dispatch_stmt inst rses querybuf route_target qtype in
  fst d = true /\
  n_queries (fst (snd d)) = n_queries inst /\
  expected_responses (snd (snd d)) = expected_responses rses /\
  load_data_state (snd (snd d)) = load_data_state rses.
Proof.
  intros Hall Hsel Hfwd. cbn zeta.
  rewrite (dispatch_stmt_result _ _ _ _ _ Hall).
  destruct (dispatch_stmt_stats inst rses querybuf route_target qtype Hall) as (Hq & _).
  destruct (dispatch_stmt_effects inst rses querybuf route_target qtype Hall)
    as (Hl & He & _).
  cbn zeta in Hq, Hl, He. rewrite Hfwd in Hq, Hl, He. cbn [andb] in Hl, He.
  rewrite Hq, Hl, He, Z.add_0_r. auto.
Qed.

(** ** Further properties of session writes *)

Lemma session_write_loop_lowest sescmd e l : forall n x lp,
  snd (snd (session_write_loop sescmd e l n x lp)) <= lp.
Proof.
  induction l as [|b l IH]; intros n x lp; cbn [session_write_loop]; [cbn; lia|].
  destruct (in_use b); cbn zeta; cbn [fst snd]; [|apply IH].
  match goal with
  | |- context [session_write_loop sescmd e l ?n' ?x' ?lp'] =>
      pose proof (IH n' x' lp') as H; revert H
  end.
  match goal with |- context [if ?c <? lp then _ else _] => destruct (Z.ltb_spec c lp) end;
    lia.
Qed.

Lemma prune_responses_keeps lowest_pos m kv :
  In kv m -> lowest_pos <= fst kv -> In kv (prune_responses lowest_pos m).
Proof.
  intros Hin Hle. unfold prune_responses.
  destruct (existsb _ m); [|exact Hin].
  apply filter_In. split; [exact Hin|]. apply Z.leb_le, Hle.
Qed.

Lemma prune_responses_sub lowest_pos m kv :
  In kv (prune_responses lowest_pos m) -> In kv m.
Proof.
  unfold prune_responses. destruct (existsb _ m); [|auto].
  intros H. apply filter_In in H. apply H.
Qed.

(** X16.  A session write only ever removes stored responses, and none at
    or above the position of the command it routes; when the history of
    session commands is still enabled after the call, the stored responses
    are untouched. *)
Theorem session_write_keeps_recent_responses (rses : ROUTER_CLIENT_SES)
    (querybuf : GWBUF) (command : Z) :
  let out := snd (route_session_write rses querybuf command) in
  (forall kv, In kv (sescmd_responses out) -> In kv (sescmd_responses rses)) /\
  (forall kv, In kv (sescmd_responses rses) -> sescmd_count rses <= fst kv ->
              In kv (sescmd_responses out)) /\
  (disable_sescmd_history (rses_config out) = false ->
   sescmd_responses out = sescmd_responses rses).
Proof.
  cbn zeta. unfold route_session_write.
  cbn [snd sescmd_responses rses_config].
  match goal with
  | |- context [if ?c then set_history_off _ else _] => generalize c
  end.
  intros hit.
  match goal with
  | |- context [prune_responses ?lp _] =>
      assert (Hlp : lp <= sescmd_count rses) by apply session_write_loop_lowest;
      generalize dependent lp
  end.
  intros lp Hlp.
  destruct (disable_sescmd_history (if hit then _ else _)).
  - split; [|split].
    + intros kv. apply prune_responses_sub.
    + intros kv Hin Hle. apply prune_responses_keeps; [exact Hin|lia].
    + discriminate.
  - auto.
Qed.

Lemma route_session_write_step rses querybuf command :
  let out := snd (route_session_write rses querybuf command) in
  sescmd_count out = (sescmd_count rses + 1) mod 2 ^ 64 /\
  (disable_sescmd_history (rses_config rses) = true ->
   disable_sescmd_history (rses_config out) = true /\
   (length (sescmd_list out) <= length (sescmd_list rses))%nat) /\
  (disable_sescmd_history (rses_config out) = false ->
   disable_sescmd_history (rses_config rses) = false /\
   sescmd_list out =
     sescmd_list rses ++ [{| sc_buffer := querybuf; get_position := sescmd_count rses |}]).
Proof.
  cbn zeta. unfold route_session_write.
  cbn [snd sescmd_count rses_config sescmd_list].
  match goal with
  | |- context [if ?c then set_history_off _ else _] => destruct c
  end; cbn [set_history_off disable_sescmd_history].
  - split; [reflexivity|]. split; [intros _; split; [reflexivity|cbn; lia]|discriminate].
  - split; [reflexivity|].
    destruct (disable_sescmd_history (rses_config rses)).
    + split; [intros _; split; [reflexivity|lia]|discriminate].
    + split; [discriminate|auto].
Qed.

Lemma session_writes_spec (cmds : list (GWBUF * Z)) : forall rses : ROUTER_CLIENT_SES,
  0 <= sescmd_count rses < 2 ^ 64 ->
  let out := session_writes rses cmds in
  sescmd_count out = (sescmd_count rses + Z.of_nat (length cmds)) mod 2 ^ 64 /\
  (disable_sescmd_history (rses_config rses) = true ->
   disable_sescmd_history (rses_config out) = true /\
   (length (sescmd_list out) <= length (sescmd_list rses))%nat) /\
  (disable_sescmd_history (rses_config out) = false ->
   sescmd_list out =
     sescmd_list rses ++
     imap (fun i c => {| sc_buffer := fst c;
                         get_position := (sescmd_count rses + Z.of_nat i) mod 2 ^ 64 |})
       cmds).
Proof.
  induction cmds as [|c cmds IH]; intros rses Hc; cbn zeta.
  - cbn [session_writes fold_left length imap]. rewrite Z.add_0_r, app_nil_r.
    rewrite Z.mod_small by exact Hc. auto.
  - unfold session_writes. cbn [fold_left].
    fold (session_writes (snd (route_session_write rses (fst c) (snd c))) cmds).
    destruct (route_session_write_step rses (fst c) (snd c)) as (S1 & S2 & S3).
    cbn zeta in S1, S2, S3.
    set (r1 := snd (route_session_write rses (fst c) (snd c))) in *.
    assert (Hc1 : 0 <= sescmd_count r1 < 2 ^ 64)
      by (rewrite S1; apply Z.mod_pos_bound; lia).
    destruct (IH r1 Hc1) as (I1 & I2 & I3). cbn zeta in I1, I2, I3.
    split; [|split].
    + rewrite I1, S1, Zplus_mod_idemp_l. f_equal. cbn [length]. lia.
    + intros Hd. destruct (S2 Hd) as [Hd1 Hl1]. destruct (I2 Hd1) as [Hd2 Hl2].
      split; [exact Hd2|lia].
    + intros Hout.
      assert (Hd1 : disable_sescmd_history (rses_config r1) = false).
      { destruct (disable_sescmd_history (rses_config r1)) eqn:E; [|reflexivity].
        destruct (I2 eq_refl) as [Hd2 _]. rewrite Hd2 in Hout. discriminate. }
      destruct (S3 Hd1) as [_ Hl1].
      rewrite (I3 Hout), Hl1, <- app_assoc. f_equal. cbn [app imap].
      rewrite Z.add_0_r, Z.mod_small by exact Hc. f_equal.
      apply imap_ext. intros i x _. unfold compose. f_equal.
      rewrite S1, Zplus_mod_idemp_l. f_equal. lia.
Qed.

(** X17.  After any sequence of session writes the counter of session
    commands has advanced by their number, modulo 2^64.  Once the history
    is disabled it stays disabled and the log of session commands does not
    grow.  As long as the history is enabled at the end, the log has gained
    every command of the sequence, in order and at consecutive
    positions. *)
Theorem session_writes_log (rses : ROUTER_CLIENT_SES) (cmds : list (GWBUF * Z)) :
  0 <= sescmd_count rses < 2 ^ 64 ->
  let out := session_writes rses cmds in
  sescmd_count out = (sescmd_count rses + Z.of_nat (length cmds)) mod 2 ^ 64 /\
  (disable_sescmd_history (rses_config rses) = true ->
   disable_sescmd_history (rses_config out) = true /\
   (length (sescmd_list out) <= length (sescmd_list rses))%nat) /\
  (disable_sescmd_history (rses_config out) = false ->
   sescmd_list out =
     sescmd_list rses ++
     imap (fun i c => {| sc_buffer := fst c;
                         get_position := (sescmd_count rses + Z.of_nat i) mod 2 ^ 64 |})
       cmds).
Proof. exact (session_writes_spec cmds rses). Qed.

(** ** Atomic operations *)

(** X18.  [atomic_add_uint64] on a counter within 64 bits returns the
    value that the counter held and leaves a value within 64 bits; adding
    [a] and then [b] is adding [a + b], and adding [a] and then [- a]
    restores the counter. *)
Theorem atomic_add_uint64_round_trip (v a b : Z) :
  0 <= v < 2 ^ 64 ->
  let r := atomic_add_uint64 v a in
  fst r = v /\
  0 <= snd r < 2 ^ 64 /\
  snd (atomic_add_uint64 (snd r) b) = snd (atomic_add_uint64 v (a + b)) /\
  snd (atomic_add_uint64 (snd r) (- a)) = v.
Proof.
  intros Hv. cbn zeta. unfold atomic_add_uint64, UINT64_MOD. cbn [fst snd].
  split; [reflexivity|]. split; [apply Z.mod_pos_bound; lia|]. split.
  - rewrite Zplus_mod_idemp_l. f_equal. lia.
  - rewrite Zplus_mod_idemp_l. replace (v + a + - a) with v by lia.
    apply Z.mod_small, Hv.
Qed.

Lemma signed_wrap_compose (w x a b : Z) :
  0 < w ->
  ((x + a + w) mod (2 * w) - w + b + w) mod (2 * w) - w =
  (x + (a + b) + w) mod (2 * w) - w.
Proof.
  intros Hw. f_equal.
  replace ((x + a + w) mod (2 * w) - w + b + w) with ((x + a + w) mod (2 * w) + b) by lia.
  rewrite Zplus_mod_idemp_l. f_equal. lia.
Qed.

(** X19.  [atomic_add] and [atomic_add_int64] on a variable within the
    range of its type return the value that the variable held and leave a
    value within the range; adding [a] and then [b] is adding [a + b], and
    adding [a] and then [- a] restores the variable, also when the sum in
    between wraps around. *)
Theorem atomic_add_signed_round_trip (v w a b : Z) :
  - 2 ^ 31 <= v < 2 ^ 31 ->
  - 2 ^ 63 <= w < 2 ^ 63 ->
  let r := atomic_add v a in
  let q := atomic_add_int64 w a in
  (fst r = v /\ - 2 ^ 31 <= snd r < 2 ^ 31 /\
   snd (atomic_add (snd r) b) = snd (atomic_add v (a + b)) /\
   snd (atomic_add (snd r) (- a)) = v) /\
  (fst q = w /\ - 2 ^ 63 <= snd q < 2 ^ 63 /\
   snd (atomic_add_int64 (snd q) b) = snd (atomic_add_int64 w (a + b)) /\
   snd (atomic_add_int64 (snd q) (- a)) = w).
Proof.
  intros Hv Hw. cbn zeta. unfold atomic_add, atomic_add_int64, int_add. cbn [fst snd].
  change (2 ^ 32) with (2 * 2 ^ 31). change (2 ^ 64) with (2 * 2 ^ 63).
  split.
  - split; [reflexivity|]. split.
    { pose proof (Z.mod_pos_bound (v + a + 2 ^ 31) (2 * 2 ^ 31) ltac:(lia)). lia. }
    split; [apply signed_wrap_compose; lia|].
    rewrite signed_wrap_compose by lia. replace (v + (a + - a)) with v by lia.
    rewrite Z.mod_small by lia. lia.
  - split; [reflexivity|]. split.
    { pose proof (Z.mod_pos_bound (w + a + 2 ^ 63) (2 * 2 ^ 63) ltac:(lia)). lia. }
    split; [apply signed_wrap_compose; lia|].
    rewrite signed_wrap_compose by lia. replace (w + (a + - a)) with w by lia.
    rewrite Z.mod_small by lia. lia.
Qed.

(** ** The named-server filter *)

Lemma find_servers_scan_spec (sql : string) (l : list RegexToServers) :
  forall (pre : list RegexToServers),
  (forall r, In r pre -> no_match sql r) ->
  match find_servers_scan sql l (length pre) with
  | (Some i, e) =>
      e = None /\
      exists r, (pre ++ l) !! i = Some r /\ matches sql r /\
        forall j r', (j < i)%nat -> (pre ++ l) !! j = Some r' -> no_match sql r'
  | (None, Some j) =>
      exists r, (pre ++ l) !! j = Some r /\ match_error sql r /\
        forall k r', (k < j)%nat -> (pre ++ l) !! k = Some r' -> no_match sql r'
  | (None, None) => forall r, In r (pre ++ l) -> no_match sql r
  end.
Proof.
  induction l as [|x l IH]; intros pre Hpre; cbn [find_servers_scan].
  - rewrite app_nil_r. exact Hpre.
  - assert (Hbefore : forall j r', (j < length pre)%nat ->
              (pre ++ x :: l) !! j = Some r' -> no_match sql r').
    { intros j r' Hj Hl. rewrite lookup_app_l in Hl by exact Hj.
      apply Hpre. apply list_elem_of_In. eapply list_elem_of_lookup_2, Hl. }
    destruct (Z.leb_spec 0 (pcre2_match (m_regex x) sql)) as [Hm|Hm].
    + split; [reflexivity|]. exists x. split; [apply list_lookup_middle; reflexivity|].
      split; [exact Hm|exact Hbefore].
    + destruct (Z.eqb_spec (pcre2_match (m_regex x) sql) PCRE2_ERROR_NOMATCH) as [He|He];
        cbn [negb].
      * specialize (IH (pre ++ [x])). rewrite length_app, <- app_assoc in IH.
        cbn [length app] in IH. replace (length pre + 1)%nat with (S (length pre)) in IH by lia.
        apply IH. intros r Hr. apply in_app_or in Hr as [Hr|[<-|[]]]; [apply Hpre, Hr|].
        split; [exact Hm|exact He].
      * exists x. split; [apply list_lookup_middle; reflexivity|].
        split; [split; [exact Hm|exact He]|exact Hbefore].
Qed.

(** X20.  [find_servers] returns the first mapping whose pattern matches
    the statement, provided that matching fails with no error before it.
    An error at a mapping that no match precedes ends the search with no
    result, whatever the later mappings would match, and sets the flag
    [m_error_printed] of that mapping and of no other.  Without an error
    the mappings are returned as they were. *)
Theorem find_servers_first_match (m_mapping : list RegexToServers) (sql : string) :
  let res := find_servers m_mapping sql in
  (forall i, fst res = Some i <->
     exists r, m_mapping !! i = Some r /\ matches sql r /\
       forall j r', (j < i)%nat -> m_mapping !! j = Some r' -> no_match sql r') /\
  (forall j r, m_mapping !! j = Some r -> match_error sql r ->
     (forall k r', (k < j)%nat -> m_mapping !! k = Some r' -> no_match sql r') ->
     res = (None, alter set_error_printed j m_mapping)) /\
  ((forall r, In r m_mapping -> ~ match_error sql r) -> snd res = m_mapping).
Proof.
  cbn zeta. unfold find_servers.
  pose proof (find_servers_scan_spec sql m_mapping [] (fun r Hin => match Hin with end)) as H.
  cbn [app length] in H.
  assert (Hexcl : forall r, no_match sql r -> matches sql r -> False)
    by (unfold no_match, matches; intros r [? _] ?; lia).
  assert (Hexcl2 : forall r, no_match sql r -> match_error sql r -> False)
    by (unfold no_match, match_error; intros r [_ ?] [_ ?]; contradiction).
  assert (Hexcl3 : forall r, matches sql r -> match_error sql r -> False)
    by (unfold matches, match_error; intros r ? [? _]; lia).
  assert (Huniq : forall (P Q : RegexToServers -> Prop) i j ri rj,
            (forall r, no_match sql r -> P r -> False) ->
            (forall r, no_match sql r -> Q r -> False) ->
            m_mapping !! i = Some ri -> P ri ->
            (forall k r', (k < i)%nat -> m_mapping !! k = Some r' -> no_match sql r') ->
            m_mapping !! j = Some rj -> Q rj ->
            (forall k r', (k < j)%nat -> m_mapping !! k = Some r' -> no_match sql r') ->
            i = j).
  { intros P Q i j ri rj HP HQ Hi Pi Bi Hj Qj Bj.
    destruct (Nat.lt_trichotomy i j) as [Hlt|[Heq|Hgt]]; [|exact Heq|].
    - exfalso. apply (HP ri); [apply (Bj i ri Hlt Hi)|exact Pi].
    - exfalso. apply (HQ rj); [apply (Bi j rj Hgt Hj)|exact Qj]. }
  destruct (find_servers_scan sql m_mapping 0) as [[i|] e]; cbn [fst snd].
  - destruct H as (-> & r & Hr & Hm & Hb). split; [|split].
    + intros i'. split.
      * intros [= <-]. exists r. auto.
      * intros (r' & Hr' & Hm' & Hb'). f_equal.
        apply (Huniq (matches sql) (matches sql) i i' r r'); auto.
    + intros j rj Hj Hej Hbj. exfalso.
      assert (i = j) by (apply (Huniq (matches sql) (match_error sql) i j r rj); auto).
      subst j. rewrite Hr in Hj. injection Hj as <-. eapply Hexcl3; eauto.
    + reflexivity.
  - destruct e as [j|].
    + destruct H as (r & Hr & He & Hb). split; [|split].
      * intros i. split; [discriminate|].
        intros (r' & Hr' & Hm' & Hb'). exfalso.
        assert (j = i) by (apply (Huniq (match_error sql) (matches sql) j i r r'); auto).
        subst i. rewrite Hr in Hr'. injection Hr' as <-. eapply Hexcl3; eauto.
      * intros j' rj Hj Hej Hbj.
        assert (j = j')
          by (apply (Huniq (match_error sql) (match_error sql) j j' r rj); auto).
        subst j'. reflexivity.
      * intros Hnone. exfalso. apply (Hnone r); [|exact He].
        apply list_elem_of_In. eapply list_elem_of_lookup_2, Hr.
    + split; [|split].
      * intros i. split; [discriminate|].
        intros (r' & Hr' & Hm' & _). exfalso. apply (Hexcl r'); [|exact Hm'].
        apply H. apply list_elem_of_In. eapply list_elem_of_lookup_2, Hr'.
      * intros j rj Hj Hej _. exfalso. apply (Hexcl2 rj); [|exact Hej].
        apply H. apply list_elem_of_In. eapply list_elem_of_lookup_2, Hj.
      * reflexivity.
Qed.

Lemma count_dots_spec (host : string) : forall n,
  count_dots host n =
  if all_bytes address_byte host then Some (n + count_byte "." host) else None.
Proof.
  induction host as [|c rest IH]; intros n; cbn [count_dots all_bytes count_byte].
  - rewrite Z.add_0_r. reflexivity.
  - unfold address_byte at 1.
    destruct (isdigit c), (Ascii.eqb c "."), (Ascii.eqb c "%"); cbn [negb andb orb];
      try reflexivity; rewrite IH; destruct (all_bytes address_byte rest);
      try reflexivity; f_equal; lia.
Qed.

Lemma validate_ip_address_spec (host : string) :
  validate_ip_address host = true <->
  (strlen host <= INET_ADDRSTRLEN)%nat /\
  all_bytes address_byte host = true /\
  count_byte "." host = 3 /\
  first_byte host <> "%"%char /\ first_byte host <> "."%char /\
  last_byte host <> Some "."%char.
Proof.
  unfold validate_ip_address. rewrite count_dots_spec.
  destruct (Ascii.eqb_spec (first_byte host) "%") as [H1|H1]; cbn [orb].
  { split; [discriminate|]. intros (_ & _ & _ & H & _). contradiction. }
  destruct (Ascii.eqb_spec (first_byte host) ".") as [H2|H2]; cbn [orb].
  { split; [discriminate|]. intros (_ & _ & _ & _ & H & _). contradiction. }
  destruct (Nat.ltb_spec INET_ADDRSTRLEN (strlen host)) as [H3|H3].
  { split; [discriminate|]. intros (H & _). lia. }
  destruct (all_bytes address_byte host).
  2: { split; [discriminate|]. intros (_ & H & _). discriminate. }
  rewrite Z.add_0_l. destruct (Z.eqb_spec (count_byte "." host) 3) as [H4|H4]; cbn [andb].
  2: { split; [discriminate|]. intros (_ & _ & H & _). contradiction. }
  destruct (last_byte host) as [c|].
  - destruct (Ascii.eqb_spec c ".") as [H5|H5]; cbn [negb].
    + split; [discriminate|]. intros (_ & _ & _ & _ & _ & H). subst c. contradiction.
    + split; [|reflexivity]. intros _. repeat split; auto; try (intros [= E]; contradiction).
  - split; [|reflexivity]. intros _. repeat split; auto; try discriminate.
Qed.

(** X21.  [validate_ip_address] accepts exactly the texts of at most
    [INET_ADDRSTRLEN] bytes that consist of digits, dots and wildcards,
    hold exactly three dots, and neither start with a wildcard or a dot
    nor end with a dot.  The empty text is rejected; the values of the
    numbers between the dots are not examined. *)
Theorem validate_ip_address_accepts (host : string) :
  validate_ip_address host = true <->
  (strlen host <= INET_ADDRSTRLEN)%nat /\
  all_bytes address_byte host = true /\
  count_byte "." host = 3 /\
  first_byte host <> "%"%char /\ first_byte host <> "."%char /\
  last_byte host <> Some "."%char.
Proof. exact (validate_ip_address_spec host). Qed.

Lemma format_host_scan_netmask (p : string) : forall bytes netmask,
  0 <= count_byte "." p -> bytes + count_byte "." p <= 3 ->
  snd (format_host_scan p bytes netmask) = netmask - 8 * count_byte "%" p.
Proof.
  induction p as [|c rest IH]; intros bytes netmask Hpos Hb;
    cbn [format_host_scan count_byte snd] in *; [lia|].
  assert (Hrest : 0 <= count_byte "." rest).
  { clear. induction rest as [|d rest IH]; cbn [count_byte]; [lia|].
    destruct (Ascii.eqb d "."); lia. }
  destruct (Z.leb_spec bytes 3) as [Hle|Hgt].
  2: { destruct (Ascii.eqb c "."); lia. }
  destruct (Ascii.eqb_spec c ".") as [Hd|Hd].
  - subst c. cbn [Ascii.eqb Bool.eqb]. cbn [snd]. rewrite IH by lia. lia.
  - destruct (Ascii.eqb c "%"); cbn [snd]; rewrite IH by lia; lia.
Qed.

Lemma count_byte_nonneg (c : ascii) (s : string) : 0 <= count_byte c s.
Proof.
  induction s as [|d rest IH]; cbn [count_byte]; [lia|].
  destruct (Ascii.eqb d c); lia.
Qed.

Lemma strchr_count (s : string) (c : ascii) :
  strchr s c = (0 <? count_byte c s).
Proof.
  induction s as [|d rest IH]; cbn [strchr count_byte]; [reflexivity|].
  pose proof (count_byte_nonneg c rest).
  destruct (Ascii.eqb d c); cbn [orb].
  - symmetry. apply Z.ltb_lt. lia.
  - rewrite IH. reflexivity.
Qed.

Lemma set_source_address_eq (input_host : string) :
  set_source_address input_host =
  if validate_ip_address input_host
  then
    if wildcards input_host =? 0
    then Some {| m_address := input_host; m_ipv4 := 0; m_netmask := 32 |}
    else
      match getaddrinfo input_host with
      | Some addr =>
          Some {| m_address := input_host;
                  m_ipv4 := Z.land addr 0x00FFFFFF;
                  m_netmask := 32 - 8 * wildcards input_host |}
      | None => None
      end
  else None.
Proof.
  unfold set_source_address, wildcards.
  destruct (validate_ip_address input_host) eqn:Hv; cbn [negb]; [|reflexivity].
  apply validate_ip_address_spec in Hv as (_ & _ & Hdots & _).
  rewrite strchr_count.
  pose proof (count_byte_nonneg "%" input_host) as Hw.
  destruct (Z.ltb_spec 0 (count_byte "%" input_host)) as [Hpos|Hzero]; cbn [negb].
  - destruct (Z.eqb_spec (count_byte "%" input_host) 0) as [E|_]; [lia|].
    rewrite format_host_scan_netmask by lia.
    destruct (getaddrinfo input_host) as [addr|]; [|reflexivity].
    destruct (Z.ltb_spec (32 - 8 * count_byte "%" input_host) 32); [reflexivity|lia].
  - destruct (Z.eqb_spec (count_byte "%" input_host) 0) as [_|E]; [reflexivity|lia].
Qed.

(** X22.  [set_source_address] returns a source exactly for a text that
    [validate_ip_address] accepts and that, when it holds a wildcard,
    [getaddrinfo] resolves as it stands, with its wildcards.  The source
    keeps the text; its netmask is 32 less 8 for each wildcard; without a
    wildcard its address is zero and no lookup is made, with a wildcard
    its address is the resolved address with the highest byte cleared. *)
Theorem set_source_address_netmask (input_host : string) :
  set_source_address input_host =
  if validate_ip_address input_host
  then
    if wildcards input_host =? 0
    then Some {| m_address := input_host; m_ipv4 := 0; m_netmask := 32 |}
    else
      match getaddrinfo input_host with
      | Some addr =>
          Some {| m_address := input_host;
                  m_ipv4 := Z.land addr 0x00FFFFFF;
                  m_netmask := 32 - 8 * wildcards input_host |}
      | None => None
      end
  else None.
Proof. exact (set_source_address_eq input_host). Qed.

Lemma land_narrow (x a m n : Z) :
  Z.land m n = 0 ->
  (Z.land x m = Z.land a (Z.lor m n) <-> Z.land x m = Z.land a m /\ Z.land a n = 0).
Proof.
  intros Hmn. split.
  - intros H.
    assert (Hm : Z.land (Z.land a (Z.lor m n)) m = Z.land a m).
    { rewrite <- Z.land_assoc. f_equal.
      rewrite Z.land_lor_distr_l, Z.land_diag, (Z.land_comm n m), Hmn. apply Z.lor_0_r. }
    assert (Hn : Z.land (Z.land a (Z.lor m n)) n = Z.land a n).
    { rewrite <- Z.land_assoc. f_equal.
      rewrite Z.land_lor_distr_l, Z.land_diag, Hmn. apply Z.lor_0_l. }
    split.
    + rewrite <- Hm, <- H, <- Z.land_assoc, Z.land_diag. reflexivity.
    + rewrite <- Hn, <- H, <- Z.land_assoc, Hmn. apply Z.land_0_r.
  - intros [H1 H2]. rewrite Z.land_lor_distr_r, H2, Z.lor_0_r. exact H1.
Qed.

(** X23.  The check of a client against a source that
    [set_source_address] built.  Without a wildcard the text of the client
    address must equal the configured text, and the socket address is not
    consulted.  With one wildcard the two addresses must agree on their
    three low bytes.  With two or three wildcards the client is masked to
    two bytes or one while the source is cleared in its highest byte only:
    the check succeeds exactly when the addresses agree under the mask of
    the client and the resolved source address is zero in the other bytes
    below the highest. *)
Theorem check_source_host_wildcards (input_host remote : string) (src : SourceHost)
    (addr ip : Z) :
  set_source_address input_host = Some src ->
  (wildcards input_host = 0 ->
   check_source_host src remote ip = String.eqb input_host remote) /\
  (getaddrinfo input_host = Some addr ->
   (wildcards input_host = 1 ->
    (check_source_host src remote ip = true <->
     Z.land ip 0x00FFFFFF = Z.land addr 0x00FFFFFF)) /\
   (wildcards input_host = 2 ->
    (check_source_host src remote ip = true <->
     Z.land ip 0x0000FFFF = Z.land addr 0x0000FFFF /\ Z.land addr 0x00FF0000 = 0)) /\
   (wildcards input_host = 3 ->
    (check_source_host src remote ip = true <->
     Z.land ip 0x000000FF = Z.land addr 0x000000FF /\ Z.land addr 0x00FFFF00 = 0))).
Proof.
  intros Hsrc. rewrite set_source_address_eq in Hsrc.
  destruct (validate_ip_address input_host); [|discriminate].
  split.
  - intros Hw. rewrite Hw in Hsrc. cbn in Hsrc. injection Hsrc as <-. reflexivity.
  - intros Haddr. rewrite Haddr in Hsrc.
    split; [|split]; intros Hw; rewrite Hw in Hsrc; cbn in Hsrc; injection Hsrc as <-;
      unfold check_source_host; cbn [m_netmask m_ipv4 m_address];
      repeat match goal with
             | |- context [32 - 8 * ?k <? ?c] =>
                 let v := eval vm_compute in (32 - 8 * k <? c) in
                 change (32 - 8 * k <? c) with v
             | |- context [32 - 8 * ?k =? ?c] =>
                 let v := eval vm_compute in (32 - 8 * k =? c) in
                 change (32 - 8 * k =? c) with v
             end;
      cbn [fst snd]; rewrite Z.eqb_eq.
    + reflexivity.
    + apply (land_narrow ip addr 0x0000FFFF 0x00FF0000). reflexivity.
    + apply (land_narrow ip addr 0x000000FF 0x00FFFF00). reflexivity.
Qed.

Lemma generate_param_names_loop_eq (n : nat) : forall counter arrays,
  generate_param_names_loop n counter arrays =
  (fst arrays ++ List.map (snprintf_s02d (sizeof_literal MATCH_STR + 2) MATCH_STR)
                   (seq counter n),
   snd arrays ++ List.map (snprintf_s02d (sizeof_literal TARGET_STR + 2) TARGET_STR)
                   (seq counter n)).
Proof.
  induction n as [|n IH]; intros counter [a b]; cbn [generate_param_names_loop seq List.map].
  - cbn [fst snd]. rewrite !app_nil_r. reflexivity.
  - rewrite IH. cbn [fst snd]. rewrite <- !app_assoc. reflexivity.
Qed.

Lemma NoDup_map_seq_prefix {A : Type} (f : nat -> A) (n m : nat) :
  (n <= m)%nat -> NoDup (List.map f (seq 1 m)) -> NoDup (List.map f (seq 1 n)).
Proof.
  intros Hle H. replace m with (n + (m - n))%nat in H by lia.
  rewrite seq_app, List.map_app in H. apply NoDup_app in H. apply H.
Qed.

(** X24.  [generate_param_names], started on empty arrays, adds one name
    per pair to each array.  For up to 99 pairs the names of each array
    are pairwise distinct, of seven bytes for the match names and of eight
    for the target names.  From 100 pairs on, the hundredth name of each
    array is cut to the size of its buffer and repeats the tenth. *)
Theorem param_names_distinct (pairs : nat) :
  let r := generate_param_names pairs ([], []) in
  length (fst r) = pairs /\ length (snd r) = pairs /\
  ((pairs <= 99)%nat ->
   NoDup (fst r) /\ NoDup (snd r) /\
   Forall (fun s => strlen s = 7%nat) (fst r) /\
   Forall (fun s => strlen s = 8%nat) (snd r)) /\
  ((100 <= pairs)%nat ->
   fst r !! 99%nat = fst r !! 9%nat /\ fst r !! 9%nat = Some "match10" /\
   snd r !! 99%nat = snd r !! 9%nat /\ snd r !! 9%nat = Some "target10").
Proof.
  cbn zeta. unfold generate_param_names. rewrite generate_param_names_loop_eq.
  cbn [fst snd app].
  split; [rewrite length_map, length_seq; reflexivity|].
  split; [rewrite length_map, length_seq; reflexivity|].
  split.
  - intros Hle.
    assert (Hm : NoDup (List.map (snprintf_s02d (sizeof_literal MATCH_STR + 2) MATCH_STR)
                          (seq 1 99)))
      by (apply (bool_decide_unpack _); vm_compute; exact I).
    assert (Ht : NoDup (List.map (snprintf_s02d (sizeof_literal TARGET_STR + 2) TARGET_STR)
                          (seq 1 99)))
      by (apply (bool_decide_unpack _); vm_compute; exact I).
    assert (Lm : Forall (fun s => strlen s = 7%nat)
                   (List.map (snprintf_s02d (sizeof_literal MATCH_STR + 2) MATCH_STR)
                      (seq 1 99)))
      by (apply (bool_decide_unpack _); vm_compute; exact I).
    assert (Lt : Forall (fun s => strlen s = 8%nat)
                   (List.map (snprintf_s02d (sizeof_literal TARGET_STR + 2) TARGET_STR)
                      (seq 1 99)))
      by (apply (bool_decide_unpack _); vm_compute; exact I).
    split; [exact (NoDup_map_seq_prefix _ _ _ Hle Hm)|].
    split; [exact (NoDup_map_seq_prefix _ _ _ Hle Ht)|].
    replace 99%nat with (pairs + (99 - pairs))%nat in Lm, Lt by lia.
    rewrite seq_app, List.map_app in Lm, Lt.
    apply Forall_app in Lm, Lt. split; [apply Lm|apply Lt].
  - intros Hge.
    assert (Hl : forall (f : nat -> string) i, (i < pairs)%nat ->
              List.map f (seq 1 pairs) !! i = Some (f (S i))).
    { intros f i Hi. change (List.map f) with (fmap (M := list) f).
      rewrite list_lookup_fmap, lookup_seq_lt by exact Hi. reflexivity. }
    rewrite !Hl by lia. repeat split.
Qed.

(** ** Multi-statement packets *)

Lemma handle_multi_temp_and_load_config rses querybuf ptype qtype :
  rses_config (fst (handle_multi_temp_and_load rses querybuf ptype qtype)) =
  rses_config rses.
Proof.
  unfold handle_multi_temp_and_load.
  set (s1 := if (negb (is_set (target_node rses)) ||
                 negb (ptr_eqb (target_node rses) (current_master rses))) &&
                multi_stmt querybuf then _ else _).
  assert (H1 : rses_config (fst s1) = rses_config rses).
  { subst s1.
    destruct ((negb (is_set (target_node rses)) ||
               negb (ptr_eqb (target_node rses) (current_master rses))) &&
              multi_stmt querybuf); [|reflexivity].
    destruct (is_set (current_master rses)); reflexivity. }
  clearbody s1.
  set (s2 := if negb (dcb_data (client_dcb (fst s1))) then _ else _).
  assert (H2 : rses_config (fst s2) = rses_config rses).
  { subst s2. destruct (negb (dcb_data (client_dcb (fst s1)))); [exact H1|].
    cbn [fst]. unfold check_create_tmp_table.
    match goal with
    | |- context [if qc_query_is_type ?a ?b then _ else _] =>
        destruct (qc_query_is_type a b)
    end; exact H1. }
  clearbody s2. rewrite <- H2. generalize (fst s2). intros r. cbn [fst].
  destruct (load_data_state r); destruct (packet_is_query querybuf && op_is_load querybuf);
    reflexivity.
Qed.

(** Where a statement routed to the primary alone leaves the forced node,
    outside a read-only transaction. *)
Lemma dispatch_stmt_master_node inst rses querybuf qtype :
  session_trx_is_read_only (session (client_dcb rses)) = false ->
  let out := snd (snd (dispatch_stmt inst rses querybuf TARGET_MASTER qtype)) in
  target_node out =
    (if negb (strict_multi_stmt (rses_config rses)) &&
        ptr_eqb (target_node rses) (current_master rses)
     then None else target_node rses) /\
  current_master out = current_master rses.
Proof.
  intros Hro. cbn zeta.
  pose proof (select_target_frame inst rses querybuf TARGET_MASTER) as Hframe.
  cbn zeta in Hframe. destruct Hframe as (_ & _ & _ & Hsess & _).
  assert (Hsel : target_node (snd (select_target inst rses querybuf TARGET_MASTER)) =
                   (if negb (strict_multi_stmt (rses_config rses)) &&
                       ptr_eqb (target_node rses) (current_master rses)
                    then None else target_node rses) /\
                 current_master (snd (select_target inst rses querybuf TARGET_MASTER)) =
                   current_master rses).
  { unfold select_target.
    change (TARGET_IS_NAMED_SERVER TARGET_MASTER || TARGET_IS_RLAG_MAX TARGET_MASTER)
      with false.
    change (TARGET_IS_SLAVE TARGET_MASTER) with false.
    change (TARGET_IS_MASTER TARGET_MASTER) with true. cbn [fst snd].
    destruct (handle_master_is_target_fields inst rses None) as (F1 & F2 & F3 & _).
    cbn zeta in F1, F2, F3. rewrite F1, F2, F3.
    destruct (negb (strict_multi_stmt (rses_config rses)) &&
              ptr_eqb (target_node rses) (current_master rses));
      cbn [set_target_node target_node current_master]; auto. }
  destruct Hsel as [Hn Hc].
  unfold dispatch_stmt. change (TARGET_IS_ALL TARGET_MASTER) with false.
  revert Hn Hc Hsess.
  destruct (select_target inst rses querybuf TARGET_MASTER) as [[[[succp tgt] store] i] r].
  cbn [fst snd]. intros Hn Hc Hsess.
  assert (Hfinal : forall (c : bool) i' r' t',
            target_node r' = target_node r -> current_master r' = current_master r ->
            target_node (if c then handle_connection_keepalive i' r' t' else r') =
              (if negb (strict_multi_stmt (rses_config rses)) &&
                  ptr_eqb (target_node rses) (current_master rses)
               then None else target_node rses) /\
            current_master (if c then handle_connection_keepalive i' r' t' else r') =
              current_master rses).
  { intros c i' r' t' E1 E2. destruct c.
    - destruct (keepalive_fields i' r' t') as [T1 _]. rewrite T1.
      unfold handle_connection_keepalive. cbn [current_master set_backends].
      rewrite E1, E2, Hn, Hc. auto.
    - rewrite E1, E2, Hn, Hc. auto. }
  destruct tgt as [t|]; [|apply Hfinal; reflexivity].
  destruct succp; cbn [fst snd]; [|apply Hfinal; reflexivity].
  destruct (handle_got_target_node i r querybuf t store) as (_ & _ & G3 & G4).
  cbn zeta in G3, G4.
  apply Hfinal; [|exact G3].
  rewrite G4. unfold session_trx_is_read_only in Hro |- *. rewrite Hsess, Hro.
  rewrite ?andb_false_r. cbn [andb]. rewrite ?andb_false_r. reflexivity.
Qed.

(** X25.  A multi-statement packet outside a read-only transaction, in a
    session that has a current primary, is routed to the primary alone
    when it carries no hint, and forces the session to it: in strict
    multi-statement mode [target_node] is the current primary afterwards,
    and every later statement without hints is routed to the primary alone
    whatever its type; in relaxed mode [target_node] is reset. *)
Theorem multi_statement_pins_primary (inst : ROUTER_INSTANCE)
    (rses : ROUTER_CLIENT_SES) (querybuf : GWBUF) :
  non_empty_packet querybuf = true ->
  multi_stmt querybuf = true ->
  is_set (current_master rses) = true ->
  hint querybuf = [] ->
  session_trx_is_read_only (session (client_dcb rses)) = false ->
  let out := snd (snd (route_single_stmt inst rses querybuf)) in
  fst (fst (resolve_route_target rses querybuf)) = TARGET_MASTER /\
  current_master out = current_master rses /\
  target_node out =
    (if strict_multi_stmt (rses_config rses) then current_master rses else None) /\
  (strict_multi_stmt (rses_config rses) = true ->
   forall qtype, get_route_target out qtype [] = TARGET_MASTER).
Proof.
  intros Hne Hmulti Hcm Hhint Hro. cbn zeta.
  unfold route_single_stmt, resolve_route_target. rewrite Hne. cbn [fst snd].
  destruct (handle_multi_temp_and_load_pin rses querybuf (packet_type querybuf)
              (query_type querybuf)) as (P1 & P2 & P3).
  pose proof (handle_multi_temp_and_load_config rses querybuf (packet_type querybuf)
                (query_type querybuf)) as P4.
  cbn zeta in P1, P2, P3.
  set (s := handle_multi_temp_and_load rses querybuf (packet_type querybuf)
              (query_type querybuf)) in *.
  assert (Hnode : target_node (fst s) = current_master rses).
  { rewrite P3, Hmulti, Hcm, !andb_true_r.
    destruct (is_set (target_node rses)) eqn:Hs; cbn [negb orb]; [|reflexivity].
    destruct (ptr_eqb (target_node rses) (current_master rses)) eqn:He; cbn [negb];
      [|reflexivity].
    apply ptr_eqb_eq, He. }
  assert (Hpinned : forall r : ROUTER_CLIENT_SES,
            target_node r = current_master rses -> current_master r = current_master rses ->
            forall qtype, get_route_target r qtype [] = TARGET_MASTER).
  { intros r Hn Hc qtype. unfold get_route_target, route_target_of_query.
    cbn [process_hints]. rewrite Hn, Hc, Hcm.
    destruct (current_master rses) as [m|]; [|discriminate].
    cbn [ptr_eqb andb]. rewrite Nat.eqb_refl. reflexivity. }
  rewrite Hhint, (Hpinned (fst s) Hnode P2).
  split; [reflexivity|].
  assert (Hro1 : session_trx_is_read_only (session (client_dcb (fst s))) = false)
    by (rewrite P1; exact Hro).
  destruct (dispatch_stmt_master_node inst (fst s) querybuf (snd s) Hro1) as [D1 D2].
  cbn zeta in D1, D2.
  split; [rewrite D2; exact P2|].
  assert (Hself : ptr_eqb (current_master rses) (current_master rses) = true).
  { destruct (current_master rses) as [m|]; [cbn; apply Nat.eqb_refl|reflexivity]. }
  match goal with
  | |- target_node ?out = _ /\ _ =>
      assert (Hout : target_node out =
                (if strict_multi_stmt (rses_config rses)
                 then current_master rses else None))
  end.
  { rewrite D1, P4, Hnode, P2, Hself, andb_true_r.
    destruct (strict_multi_stmt (rses_config rses)); reflexivity. }
  split; [exact Hout|]. intros Hstrict qtype.
  apply Hpinned; [rewrite Hout, Hstrict; reflexivity|rewrite D2; exact P2].
Qed.

End Router.

(** ** Instances *)

(** C1.  The code at the failing input.  The only handle of the session is
    in use, active and flagged primary; it is not the session's current
    primary (the session has none) and it is no replica.  The scan for a
    replica has no candidate yet, the handle fails the test for the current
    primary, passes the test of the lag, and is returned; by the claim no
    handle qualifies. *)
Theorem C1_promoted_primary_selected :
  handles promoted_rses = [(0%nat, promoted_P2)] /\
  is_set (target_node promoted_rses) &&
    session_trx_is_read_only (session (client_dcb promoted_rses)) = false /\
  usable promoted_P2 = true /\
  SERVER_IS_MASTER (server promoted_P2) = true /\
  SERVER_IS_SLAVE (server promoted_P2) = false /\
  is_current_primary promoted_rses (0%nat, promoted_P2) = false /\
  qualifying_replica MAX_RLAG_UNDEFINED promoted_P2 = false /\
  slave_scan_step cmp_rlag promoted_rses MAX_RLAG_UNDEFINED (None, false)
    (0%nat, promoted_P2) = (Some (0%nat, promoted_P2), true) /\
  get_target_backend cmp_rlag promoted_rses BE_SLAVE None MAX_RLAG_UNDEFINED None
    = (true, Some 0%nat).
Proof. repeat split. Qed.

(** C2, the claim as stated fails: for [SET] mixed with [SELECT] on an idle
    session the resolver's answer carries the ALL bit and is not PRIMARY
    alone. *)
Lemma C2_counterexample :
  load_data_state idle_rses = LOAD_DATA_INACTIVE /\
  qc_query_is_type qtype_set_and_select QUERY_TYPE_SESSION_WRITE = true /\
  qc_query_is_type qtype_set_and_select QUERY_TYPE_READ = true /\
  qc_query_is_type qtype_set_and_select QUERY_TYPE_PREPARE_STMT = false /\
  qc_query_is_type qtype_set_and_select QUERY_TYPE_PREPARE_NAMED_STMT = false /\
  get_route_target idle_rses qtype_set_and_select [] <> TARGET_MASTER /\
  TARGET_IS_ALL (get_route_target idle_rses qtype_set_and_select []) = true.
Proof. repeat split; try reflexivity. vm_compute. discriminate. Qed.

Lemma C2_witness :
  get_route_target idle_rses qtype_set_and_select [] = Z.lor TARGET_MASTER TARGET_ALL.
Proof.
  exact (proj1 (C2_state_change_with_read idle_rses qtype_set_and_select
                  eq_refl eq_refl eq_refl eq_refl eq_refl)).
Defined.

(** C3, the claim as stated fails: a parameter hint whose key is not
    [max_slave_replication_lag], but begins with it, does not leave the
    target unchanged. *)
Lemma C3_counterexample :
  hint_type hint_lag_ms = HINT_PARAMETER /\
  hint_data hint_lag_ms <> "max_slave_replication_lag"%string /\
  process_hints TARGET_SLAVE [hint_lag_ms] = Z.lor TARGET_SLAVE TARGET_RLAG_MAX /\
  process_hints TARGET_SLAVE [hint_lag_ms] <> TARGET_SLAVE /\
  get_route_target idle_rses QUERY_TYPE_READ [hint_lag_ms] <>
  get_route_target idle_rses QUERY_TYPE_READ [].
Proof. repeat split; try discriminate. Qed.

Lemma C3_witness :
  process_hints TARGET_SLAVE (hint_lag_upper :: [hint_to_master]) =
  process_hints (Z.lor TARGET_SLAVE TARGET_RLAG_MAX) [hint_to_master] /\
  process_hints (Z.lor TARGET_SLAVE TARGET_RLAG_MAX) (hint_to_master :: []) =
  TARGET_MASTER.
Proof.
  split.
  - destruct (C3_hints_in_order idle_rses QUERY_TYPE_READ TARGET_SLAVE
                hint_lag_upper [hint_to_master]) as (_ & _ & _ & _ & _ & Hpar & _).
    apply Hpar; [reflexivity|].
    exists "MAX_SLAVE_REPLICATION_LAG"%string, ""%string. split; reflexivity.
  - destruct (C3_hints_in_order idle_rses QUERY_TYPE_READ
                (Z.lor TARGET_SLAVE TARGET_RLAG_MAX) hint_to_master [])
      as (_ & _ & Hmaster & _).
    apply Hmaster. reflexivity.
Defined.

Lemma C4_witness :
  let rses' := snd (route_session_write enqueue head_position exec_on_replicas responds_always later_rses
                      (sample_query [] QUERY_TYPE_SESSION_WRITE) 3) in
  sescmd_count rses' = 4 /\ expected_responses rses' = 2 /\ sent_sescmd rses' = 3.
Proof.
  destruct (C4_session_write_effects enqueue head_position exec_on_replicas responds_always later_rses
              (sample_query [] QUERY_TYPE_SESSION_WRITE) 3 eq_refl)
    as (_ & Hcount & _ & Hexp & Hsent).
  split; [exact Hcount|]. split; [exact Hexp|exact Hsent].
Defined.

Lemma C5_witness :
  let r := route_session_write enqueue head_position exec_on_replicas responds_always later_rses
             (sample_query [] QUERY_TYPE_SESSION_WRITE) 3 in
  disable_sescmd_history (rses_config (snd r)) = true /\
  sescmd_list (snd r) = [] /\ fst r = true.
Proof.
  destruct (C5_history_bound enqueue head_position exec_on_replicas responds_always later_rses
              (sample_query [] QUERY_TYPE_SESSION_WRITE) 3)
    as (Hoff & Hlog & _ & Hret).
  - reflexivity.
  - vm_compute. discriminate.
  - split; [exact Hoff|]. split; [exact Hlog|exact Hret].
Defined.

(** C6.  The code at the failing inputs.  The session is inside a read-only
    transaction that is not ending, pinned to the replica at index 1, and
    the selector returns that handle for a primary as well.  A statement
    hinted to the primary is forwarded nowhere: routing returns false and
    leaves the instance and the session as they were.  A multi-statement
    packet moves [target_node] to the primary at index 0 and is written to
    it; the pinned replica does not receive it. *)
Theorem C6_pinned_statement_not_forwarded :
  session_trx_is_read_only (session (client_dcb read_only_rses)) = true /\
  session_trx_is_ending (session (client_dcb read_only_rses)) = false /\
  target_node read_only_rses = Some 1%nat /\
  current_master read_only_rses = Some 0%nat /\
  get_target_backend cmp_rlag read_only_rses BE_MASTER None MAX_RLAG_UNDEFINED None
    = (true, Some 1%nat) /\
  route_single_stmt cmp_rlag write_accepted close_handle no_ping
    configured_lag no_broadcast strtol_zero strtol_zero 0
    sample_inst read_only_rses (sample_query [hint_to_master] QUERY_TYPE_READ)
  = (false, (sample_inst, read_only_rses)) /\
  (let r := route_single_stmt cmp_rlag write_accepted close_handle no_ping
              configured_lag no_broadcast strtol_zero strtol_zero 0
              sample_inst read_only_rses multi_query in
   fst r = true /\
   target_node (snd (snd r)) = Some 0%nat /\
   is_waiting_result <$> backends (snd (snd r)) !! 0%nat = Some true /\
   backends (snd (snd r)) !! 1%nat = Some replica_R1).
Proof. repeat split. Qed.

Lemma C7_witness :
  let r := handle_master_is_target cmp_rlag close_handle sample_inst demoted_rses None in
  written (client_dcb (snd r)) = [READ_ONLY_ERROR] /\
  backends (snd r) = [close_handle demoted_P; replica_R1] /\
  fst (route_single_stmt cmp_rlag write_accepted close_handle no_ping
         configured_lag no_broadcast strtol_zero strtol_zero 0
         sample_inst demoted_rses (sample_query [] QUERY_TYPE_WRITE)) = true.
Proof.
  destruct (C7_error_on_write cmp_rlag write_accepted close_handle
              no_ping configured_lag no_broadcast strtol_zero strtol_zero 0
              sample_inst demoted_rses (sample_query [] QUERY_TYPE_WRITE)
              eq_refl eq_refl eq_refl)
    as (Hsent & Hclosed & _ & Hopen).
  split; [exact Hsent|]. split; [exact Hclosed|exact Hopen].
Defined.

Lemma C8_witness :
  resolve_route_target loading_rses empty_packet =
    (TARGET_MASTER, QUERY_TYPE_UNKNOWN, set_load_data_state loading_rses LOAD_DATA_END) /\
  load_data_state (snd (resolve_route_target loading_rses empty_packet)) = LOAD_DATA_END.
Proof.
  destruct (C8_empty_packet_ends_load cmp_rlag write_accepted close_handle
              no_ping configured_lag no_broadcast
              strtol_zero strtol_zero 0 sample_inst loading_rses empty_packet
              eq_refl eq_refl) as (Hres & Hend & _).
  split; [exact Hres|exact Hend].
Defined.

Lemma C9_witness :
  get_target_backend cmp_rlag (switched_rses RW_FAIL_ON_WRITE) BE_MASTER None
    MAX_RLAG_UNDEFINED None = (true, Some 1%nat) /\
  handle_master_is_target cmp_rlag close_handle
    sample_inst (switched_rses RW_FAIL_ON_WRITE) None
  = (false, Some 1%nat, sample_inst, switched_rses RW_FAIL_ON_WRITE).
Proof.
  split; [reflexivity|].
  destruct (C9_write_needs_current_master cmp_rlag close_handle
              sample_inst (switched_rses RW_FAIL_ON_WRITE) None)
    as [Hfail _].
  - discriminate.
  - apply Hfail; [reflexivity|discriminate].
Defined.

Lemma C10_witness :
  fst (route_session_write enqueue head_position exec_on_replicas responds_always later_rses
         (sample_query [] QUERY_TYPE_SESSION_WRITE) 3) = true /\
  fst (sescmd_executed enqueue exec_on_replicas
         {| sc_buffer := sample_query [] QUERY_TYPE_SESSION_WRITE; get_position := 3 |}
         primary_P) = false /\
  fst (route_session_write enqueue head_position exec_on_replicas responds_always
         (orphan_rses RW_FAIL_ON_WRITE)
         (sample_query [] QUERY_TYPE_SESSION_WRITE) 3) = true.
Proof.
  split; [|split; [reflexivity|]].
  - apply (C10_session_write_result enqueue head_position exec_on_replicas responds_always later_rses
             (sample_query [] QUERY_TYPE_SESSION_WRITE) 3 eq_refl).
    exists replica_R1. split; [right; left; reflexivity|split; reflexivity].
  - apply (C10_session_write_result enqueue head_position exec_on_replicas responds_always
             (orphan_rses RW_FAIL_ON_WRITE)
             (sample_query [] QUERY_TYPE_SESSION_WRITE) 3 eq_refl).
    exists replica_R1. split; [left; reflexivity|split; reflexivity].
Defined.

(** ** Instances of the further properties *)

Lemma primary_selection_witness :
  get_target_backend cmp_rlag idle_rses BE_MASTER None MAX_RLAG_UNDEFINED None
    = (true, Some 0%nat).
Proof.
  exact (primary_selection_is_root_master cmp_rlag idle_rses MAX_RLAG_UNDEFINED None
           eq_refl).
Defined.

Lemma replica_selection_witness :
  fst (get_target_backend cmp_rlag idle_rses BE_SLAVE None MAX_RLAG_UNDEFINED None) = true <->
  exists it, In it (handles idle_rses) /\ usable (snd it) = true /\
             acceptable idle_rses MAX_RLAG_UNDEFINED it = true.
Proof.
  pose proof (replica_selection_sound cmp_rlag idle_rses MAX_RLAG_UNDEFINED None eq_refl)
    as H.
  cbn zeta in H. exact (proj1 H).
Defined.

Lemma replica_preferred_witness :
  exists c, In c (handles idle_rses) /\
    get_target_backend cmp_rlag idle_rses BE_SLAVE None MAX_RLAG_UNDEFINED None
      = (true, Some (fst c)) /\
    qualifying_replica MAX_RLAG_UNDEFINED (snd c) = true.
Proof.
  apply (replica_preferred_over_primary cmp_rlag idle_rses MAX_RLAG_UNDEFINED None);
    [reflexivity|reflexivity|].
  exists (1%nat, replica_R1). split; [right; left; reflexivity|split; reflexivity].
Defined.

Lemma named_server_witness :
  get_target_backend cmp_rlag idle_rses BE_MASTER (Some "r1"%string)
    MAX_RLAG_UNDEFINED None = (true, Some 1%nat).
Proof.
  assert (Hn : c_string "r1").
  { unfold c_string. cbn. repeat constructor; discriminate. }
  assert (Hs : forall it, In it (handles idle_rses) ->
                 c_string (unique_name (server (snd it)))).
  { intros it [<-|[<-|[<-|[]]]]; unfold c_string; cbn; repeat constructor; discriminate. }
  destruct (named_server_selection cmp_rlag idle_rses BE_MASTER "r1" MAX_RLAG_UNDEFINED
              None eq_refl Hn Hs) as [Hfirst _].
  apply (Hfirst [(0%nat, primary_P)] (1%nat, replica_R1) [(2%nat, replica_R2)]).
  - reflexivity.
  - repeat split.
  - intros y [<-|[]] (_ & _ & H & _). discriminate H.
Defined.

Lemma master_hint_witness :
  get_route_target idle_rses qtype_set_and_select [hint_to_master] = TARGET_MASTER /\
  TARGET_IS_ALL (get_route_target idle_rses qtype_set_and_select [hint_to_master]) = false.
Proof.
  apply master_hint_overrides. exists hint_to_master. split; [left|]; reflexivity.
Defined.

Lemma slave_target_witness :
  (exists h, In h [] /\ hint_type h = HINT_ROUTE_TO_SLAVE) \/
  session_trx_is_read_only (session (client_dcb idle_rses)) = true \/
  (session_trx_is_active (session (client_dcb idle_rses)) = false /\
   load_data_state idle_rses = LOAD_DATA_INACTIVE /\
   plain_read QUERY_TYPE_READ = true).
Proof.
  exact (slave_target_only_for_reads idle_rses QUERY_TYPE_READ [] eq_refl).
Defined.

Lemma named_target_witness :
  exists l1 h l2,
    [hint_to_R2] = l1 ++ h :: l2 /\
    hint_type h = HINT_ROUTE_TO_NAMED_SERVER /\
    (forall y, In y l2 -> hint_type y <> HINT_ROUTE_TO_NAMED_SERVER) /\
    fst (hinted_target_scan strtol_zero strtol_zero [hint_to_R2] None MAX_RLAG_UNDEFINED)
      = Some (hint_data h) /\
    exists btype rlag_max,
      handle_hinted_target cmp_rlag configured_lag strtol_zero strtol_zero idle_rses
        (sample_query [hint_to_R2] QUERY_TYPE_READ)
        (Z.lor TARGET_SLAVE TARGET_NAMED_SERVER) None =
      get_target_backend cmp_rlag idle_rses btype (Some (hint_data h)) rlag_max None.
Proof.
  exact (named_target_has_name cmp_rlag configured_lag strtol_zero strtol_zero idle_rses
           QUERY_TYPE_READ (sample_query [hint_to_R2] QUERY_TYPE_READ)
           (Z.lor TARGET_SLAVE TARGET_NAMED_SERVER) None eq_refl).
Defined.

Lemma statement_forwarding_witness :
  let out :=
    snd (snd (route_single_stmt cmp_rlag write_accepted close_handle no_ping
                configured_lag no_broadcast strtol_zero strtol_zero 0 sample_inst
                loading_rses (sample_query [] QUERY_TYPE_UNKNOWN))) in
  load_data_state out = LOAD_DATA_ACTIVE /\
  expected_responses out = 0 /\
  rses_load_data_sent out = 20.
Proof.
  pose proof (statement_forwarding_effects cmp_rlag write_accepted close_handle no_ping
                configured_lag no_broadcast strtol_zero strtol_zero 0 sample_inst
                loading_rses (sample_query [] QUERY_TYPE_UNKNOWN) eq_refl) as H.
  cbn zeta in H. destruct H as (H1 & H2 & H3 & _).
  split; [exact H1|]. split; [exact H2|exact H3].
Defined.

Lemma load_data_packet_witness :
  (let out :=
     snd (snd (route_single_stmt cmp_rlag write_accepted close_handle no_ping
                 configured_lag no_broadcast strtol_zero strtol_zero 0 sample_inst
                 loading_rses (sample_query [] QUERY_TYPE_UNKNOWN))) in
   load_data_state out = LOAD_DATA_ACTIVE /\
   expected_responses out = 0 /\
   rses_load_data_sent out = 20) /\
  rses_load_data_sent
    (snd (snd (route_single_stmt cmp_rlag write_accepted close_handle no_ping
                 configured_lag no_broadcast strtol_zero strtol_zero 0 sample_inst
                 long_loading_rses (sample_query [] QUERY_TYPE_UNKNOWN)))) = 10.
Proof.
  pose proof (load_data_packet_keeps_active cmp_rlag write_accepted close_handle no_ping
                configured_lag no_broadcast strtol_zero strtol_zero 0 sample_inst
                loading_rses (sample_query [] QUERY_TYPE_UNKNOWN) eq_refl eq_refl) as H.
  pose proof (load_data_packet_keeps_active cmp_rlag write_accepted close_handle no_ping
                configured_lag no_broadcast strtol_zero strtol_zero 0 sample_inst
                long_loading_rses (sample_query [] QUERY_TYPE_UNKNOWN) eq_refl eq_refl)
    as Hlong.
  cbn zeta in H, Hlong. destruct H as (_ & H1 & H2 & H3).
  destruct Hlong as (_ & _ & _ & H4).
  split; [split; [exact H1|]; split; [exact H2|exact H3]|exact H4].
Defined.

Lemma load_data_start_witness :
  let out :=
    snd (snd (route_single_stmt cmp_rlag write_accepted close_handle no_ping
                configured_lag no_broadcast strtol_zero strtol_zero 0 sample_inst
                idle_rses load_query)) in
  load_data_state out = LOAD_DATA_ACTIVE /\
  expected_responses out = 1 /\
  rses_load_data_sent out = 0.
Proof.
  pose proof (load_data_start cmp_rlag write_accepted close_handle no_ping
                configured_lag no_broadcast strtol_zero strtol_zero 0 sample_inst
                idle_rses load_query eq_refl eq_refl eq_refl eq_refl) as H.
  cbn zeta in H. destruct H as (_ & _ & H1 & H2 & H3).
  split; [exact H1|]. split; [exact H2|exact H3].
Defined.

Lemma load_data_end_witness :
  let out :=
    snd (snd (route_single_stmt cmp_rlag write_accepted close_handle no_ping
                configured_lag no_broadcast strtol_zero strtol_zero 0 sample_inst
                loading_rses empty_packet)) in
  load_data_state out = LOAD_DATA_INACTIVE /\
  expected_responses out = 1 /\
  rses_load_data_sent out = 0.
Proof.
  pose proof (load_data_end cmp_rlag write_accepted close_handle no_ping
                configured_lag no_broadcast strtol_zero strtol_zero 0 sample_inst
                loading_rses empty_packet eq_refl) as H.
  cbn zeta in H. destruct H as (H1 & H2 & H3).
  split; [exact H1|]. split; [exact H2|exact H3].
Defined.

Lemma routing_statistics_witness :
  let d :=
    dispatch_stmt cmp_rlag write_accepted close_handle no_ping configured_lag
      no_broadcast strtol_zero strtol_zero 0 sample_inst idle_rses
      (sample_query [] QUERY_TYPE_READ) TARGET_SLAVE QUERY_TYPE_READ in
  n_queries (fst (snd d)) = 1 /\ n_slave (fst (snd d)) = 1 /\ n_master (fst (snd d)) = 0.
Proof.
  pose proof (routing_statistics cmp_rlag write_accepted close_handle no_ping
                configured_lag no_broadcast strtol_zero strtol_zero 0 sample_inst
                idle_rses (sample_query [] QUERY_TYPE_READ) TARGET_SLAVE QUERY_TYPE_READ
                eq_refl) as H.
  cbn zeta in H. destruct H as (H1 & H2 & H3).
  split; [exact H1|]. split; [exact H2|exact H3].
Defined.

Lemma write_failure_witness :
  let d :=
    dispatch_stmt cmp_rlag write_refused close_handle no_ping configured_lag
      no_broadcast strtol_zero strtol_zero 0 sample_inst idle_rses
      (sample_query [] QUERY_TYPE_READ) TARGET_SLAVE QUERY_TYPE_READ in
  fst d = true /\ n_queries (fst (snd d)) = 0 /\
  expected_responses (snd (snd d)) = 0 /\
  load_data_state (snd (snd d)) = LOAD_DATA_INACTIVE.
Proof.
  exact (write_failure_not_reported cmp_rlag write_refused close_handle no_ping
           configured_lag no_broadcast strtol_zero strtol_zero 0 sample_inst
           idle_rses (sample_query [] QUERY_TYPE_READ) TARGET_SLAVE QUERY_TYPE_READ
           eq_refl eq_refl eq_refl).
Defined.

Lemma session_writes_witness :
  let out :=
    session_writes enqueue head_position exec_on_replicas responds_always idle_rses
      [(sample_query [] QUERY_TYPE_SESSION_WRITE, 3);
       (sample_query [] QUERY_TYPE_SESSION_WRITE, 3)] in
  sescmd_count out = 2 /\
  List.map get_position (sescmd_list out) = [0; 1].
Proof.
  pose proof (session_writes_log enqueue head_position exec_on_replicas responds_always
                idle_rses
                [(sample_query [] QUERY_TYPE_SESSION_WRITE, 3);
                 (sample_query [] QUERY_TYPE_SESSION_WRITE, 3)]
                ltac:(cbn; lia)) as H.
  cbn zeta in H. destruct H as (H1 & _ & H3).
  split; [exact H1|]. rewrite (H3 eq_refl). reflexivity.
Defined.

Lemma atomic_add_uint64_witness :
  snd (atomic_add_uint64 (2 ^ 64 - 1) 1) = 0 /\
  snd (atomic_add_uint64 (snd (atomic_add_uint64 (2 ^ 64 - 1) 1)) (- 1)) = 2 ^ 64 - 1.
Proof.
  pose proof (atomic_add_uint64_round_trip (2 ^ 64 - 1) 1 0 ltac:(lia)) as H.
  cbn zeta in H. destruct H as (_ & _ & _ & H). split; [reflexivity|exact H].
Defined.

Lemma atomic_add_signed_witness :
  snd (atomic_add (2 ^ 31 - 1) 1) = - 2 ^ 31 /\
  snd (atomic_add (snd (atomic_add (2 ^ 31 - 1) 1)) (- 1)) = 2 ^ 31 - 1 /\
  snd (atomic_add_int64 (snd (atomic_add_int64 (- 2 ^ 63) (- 1))) (- - 1)) = - 2 ^ 63.
Proof.
  pose proof (atomic_add_signed_round_trip (2 ^ 31 - 1) (- 2 ^ 63) 1 0
                ltac:(lia) ltac:(lia)) as H1.
  pose proof (atomic_add_signed_round_trip 0 (- 2 ^ 63) (- 1) 0
                ltac:(lia) ltac:(lia)) as H2.
  cbn zeta in H1, H2.
  destruct H1 as ((_ & _ & _ & Ha) & _). destruct H2 as (_ & (_ & _ & _ & Hb)).
  split; [reflexivity|]. split; [exact Ha|exact Hb].
Defined.

Lemma check_source_host_witness :
  set_source_address resolve_sample 16 "192.168.%.%" = Some wildcard_source /\
  check_source_host wildcard_source "192.168.7.9" 0x0907A8C0 = true /\
  check_source_host wildcard_source "10.168.7.9" 0x0907A80A = false.
Proof.
  assert (Hsrc : set_source_address resolve_sample 16 "192.168.%.%" = Some wildcard_source)
    by reflexivity.
  split; [exact Hsrc|].
  destruct (check_source_host_wildcards resolve_sample 16 "192.168.%.%" "192.168.7.9"
              wildcard_source 0x0000A8C0 0x0907A8C0 Hsrc) as (_ & H).
  destruct (H eq_refl) as (_ & H2 & _).
  split; [apply (H2 eq_refl); split; reflexivity|reflexivity].
Defined.

Lemma multi_statement_witness :
  let out :=
    snd (snd (route_single_stmt cmp_rlag write_accepted close_handle no_ping
                configured_lag no_broadcast strtol_zero strtol_zero 0 sample_inst
                idle_rses multi_query)) in
  target_node out = Some 0%nat /\
  get_route_target out QUERY_TYPE_READ [] = TARGET_MASTER.
Proof.
  pose proof (multi_statement_pins_primary cmp_rlag write_accepted close_handle no_ping
                configured_lag no_broadcast strtol_zero strtol_zero 0 sample_inst
                idle_rses multi_query eq_refl eq_refl eq_refl eq_refl eq_refl) as H.
  cbn zeta in H. destruct H as (_ & _ & H1 & H2).
  split; [exact H1|exact (H2 eq_refl QUERY_TYPE_READ)].
Defined.

Lemma root_master_witness :
  exists m, get_root_master_bref idle_rses = Some m /\
            in_use_primary m = true /\
            backends idle_rses !! fst m = Some (snd m).
Proof.
  pose proof (root_master_is_first_shallowest idle_rses) as H.
  destruct (get_root_master_bref idle_rses) as [m|] eqn:E; [|discriminate E].
  exists m. destruct H as (H1 & H2 & _). auto.
Defined.

Lemma route_target_role_witness :
  0 < get_route_target idle_rses qtype_set_and_select [hint_lag_upper] < 32 /\
  has_role (get_route_target idle_rses qtype_set_and_select [hint_lag_upper]) = true.
Proof.
  exact (route_target_has_role idle_rses qtype_set_and_select [hint_lag_upper]).
Defined.

Lemma session_write_responses_witness :
  let out :=
    snd (route_session_write enqueue head_position exec_on_replicas responds_always
           pruning_rses (sample_query [] QUERY_TYPE_SESSION_WRITE) 3) in
  disable_sescmd_history (rses_config out) = true /\
  In (3, 0) (sescmd_responses out) /\
  sescmd_responses out = [(3, 0)].
Proof.
  pose proof (session_write_keeps_recent_responses enqueue head_position
                exec_on_replicas responds_always pruning_rses
                (sample_query [] QUERY_TYPE_SESSION_WRITE) 3) as H.
  cbn zeta in H. destruct H as (_ & H & _).
  split; [reflexivity|]. split; [|reflexivity].
  apply H; [right; left; reflexivity|cbn; lia].
Defined.

Lemma find_servers_witness :
  find_servers sample_matcher (-1) sample_mapping "select 1" =
    (None, alter set_error_printed 1%nat sample_mapping) /\
  fst (find_servers sample_matcher (-1) (drop 2 sample_mapping) "select 1") = Some 0%nat.
Proof.
  destruct (find_servers_first_match sample_matcher (-1) sample_mapping "select 1")
    as (_ & Herr & _).
  destruct (find_servers_first_match sample_matcher (-1) (drop 2 sample_mapping)
              "select 1") as (Hfirst & _).
  split.
  - apply (Herr 1%nat {| m_match := "(a+)+$"; m_regex := 1%nat; m_targets := ["R1"];
                         m_htype := HINT_ROUTE_TO_NAMED_SERVER;
                         m_error_printed := false |}).
    + reflexivity.
    + split; [reflexivity|discriminate].
    + intros [|k] r' Hk Hr; [|lia]. injection Hr as <-. split; reflexivity.
  - apply Hfirst.
    exists {| m_match := "^select"; m_regex := 2%nat; m_targets := ["->slave"];
              m_htype := HINT_ROUTE_TO_SLAVE; m_error_printed := false |}.
    split; [reflexivity|]. split; [discriminate|]. intros j r' Hj. lia.
Defined.

Lemma validate_ip_address_witness :
  validate_ip_address 16 "192.168.1.%" = true /\
  validate_ip_address 16 "%.168.1.1" = false /\
  validate_ip_address 16 "192.168.1." = false.
Proof.
  split; [|split].
  - apply validate_ip_address_accepts. repeat split; try discriminate. cbn. lia.
  - destruct (validate_ip_address 16 "%.168.1.1") eqn:E; [|reflexivity].
    apply validate_ip_address_accepts in E as (_ & _ & _ & E & _).
    exfalso. apply E. reflexivity.
  - destruct (validate_ip_address 16 "192.168.1.") eqn:E; [|reflexivity].
    apply validate_ip_address_accepts in E as (_ & _ & _ & _ & _ & E).
    exfalso. apply E. reflexivity.
Defined.

Lemma set_source_address_witness :
  set_source_address resolve_sample 16 "192.168.1.%" =
    Some {| m_address := "192.168.1.%"; m_ipv4 := 0x0000A8C0; m_netmask := 24 |} /\
  set_source_address resolve_sample 16 "192.168.1.7" =
    Some {| m_address := "192.168.1.7"; m_ipv4 := 0; m_netmask := 32 |} /\
  set_source_address (fun _ => None) 16 "192.168.1.%" = None.
Proof.
  rewrite !set_source_address_netmask. repeat split.
Defined.

Lemma param_names_witness :
  generate_param_names 3 ([], []) =
    (["match01"; "match02"; "match03"], ["target01"; "target02"; "target03"]) /\
  NoDup (fst (generate_param_names 3 ([], []))) /\
  fst (generate_param_names 100 ([], [])) !! 99%nat = Some "match10"%string.
Proof.
  pose proof (param_names_distinct 3) as H3.
  pose proof (param_names_distinct 100) as H100.
  cbn zeta in H3, H100.
  destruct H3 as (_ & _ & H3 & _). destruct H100 as (_ & _ & _ & H100).
  destruct (H3 ltac:(lia)) as (Hnodup & _).
  destruct (H100 ltac:(lia)) as (Ha & Hb & _).
  split; [reflexivity|]. split; [exact Hnodup|]. rewrite Ha. exact Hb.
Defined.
